(** * Listener: packet parser, flow table and capture loop

    A shallow embedding of [src/packet_parser.py] (FlowKey, FlowState,
    NetworkFeatures, PacketParser) and of the capture loop of
    [src/dpdk/packet_capture.py], followed by the properties of the
    specification that concern them; then the initialisation of the
    capture ([src/dpdk/dpdk_wrapper.py]), the dictionary of
    [src/json_converter.py] and the message key of
    [src/kafka_producer.py], with further properties of the code.

    Conventions of the embedding.
    - Python [int] is [Z]; [bytes] is [list byte]; [str] is [string].
    - A finite Python [float] is the rational [Q] it stands for.  The
      differences of timestamps that [FlowState.update] tests and stores
      and the product in [int(timestamp * 1000000)] are rounded to 53
      significant bits, to nearest, ties to even, as the hardware rounds
      them ([Py.round53]); flow durations, rates and statistics are
      computed exactly, so their last bits may differ from Python's.
      Infinities and NaN appear only as values of [PyFloat.t], at the
      entry of [parse_packet], where [int] rejects them; a difference that
      exceeds the largest float is outside the model.
    - [None]-able attributes are [option]s; Python truthiness is written
      out where the source relies on it.
    - Exceptions are values of [Py.exn]; code that can raise returns a
      [Py.result]; the body of a [try] runs in a state-and-exception monad
      so that mutations made before a [raise] survive it, as they do for
      Python objects.
    - [math.sqrt] is a parameter; [time.time()] is an explicit argument
      [now]. *)

From Stdlib Require Import ZArith QArith Qround Qabs Qpower.
From Stdlib Require Import List String Ascii Lia Lqa DecimalString.
From Stdlib Require DecimalN.
From Stdlib.Strings Require Import Byte.
From stdpp Require Import base gmap strings.
Import ListNotations.

Local Open Scope Z_scope.

(** ** Python primitives used by the sources *)

Module Py.

(** The exceptions the modelled code can meet.  [KeyboardInterrupt]
    derives from [BaseException] only; the others from [Exception]. *)
Inductive exn : Type :=
| StructError
| StatisticsError
| ZeroDivisionError
| ValueError
| OverflowError
| OSError
| TypeError
| RuntimeError
| KeyError
| KeyboardInterrupt.

(** [isinstance(e, Exception)], what [except Exception] tests. *)
Definition is_Exception (e : exn) : bool :=
  match e with
  | KeyboardInterrupt => false
  | _ => true
  end.

Inductive result (A : Type) : Type :=
| Ok (a : A)
| Raise (e : exn).
Arguments Ok {A} a.
Arguments Raise {A} e.

Definition rbind {A B} (r : result A) (k : A -> result B) : result B :=
  match r with
  | Ok a => k a
  | Raise e => Raise e
  end.

Definition bytes := list byte.

#[global] Instance byte_eq_decision : EqDecision byte := byte_eq_dec.

(** [l[lo:hi]] for [0 <= lo <= hi]: slices clamp, they never raise. *)
Definition slice {A} (l : list A) (lo hi : nat) : list A :=
  firstn (hi - lo) (skipn lo l).

Definition byte_val (b : byte) : Z := Z.of_N (Byte.to_N b).

(** Big-endian unsigned integer held by a byte string ([!B], [!H], [!L]). *)
Definition be_uint (bs : bytes) : Z :=
  fold_left (fun acc b => acc * 256 + byte_val b) bs 0.

(** [struct.unpack] raises [struct.error] unless the buffer has exactly
    the size of the format. *)
Definition sized {A} (n : nat) (data : bytes) (v : A) : result A :=
  if Nat.eqb (length data) n then Ok v else Raise StructError.

(** [struct.unpack('!6s6sH', data)] *)
Definition unpack_6s6sH (data : bytes) : result (bytes * bytes * Z) :=
  sized 14 data (slice data 0 6, slice data 6 12, be_uint (slice data 12 14)).

(** The tuple of [struct.unpack('!BBHHHBBH4s4s', data)], indexed 0..9. *)
Record ip_tuple : Type := {
  ip_0 : Z; ip_1 : Z; ip_2 : Z; ip_3 : Z; ip_4 : Z;
  ip_5 : Z; ip_6 : Z; ip_7 : Z; ip_8 : bytes; ip_9 : bytes
}.

Definition unpack_BBHHHBBH4s4s (data : bytes) : result ip_tuple :=
  sized 20 data
    {| ip_0 := be_uint (slice data 0 1);
       ip_1 := be_uint (slice data 1 2);
       ip_2 := be_uint (slice data 2 4);
       ip_3 := be_uint (slice data 4 6);
       ip_4 := be_uint (slice data 6 8);
       ip_5 := be_uint (slice data 8 9);
       ip_6 := be_uint (slice data 9 10);
       ip_7 := be_uint (slice data 10 12);
       ip_8 := slice data 12 16;
       ip_9 := slice data 16 20 |}.

(** The tuple of [struct.unpack('!HHLLBBHHH', data)], indexed 0..8. *)
Record tcp_tuple : Type := {
  tcp_0 : Z; tcp_1 : Z; tcp_2 : Z; tcp_3 : Z; tcp_4 : Z;
  tcp_5 : Z; tcp_6 : Z; tcp_7 : Z; tcp_8 : Z
}.

Definition unpack_HHLLBBHHH (data : bytes) : result tcp_tuple :=
  sized 20 data
    {| tcp_0 := be_uint (slice data 0 2);
       tcp_1 := be_uint (slice data 2 4);
       tcp_2 := be_uint (slice data 4 8);
       tcp_3 := be_uint (slice data 8 12);
       tcp_4 := be_uint (slice data 12 13);
       tcp_5 := be_uint (slice data 13 14);
       tcp_6 := be_uint (slice data 14 16);
       tcp_7 := be_uint (slice data 16 18);
       tcp_8 := be_uint (slice data 18 20) |}.

(** [struct.unpack('!HHHH', data)] *)
Definition unpack_HHHH (data : bytes) : result (Z * Z * Z * Z) :=
  sized 8 data
    (be_uint (slice data 0 2), be_uint (slice data 2 4),
     be_uint (slice data 4 6), be_uint (slice data 6 8)).

(** [str(n)] for a non-negative integer. *)
Definition str_of_Z (n : Z) : string :=
  NilZero.string_of_uint (N.to_uint (Z.to_N n)).

(** [sep.join(parts)] *)
Fixpoint join (sep : string) (parts : list string) : string :=
  match parts with
  | [] => EmptyString
  | [p] => p
  | p :: rest => String.append p (String.append sep (join sep rest))
  end.

(** Decimal fields joined by dots. *)
Definition dotted (packed : bytes) : string :=
  join "." (map (fun b => str_of_Z (byte_val b)) packed).

(** [socket.inet_ntoa(packed)]: dotted-quad text of a 4-byte address. *)
Definition inet_ntoa (packed : bytes) : result string :=
  if Nat.eqb (length packed) 4 then Ok (dotted packed) else Raise OSError.

Definition hex_digit (n : Z) : ascii :=
  ascii_of_N (Z.to_N (if n <? 10 then 48 + n else 87 + n)).

(** ['%02x' % b] *)
Definition hex2 (b : byte) : string :=
  String (hex_digit (byte_val b / 16))
    (String (hex_digit (byte_val b mod 16)) EmptyString).

(** Comparison of [(str, int)] tuples: the first components decide unless
    they are equal; strings compare by code point. *)
Definition tuple_lt (a b : string * Z) : bool :=
  if String.eqb (fst a) (fst b)
  then snd a <? snd b
  else String.ltb (fst a) (fst b).

(** Comparisons and truthiness of floats. *)
Definition Qgtb (x y : Q) : bool := (Qnum y * QDen x <? Qnum x * QDen y)%Z.
Definition Qltb (x y : Q) : bool := Qgtb y x.
Definition truthy (x : Q) : bool := negb (Qeq_bool x 0).

(** Rounding of a real number to a float: 53 significant bits, to nearest,
    ties to even.  [rne] rounds to an integer; [ilog2 x] is the exponent
    [e] with [2^e <= |x| < 2^(e+1)].  The exponent range is not bounded
    here: [PyFloat.of_real] turns what is too large into an infinity, and
    below the normal range a difference of two floats is exact and a
    product truncates to 0 whichever way it is rounded. *)
Definition rne (x : Q) : Z :=
  let f := Qfloor x in
  match (x - inject_Z f ?= 1 # 2)%Q with
  | Lt => f
  | Gt => f + 1
  | Eq => if Z.even f then f else f + 1
  end.

Definition ilog2 (x : Q) : Z :=
  let e := Z.log2 (Z.abs (Qnum x)) - Z.log2 (QDen x) in
  if Qltb (Qabs x) (2 ^ e) then e - 1 else e.

Definition round53 (x : Q) : Q :=
  if Qeq_bool x 0 then 0%Q
  else
    let ulp := (2 ^ (ilog2 x - 52))%Q in
    Qred (inject_Z (rne (x / ulp)) * ulp).

(** [x - y] on floats. *)
Definition fsub (x y : Q) : Q := round53 (x - y).

(** Truncation towards zero. *)
Definition trunc (x : Q) : Z := Z.quot (Qnum x) (QDen x).

(** [int(x)] where the float [x] is the rounded value of the argument:
    [int_of_float (t * 1000000)] is [int(t * 1000000)]. *)
Definition int_of_float (x : Q) : Z := trunc (round53 x).

(** [x / y] on floats. *)
Definition truediv (x y : Q) : result Q :=
  if Qeq_bool y 0 then Raise ZeroDivisionError else Ok (x / y)%Q.

Definition Qsum (l : list Q) : Q := fold_right Qplus 0%Q l.
Definition Qlen {A} (l : list A) : Q := inject_Z (Z.of_nat (length l)).

(** [statistics.mean(data)] *)
Definition mean (data : list Q) : result Q :=
  match data with
  | [] => Raise StatisticsError
  | _ => Ok (Qsum data / Qlen data)%Q
  end.

(** [statistics.variance(data)]: sample variance, divisor [n - 1]. *)
Definition variance (data : list Q) : result Q :=
  if (length data <? 2)%nat then Raise StatisticsError
  else
    let c := (Qsum data / Qlen data)%Q in
    Ok (Qsum (map (fun x => (x - c) * (x - c))%Q data) / (Qlen data - 1))%Q.

(** [statistics.stdev(data)]: square root of the sample variance. *)
Definition stdev (sqrt : Q -> Q) (data : list Q) : result Q :=
  rbind (variance data) (fun v => Ok (sqrt v)).

(** [min(data)] and [max(data)] on integers. *)
Definition min_ (data : list Z) : result Z :=
  match data with
  | [] => Raise ValueError
  | x :: rest => Ok (fold_left Z.min rest x)
  end.

Definition max_ (data : list Z) : result Z :=
  match data with
  | [] => Raise ValueError
  | x :: rest => Ok (fold_left Z.max rest x)
  end.

Definition ints (l : list Z) : list Q := map inject_Z l.

(** [sum(data)] on integers. *)
Definition sum_ (data : list Z) : Z := fold_right Z.add 0 data.

End Py.

Import Py.

(** ** class FlowKey *)

Module FlowKey.

Record t : Type := {
  ip1 : string; port1 : Z;
  ip2 : string; port2 : Z;
  protocol : Z;
  is_forward : bool
}.

(** [FlowKey.__init__] *)
Definition init (src_ip dst_ip : string) (src_port dst_port : Z)
    (protocol : Z) : t :=
  if tuple_lt (src_ip, src_port) (dst_ip, dst_port)
  then {| ip1 := src_ip; port1 := src_port;
          ip2 := dst_ip; port2 := dst_port;
          protocol := protocol; is_forward := true |}
  else {| ip1 := dst_ip; port1 := dst_port;
          ip2 := src_ip; port2 := src_port;
          protocol := protocol; is_forward := false |}.

(** The tuple on which [__hash__] and [__eq__] work. *)
Definition key (k : t) : string * Z * string * Z * Z :=
  (ip1 k, port1 k, ip2 k, port2 k, protocol k).

(** [FlowKey.__eq__] *)
Definition eq (a b : t) : bool := bool_decide (key a = key b).

(** [FlowKey.__hash__], over the builtin [hash] of tuples. *)
Definition hash (py_hash : string * Z * string * Z * Z -> Z) (k : t) : Z :=
  py_hash (key k).

End FlowKey.

(** ** class FlowState *)

Module FlowState.

Record t : Type := {
  (* Basic flow info *)
  start_time : option Q;
  last_time : option Q;
  total_packets : Z;
  (* Forward direction *)
  fwd_packets : Z;
  fwd_bytes : Z;
  fwd_packet_lengths : list Z;
  fwd_inter_arrival_times : list Q;
  fwd_last_time : option Q;
  (* Backward direction *)
  bwd_packets : Z;
  bwd_bytes : Z;
  bwd_packet_lengths : list Z;
  bwd_inter_arrival_times : list Q;
  bwd_last_time : option Q;
  (* All packets *)
  all_packet_lengths : list Z;
  all_inter_arrival_times : list Q;
  last_packet_time : option Q;
  (* TCP specific *)
  tcp_flags_count : gmap Z Z;
  tcp_window_sizes : list Z;
  (* Flow activity periods *)
  active_periods : list Q;
  idle_periods : list Q;
  last_activity_time : option Q
}.

(** [FlowState.__init__] *)
Definition init : t := {|
  start_time := None; last_time := None; total_packets := 0;
  fwd_packets := 0; fwd_bytes := 0; fwd_packet_lengths := [];
  fwd_inter_arrival_times := []; fwd_last_time := None;
  bwd_packets := 0; bwd_bytes := 0; bwd_packet_lengths := [];
  bwd_inter_arrival_times := []; bwd_last_time := None;
  all_packet_lengths := []; all_inter_arrival_times := [];
  last_packet_time := None;
  tcp_flags_count := ∅; tcp_window_sizes := [];
  active_periods := []; idle_periods := []; last_activity_time := None
|}.

(** [l.append(now - last)] when [last is not None], else [l] unchanged. *)
Definition append_gap (l : list Q) (last : option Q) (now : Q) : list Q :=
  match last with
  | Some t0 => l ++ [fsub now t0]
  | None => l
  end.

(** The activity-tracking block: the gap is kept only above one second. *)
Definition append_idle (l : list Q) (last : option Q) (now : Q) : list Q :=
  match last with
  | Some t0 =>
      let idle_time := fsub now t0 in
      if Qgtb idle_time 1 then l ++ [idle_time] else l
  | None => l
  end.

(** [defaultdict(int)]: [d[k] += 1]. *)
Definition incr (d : gmap Z Z) (k : Z) : gmap Z Z :=
  <[k := default 0 (d !! k) + 1]> d.

(** [FlowState.update] *)
Definition update (self : t) (packet_length : Z) (timestamp : Q)
    (is_forward : bool) (tcp_flags tcp_window : Z) : t :=
  let current_time := timestamp in
  (* Initialize timing *)
  let start_time' :=
    match start_time self with
    | None => Some current_time
    | Some s => Some s
    end in
  let last_activity_0 :=
    match start_time self with
    | None => Some current_time
    | Some _ => last_activity_time self
    end in
  {| start_time := start_time';
     last_time := Some current_time;
     total_packets := total_packets self + 1;
     fwd_packets :=
       if is_forward then fwd_packets self + 1 else fwd_packets self;
     fwd_bytes :=
       if is_forward then fwd_bytes self + packet_length else fwd_bytes self;
     fwd_packet_lengths :=
       if is_forward then fwd_packet_lengths self ++ [packet_length]
       else fwd_packet_lengths self;
     fwd_inter_arrival_times :=
       if is_forward
       then append_gap (fwd_inter_arrival_times self) (fwd_last_time self)
              current_time
       else fwd_inter_arrival_times self;
     fwd_last_time :=
       if is_forward then Some current_time else fwd_last_time self;
     bwd_packets :=
       if is_forward then bwd_packets self else bwd_packets self + 1;
     bwd_bytes :=
       if is_forward then bwd_bytes self else bwd_bytes self + packet_length;
     bwd_packet_lengths :=
       if is_forward then bwd_packet_lengths self
       else bwd_packet_lengths self ++ [packet_length];
     bwd_inter_arrival_times :=
       if is_forward then bwd_inter_arrival_times self
       else append_gap (bwd_inter_arrival_times self) (bwd_last_time self)
              current_time;
     bwd_last_time :=
       if is_forward then bwd_last_time self else Some current_time;
     all_packet_lengths := all_packet_lengths self ++ [packet_length];
     all_inter_arrival_times :=
       append_gap (all_inter_arrival_times self) (last_packet_time self)
         current_time;
     last_packet_time := Some current_time;
     tcp_flags_count :=
       if 0 <? tcp_flags then incr (tcp_flags_count self) tcp_flags
       else tcp_flags_count self;
     tcp_window_sizes :=
       if 0 <? tcp_window then tcp_window_sizes self ++ [tcp_window]
       else tcp_window_sizes self;
     active_periods := active_periods self;
     idle_periods := append_idle (idle_periods self) last_activity_0
                       current_time;
     last_activity_time := Some current_time |}.

(** One call of [update], as data. *)
Record call : Type := {
  c_packet_length : Z;
  c_timestamp : Q;
  c_is_forward : bool;
  c_tcp_flags : Z;
  c_tcp_window : Z
}.

Definition apply (self : t) (c : call) : t :=
  update self (c_packet_length c) (c_timestamp c) (c_is_forward c)
    (c_tcp_flags c) (c_tcp_window c).

(** A sequence of [update] calls on one object, in order. *)
Definition run (self : t) (calls : list call) : t :=
  fold_left apply calls self.

(** What every sequence of updates maintains. *)
Record inv (F : t) : Prop := {
  inv_total : total_packets F = fwd_packets F + bwd_packets F;
  inv_fwd_bytes : fwd_bytes F = sum_ (fwd_packet_lengths F);
  inv_bwd_bytes : bwd_bytes F = sum_ (bwd_packet_lengths F);
  inv_count : total_packets F = Z.of_nat (length (all_packet_lengths F));
  inv_iat :
    Z.of_nat (length (all_inter_arrival_times F))
    = Z.max 0 (total_packets F - 1);
  inv_last_packet : last_packet_time F = None <-> total_packets F = 0
}.

(** Timestamps that never go back from one call to the next. *)
Fixpoint nondecreasing (ts : list Q) : Prop :=
  match ts with
  | x :: (y :: _) as rest => (x <= y)%Q /\ nondecreasing rest
  | _ => True
  end.

End FlowState.

(** ** The dictionary returned by [calculate_flow_statistics] *)

Module Stats.

Record t : Type := {
  flow_duration : Q;
  total_fwd_packets : Z;
  total_bwd_packets : Z;
  total_length_fwd_packets : Z;
  total_length_bwd_packets : Z;
  packet_length_mean : Q;
  packet_length_std : Q;
  packet_length_min : Z;
  packet_length_max : Z;
  packet_length_variance : Q;
  fwd_packet_length_mean : Q;
  flow_bytes_per_second : Q;
  flow_packets_per_second : Q;
  fwd_packets_per_second : Q;
  bwd_packets_per_second : Q;
  flow_inter_arrival_time_mean : Q;
  flow_inter_arrival_time_std : Q;
  fwd_inter_arrival_time_mean : Q;
  bwd_inter_arrival_time_mean : Q;
  active_mean : Q;
  active_std : Q;
  idle_mean : Q;
  idle_std : Q;
  tcp_window_size_mean : Q;
  tcp_flags_count : Z;
  flow_bytes_total : Z
}.

End Stats.

(** ** class NetworkFeatures *)

Module NetworkFeatures.

Record t : Type := {
  src_ip : string;
  dst_ip : string;
  src_port : Z;
  dst_port : Z;
  protocol : Z;
  packet_length : Z;
  header_length : Z;
  ttl : Z;
  tos : Z;
  tcp_flags : Z;
  tcp_window : Z;
  tcp_seq : Z;
  tcp_ack : Z;
  tcp_flag_fin : Z;
  tcp_flag_syn : Z;
  tcp_flag_rst : Z;
  tcp_flag_psh : Z;
  tcp_flag_ack : Z;
  tcp_flag_urg : Z;
  timestamp : Z;
  flow_duration : Q;
  total_fwd_packets : Z;
  total_bwd_packets : Z;
  total_length_fwd_packets : Z;
  total_length_bwd_packets : Z;
  packet_length_mean : Q;
  packet_length_std : Q;
  packet_length_min : Z;
  packet_length_max : Z;
  packet_length_variance : Q;
  fwd_packet_length_mean : Q;
  flow_bytes_per_second : Q;
  flow_packets_per_second : Q;
  fwd_packets_per_second : Q;
  bwd_packets_per_second : Q;
  flow_inter_arrival_time_mean : Q;
  flow_inter_arrival_time_std : Q;
  fwd_inter_arrival_time_mean : Q;
  bwd_inter_arrival_time_mean : Q;
  active_mean : Q;
  active_std : Q;
  idle_mean : Q;
  idle_std : Q;
  tcp_window_size_mean : Q;
  tcp_flags_count : Z;
  flow_bytes_total : Z;
  label : string
}.

(** [NetworkFeatures.__init__] *)
Definition init : t := {|
  src_ip := "";
  dst_ip := "";
  src_port := 0;
  dst_port := 0;
  protocol := 0;
  packet_length := 0;
  header_length := 0;
  ttl := 0;
  tos := 0;
  tcp_flags := 0;
  tcp_window := 0;
  tcp_seq := 0;
  tcp_ack := 0;
  tcp_flag_fin := 0;
  tcp_flag_syn := 0;
  tcp_flag_rst := 0;
  tcp_flag_psh := 0;
  tcp_flag_ack := 0;
  tcp_flag_urg := 0;
  timestamp := 0;
  flow_duration := 0%Q;
  total_fwd_packets := 0;
  total_bwd_packets := 0;
  total_length_fwd_packets := 0;
  total_length_bwd_packets := 0;
  packet_length_mean := 0%Q;
  packet_length_std := 0%Q;
  packet_length_min := 0;
  packet_length_max := 0;
  packet_length_variance := 0%Q;
  fwd_packet_length_mean := 0%Q;
  flow_bytes_per_second := 0%Q;
  flow_packets_per_second := 0%Q;
  fwd_packets_per_second := 0%Q;
  bwd_packets_per_second := 0%Q;
  flow_inter_arrival_time_mean := 0%Q;
  flow_inter_arrival_time_std := 0%Q;
  fwd_inter_arrival_time_mean := 0%Q;
  bwd_inter_arrival_time_mean := 0%Q;
  active_mean := 0%Q;
  active_std := 0%Q;
  idle_mean := 0%Q;
  idle_std := 0%Q;
  tcp_window_size_mean := 0%Q;
  tcp_flags_count := 0;
  flow_bytes_total := 0;
  label := "BENIGN"
|}.

(** [features.timestamp = v] *)
Definition set_timestamp (self : t) (v : Z) : t := {|
  src_ip := src_ip self;
  dst_ip := dst_ip self;
  src_port := src_port self;
  dst_port := dst_port self;
  protocol := protocol self;
  packet_length := packet_length self;
  header_length := header_length self;
  ttl := ttl self;
  tos := tos self;
  tcp_flags := tcp_flags self;
  tcp_window := tcp_window self;
  tcp_seq := tcp_seq self;
  tcp_ack := tcp_ack self;
  tcp_flag_fin := tcp_flag_fin self;
  tcp_flag_syn := tcp_flag_syn self;
  tcp_flag_rst := tcp_flag_rst self;
  tcp_flag_psh := tcp_flag_psh self;
  tcp_flag_ack := tcp_flag_ack self;
  tcp_flag_urg := tcp_flag_urg self;
  timestamp := v;
  flow_duration := flow_duration self;
  total_fwd_packets := total_fwd_packets self;
  total_bwd_packets := total_bwd_packets self;
  total_length_fwd_packets := total_length_fwd_packets self;
  total_length_bwd_packets := total_length_bwd_packets self;
  packet_length_mean := packet_length_mean self;
  packet_length_std := packet_length_std self;
  packet_length_min := packet_length_min self;
  packet_length_max := packet_length_max self;
  packet_length_variance := packet_length_variance self;
  fwd_packet_length_mean := fwd_packet_length_mean self;
  flow_bytes_per_second := flow_bytes_per_second self;
  flow_packets_per_second := flow_packets_per_second self;
  fwd_packets_per_second := fwd_packets_per_second self;
  bwd_packets_per_second := bwd_packets_per_second self;
  flow_inter_arrival_time_mean := flow_inter_arrival_time_mean self;
  flow_inter_arrival_time_std := flow_inter_arrival_time_std self;
  fwd_inter_arrival_time_mean := fwd_inter_arrival_time_mean self;
  bwd_inter_arrival_time_mean := bwd_inter_arrival_time_mean self;
  active_mean := active_mean self;
  active_std := active_std self;
  idle_mean := idle_mean self;
  idle_std := idle_std self;
  tcp_window_size_mean := tcp_window_size_mean self;
  tcp_flags_count := tcp_flags_count self;
  flow_bytes_total := flow_bytes_total self;
  label := label self
|}.

(** [features.packet_length = v] *)
Definition set_packet_length (self : t) (v : Z) : t := {|
  src_ip := src_ip self;
  dst_ip := dst_ip self;
  src_port := src_port self;
  dst_port := dst_port self;
  protocol := protocol self;
  packet_length := v;
  header_length := header_length self;
  ttl := ttl self;
  tos := tos self;
  tcp_flags := tcp_flags self;
  tcp_window := tcp_window self;
  tcp_seq := tcp_seq self;
  tcp_ack := tcp_ack self;
  tcp_flag_fin := tcp_flag_fin self;
  tcp_flag_syn := tcp_flag_syn self;
  tcp_flag_rst := tcp_flag_rst self;
  tcp_flag_psh := tcp_flag_psh self;
  tcp_flag_ack := tcp_flag_ack self;
  tcp_flag_urg := tcp_flag_urg self;
  timestamp := timestamp self;
  flow_duration := flow_duration self;
  total_fwd_packets := total_fwd_packets self;
  total_bwd_packets := total_bwd_packets self;
  total_length_fwd_packets := total_length_fwd_packets self;
  total_length_bwd_packets := total_length_bwd_packets self;
  packet_length_mean := packet_length_mean self;
  packet_length_std := packet_length_std self;
  packet_length_min := packet_length_min self;
  packet_length_max := packet_length_max self;
  packet_length_variance := packet_length_variance self;
  fwd_packet_length_mean := fwd_packet_length_mean self;
  flow_bytes_per_second := flow_bytes_per_second self;
  flow_packets_per_second := flow_packets_per_second self;
  fwd_packets_per_second := fwd_packets_per_second self;
  bwd_packets_per_second := bwd_packets_per_second self;
  flow_inter_arrival_time_mean := flow_inter_arrival_time_mean self;
  flow_inter_arrival_time_std := flow_inter_arrival_time_std self;
  fwd_inter_arrival_time_mean := fwd_inter_arrival_time_mean self;
  bwd_inter_arrival_time_mean := bwd_inter_arrival_time_mean self;
  active_mean := active_mean self;
  active_std := active_std self;
  idle_mean := idle_mean self;
  idle_std := idle_std self;
  tcp_window_size_mean := tcp_window_size_mean self;
  tcp_flags_count := tcp_flags_count self;
  flow_bytes_total := flow_bytes_total self;
  label := label self
|}.

(** [features.label = v] *)
Definition set_label (self : t) (v : string) : t := {|
  src_ip := src_ip self;
  dst_ip := dst_ip self;
  src_port := src_port self;
  dst_port := dst_port self;
  protocol := protocol self;
  packet_length := packet_length self;
  header_length := header_length self;
  ttl := ttl self;
  tos := tos self;
  tcp_flags := tcp_flags self;
  tcp_window := tcp_window self;
  tcp_seq := tcp_seq self;
  tcp_ack := tcp_ack self;
  tcp_flag_fin := tcp_flag_fin self;
  tcp_flag_syn := tcp_flag_syn self;
  tcp_flag_rst := tcp_flag_rst self;
  tcp_flag_psh := tcp_flag_psh self;
  tcp_flag_ack := tcp_flag_ack self;
  tcp_flag_urg := tcp_flag_urg self;
  timestamp := timestamp self;
  flow_duration := flow_duration self;
  total_fwd_packets := total_fwd_packets self;
  total_bwd_packets := total_bwd_packets self;
  total_length_fwd_packets := total_length_fwd_packets self;
  total_length_bwd_packets := total_length_bwd_packets self;
  packet_length_mean := packet_length_mean self;
  packet_length_std := packet_length_std self;
  packet_length_min := packet_length_min self;
  packet_length_max := packet_length_max self;
  packet_length_variance := packet_length_variance self;
  fwd_packet_length_mean := fwd_packet_length_mean self;
  flow_bytes_per_second := flow_bytes_per_second self;
  flow_packets_per_second := flow_packets_per_second self;
  fwd_packets_per_second := fwd_packets_per_second self;
  bwd_packets_per_second := bwd_packets_per_second self;
  flow_inter_arrival_time_mean := flow_inter_arrival_time_mean self;
  flow_inter_arrival_time_std := flow_inter_arrival_time_std self;
  fwd_inter_arrival_time_mean := fwd_inter_arrival_time_mean self;
  bwd_inter_arrival_time_mean := bwd_inter_arrival_time_mean self;
  active_mean := active_mean self;
  active_std := active_std self;
  idle_mean := idle_mean self;
  idle_std := idle_std self;
  tcp_window_size_mean := tcp_window_size_mean self;
  tcp_flags_count := tcp_flags_count self;
  flow_bytes_total := flow_bytes_total self;
  label := v
|}.

(** [features.src_port = sp; features.dst_port = dp] *)
Definition set_ports (self : t) (sp dp : Z) : t := {|
  src_ip := src_ip self;
  dst_ip := dst_ip self;
  src_port := sp;
  dst_port := dp;
  protocol := protocol self;
  packet_length := packet_length self;
  header_length := header_length self;
  ttl := ttl self;
  tos := tos self;
  tcp_flags := tcp_flags self;
  tcp_window := tcp_window self;
  tcp_seq := tcp_seq self;
  tcp_ack := tcp_ack self;
  tcp_flag_fin := tcp_flag_fin self;
  tcp_flag_syn := tcp_flag_syn self;
  tcp_flag_rst := tcp_flag_rst self;
  tcp_flag_psh := tcp_flag_psh self;
  tcp_flag_ack := tcp_flag_ack self;
  tcp_flag_urg := tcp_flag_urg self;
  timestamp := timestamp self;
  flow_duration := flow_duration self;
  total_fwd_packets := total_fwd_packets self;
  total_bwd_packets := total_bwd_packets self;
  total_length_fwd_packets := total_length_fwd_packets self;
  total_length_bwd_packets := total_length_bwd_packets self;
  packet_length_mean := packet_length_mean self;
  packet_length_std := packet_length_std self;
  packet_length_min := packet_length_min self;
  packet_length_max := packet_length_max self;
  packet_length_variance := packet_length_variance self;
  fwd_packet_length_mean := fwd_packet_length_mean self;
  flow_bytes_per_second := flow_bytes_per_second self;
  flow_packets_per_second := flow_packets_per_second self;
  fwd_packets_per_second := fwd_packets_per_second self;
  bwd_packets_per_second := bwd_packets_per_second self;
  flow_inter_arrival_time_mean := flow_inter_arrival_time_mean self;
  flow_inter_arrival_time_std := flow_inter_arrival_time_std self;
  fwd_inter_arrival_time_mean := fwd_inter_arrival_time_mean self;
  bwd_inter_arrival_time_mean := bwd_inter_arrival_time_mean self;
  active_mean := active_mean self;
  active_std := active_std self;
  idle_mean := idle_mean self;
  idle_std := idle_std self;
  tcp_window_size_mean := tcp_window_size_mean self;
  tcp_flags_count := tcp_flags_count self;
  flow_bytes_total := flow_bytes_total self;
  label := label self
|}.

(** The six assignments from [ip_info]. *)
Definition set_ip (self : t) (s d : string) (p tl ts hl : Z) : t := {|
  src_ip := s;
  dst_ip := d;
  src_port := src_port self;
  dst_port := dst_port self;
  protocol := p;
  packet_length := packet_length self;
  header_length := hl;
  ttl := tl;
  tos := ts;
  tcp_flags := tcp_flags self;
  tcp_window := tcp_window self;
  tcp_seq := tcp_seq self;
  tcp_ack := tcp_ack self;
  tcp_flag_fin := tcp_flag_fin self;
  tcp_flag_syn := tcp_flag_syn self;
  tcp_flag_rst := tcp_flag_rst self;
  tcp_flag_psh := tcp_flag_psh self;
  tcp_flag_ack := tcp_flag_ack self;
  tcp_flag_urg := tcp_flag_urg self;
  timestamp := timestamp self;
  flow_duration := flow_duration self;
  total_fwd_packets := total_fwd_packets self;
  total_bwd_packets := total_bwd_packets self;
  total_length_fwd_packets := total_length_fwd_packets self;
  total_length_bwd_packets := total_length_bwd_packets self;
  packet_length_mean := packet_length_mean self;
  packet_length_std := packet_length_std self;
  packet_length_min := packet_length_min self;
  packet_length_max := packet_length_max self;
  packet_length_variance := packet_length_variance self;
  fwd_packet_length_mean := fwd_packet_length_mean self;
  flow_bytes_per_second := flow_bytes_per_second self;
  flow_packets_per_second := flow_packets_per_second self;
  fwd_packets_per_second := fwd_packets_per_second self;
  bwd_packets_per_second := bwd_packets_per_second self;
  flow_inter_arrival_time_mean := flow_inter_arrival_time_mean self;
  flow_inter_arrival_time_std := flow_inter_arrival_time_std self;
  fwd_inter_arrival_time_mean := fwd_inter_arrival_time_mean self;
  bwd_inter_arrival_time_mean := bwd_inter_arrival_time_mean self;
  active_mean := active_mean self;
  active_std := active_std self;
  idle_mean := idle_mean self;
  idle_std := idle_std self;
  tcp_window_size_mean := tcp_window_size_mean self;
  tcp_flags_count := tcp_flags_count self;
  flow_bytes_total := flow_bytes_total self;
  label := label self
|}.

(** The assignments from [tcp_info] other than the ports. *)
Definition set_tcp (self : t)
    (seq ack flags window fin syn rst psh fack urg : Z) : t := {|
  src_ip := src_ip self;
  dst_ip := dst_ip self;
  src_port := src_port self;
  dst_port := dst_port self;
  protocol := protocol self;
  packet_length := packet_length self;
  header_length := header_length self;
  ttl := ttl self;
  tos := tos self;
  tcp_flags := flags;
  tcp_window := window;
  tcp_seq := seq;
  tcp_ack := ack;
  tcp_flag_fin := fin;
  tcp_flag_syn := syn;
  tcp_flag_rst := rst;
  tcp_flag_psh := psh;
  tcp_flag_ack := fack;
  tcp_flag_urg := urg;
  timestamp := timestamp self;
  flow_duration := flow_duration self;
  total_fwd_packets := total_fwd_packets self;
  total_bwd_packets := total_bwd_packets self;
  total_length_fwd_packets := total_length_fwd_packets self;
  total_length_bwd_packets := total_length_bwd_packets self;
  packet_length_mean := packet_length_mean self;
  packet_length_std := packet_length_std self;
  packet_length_min := packet_length_min self;
  packet_length_max := packet_length_max self;
  packet_length_variance := packet_length_variance self;
  fwd_packet_length_mean := fwd_packet_length_mean self;
  flow_bytes_per_second := flow_bytes_per_second self;
  flow_packets_per_second := flow_packets_per_second self;
  fwd_packets_per_second := fwd_packets_per_second self;
  bwd_packets_per_second := bwd_packets_per_second self;
  flow_inter_arrival_time_mean := flow_inter_arrival_time_mean self;
  flow_inter_arrival_time_std := flow_inter_arrival_time_std self;
  fwd_inter_arrival_time_mean := fwd_inter_arrival_time_mean self;
  bwd_inter_arrival_time_mean := bwd_inter_arrival_time_mean self;
  active_mean := active_mean self;
  active_std := active_std self;
  idle_mean := idle_mean self;
  idle_std := idle_std self;
  tcp_window_size_mean := tcp_window_size_mean self;
  tcp_flags_count := tcp_flags_count self;
  flow_bytes_total := flow_bytes_total self;
  label := label self
|}.

(** The assignments from [flow_stats]. *)
Definition set_flow_stats (self : t) (st : Stats.t) : t := {|
  src_ip := src_ip self;
  dst_ip := dst_ip self;
  src_port := src_port self;
  dst_port := dst_port self;
  protocol := protocol self;
  packet_length := packet_length self;
  header_length := header_length self;
  ttl := ttl self;
  tos := tos self;
  tcp_flags := tcp_flags self;
  tcp_window := tcp_window self;
  tcp_seq := tcp_seq self;
  tcp_ack := tcp_ack self;
  tcp_flag_fin := tcp_flag_fin self;
  tcp_flag_syn := tcp_flag_syn self;
  tcp_flag_rst := tcp_flag_rst self;
  tcp_flag_psh := tcp_flag_psh self;
  tcp_flag_ack := tcp_flag_ack self;
  tcp_flag_urg := tcp_flag_urg self;
  timestamp := timestamp self;
  flow_duration := Stats.flow_duration st;
  total_fwd_packets := Stats.total_fwd_packets st;
  total_bwd_packets := Stats.total_bwd_packets st;
  total_length_fwd_packets := Stats.total_length_fwd_packets st;
  total_length_bwd_packets := Stats.total_length_bwd_packets st;
  packet_length_mean := Stats.packet_length_mean st;
  packet_length_std := Stats.packet_length_std st;
  packet_length_min := Stats.packet_length_min st;
  packet_length_max := Stats.packet_length_max st;
  packet_length_variance := Stats.packet_length_variance st;
  fwd_packet_length_mean := Stats.fwd_packet_length_mean st;
  flow_bytes_per_second := Stats.flow_bytes_per_second st;
  flow_packets_per_second := Stats.flow_packets_per_second st;
  fwd_packets_per_second := Stats.fwd_packets_per_second st;
  bwd_packets_per_second := Stats.bwd_packets_per_second st;
  flow_inter_arrival_time_mean := Stats.flow_inter_arrival_time_mean st;
  flow_inter_arrival_time_std := Stats.flow_inter_arrival_time_std st;
  fwd_inter_arrival_time_mean := Stats.fwd_inter_arrival_time_mean st;
  bwd_inter_arrival_time_mean := Stats.bwd_inter_arrival_time_mean st;
  active_mean := Stats.active_mean st;
  active_std := Stats.active_std st;
  idle_mean := Stats.idle_mean st;
  idle_std := Stats.idle_std st;
  tcp_window_size_mean := Stats.tcp_window_size_mean st;
  tcp_flags_count := Stats.tcp_flags_count st;
  flow_bytes_total := Stats.flow_bytes_total st;
  label := label self
|}.

(** [f'] has the packet length, timestamp and label of [f]. *)
Definition same_base (f f' : t) : Prop :=
  packet_length f' = packet_length f /\
  timestamp f' = timestamp f /\
  label f' = label f.

(** [f'] has, besides, the IP-level fields of [f]. *)
Definition same_ip (f f' : t) : Prop :=
  same_base f f' /\
  src_ip f' = src_ip f /\ dst_ip f' = dst_ip f /\
  protocol f' = protocol f /\ ttl f' = ttl f /\ tos f' = tos f /\
  header_length f' = header_length f.

End NetworkFeatures.

(** ** class PacketParser *)

Module PacketParser.

Notation "'let*' x ':=' e 'in' k" := (rbind e (fun x => k))
  (at level 10, x pattern, e at level 100, k at level 200, only parsing).

(** [len(packet_data)] and slices at integer offsets (never negative here). *)
Definition len {A} (l : list A) : Z := Z.of_nat (length l).
Definition sub {A} (l : list A) (lo hi : Z) : list A :=
  slice l (Z.to_nat lo) (Z.to_nat hi).

(** The key type of the [flow_states] dictionary: what [FlowKey.__eq__] and
    [FlowKey.__hash__] look at. *)
Abbreviation flow_id := (string * Z * string * Z * Z)%type.

(** Class-level attributes [PacketParser.flow_states] and
    [PacketParser.last_cleanup]. *)
Record state : Type := {
  flow_states : gmap flow_id FlowState.t;
  last_cleanup : Q
}.

(** The test [flow_state.last_time and flow_state.last_time < cutoff_time]:
    [None] and [0.0] are both falsy. *)
Definition stale (cutoff_time : Q) (flow_state : FlowState.t) : bool :=
  match FlowState.last_time flow_state with
  | Some t => truthy t && Qltb t cutoff_time
  | None => false
  end.

(** [PacketParser.cleanup_old_flows], with [now] the value of [time.time()]. *)
Definition cleanup_old_flows (now : Q) (st : state) : state :=
  let current_time := now in
  if Qgtb (current_time - last_cleanup st) 60 then
    let cutoff_time := (current_time - 300)%Q in
    let flows_to_remove :=
      map fst
        (List.filter (fun kv => stale cutoff_time (snd kv))
           (map_to_list (flow_states st))) in
    {| flow_states :=
         fold_left (fun m flow_key => delete flow_key m) flows_to_remove
           (flow_states st);
       last_cleanup := current_time |}
  else st.

(** [PacketParser.parse_ethernet_header] *)
Definition parse_ethernet_header (packet_data : bytes)
    : result (option string * option string * option Z) :=
  if len packet_data <? 14 then Ok (None, None, None)
  else
    let* eth_header := unpack_6s6sH (sub packet_data 0 14) in
    let '(h0, h1, h2) := eth_header in
    let dest_mac := join ":" (map hex2 h0) in
    let src_mac := join ":" (map hex2 h1) in
    let eth_type := h2 in
    Ok (Some dest_mac, Some src_mac, Some eth_type).

(** The EtherType [parse_packet] compares with [0x0800]: the third
    component returned by [parse_ethernet_header]. *)
Definition eth_type_of (packet_data : bytes) : option Z :=
  match parse_ethernet_header packet_data with
  | Ok (_, _, eth_type) => eth_type
  | Raise _ => None
  end.

(** The dictionary [ip_info]. *)
Module ip_info.
Record t : Type := {
  version : Z;
  header_length : Z;
  tos : Z;
  total_length : Z;
  ttl : Z;
  protocol : Z;
  src_ip : string;
  dst_ip : string
}.
End ip_info.

(** [PacketParser.parse_ip_header]; [None] stands for the pair
    [(None, None)]. *)
Definition parse_ip_header (packet_data : bytes) (offset : Z)
    : result (option (ip_info.t * Z)) :=
  if len packet_data <? offset + 20 then Ok None
  else
    let* ip_header :=
      unpack_BBHHHBBH4s4s (sub packet_data offset (offset + 20)) in
    let version_ihl := ip_0 ip_header in
    let version := Z.shiftr version_ihl 4 in
    let ihl := Z.land version_ihl 0xF in
    let header_length := ihl * 4 in
    let tos := ip_1 ip_header in
    let total_length := ip_2 ip_header in
    let ttl := ip_5 ip_header in
    let protocol := ip_6 ip_header in
    let* src_ip := inet_ntoa (ip_8 ip_header) in
    let* dst_ip := inet_ntoa (ip_9 ip_header) in
    Ok (Some ({| ip_info.version := version;
                 ip_info.header_length := header_length;
                 ip_info.tos := tos;
                 ip_info.total_length := total_length;
                 ip_info.ttl := ttl;
                 ip_info.protocol := protocol;
                 ip_info.src_ip := src_ip;
                 ip_info.dst_ip := dst_ip |},
              offset + header_length)).

(** The dictionary [tcp_info]. *)
Module tcp_info.
Record t : Type := {
  src_port : Z;
  dst_port : Z;
  seq_num : Z;
  ack_num : Z;
  flags : Z;
  window : Z;
  flag_fin : Z;
  flag_syn : Z;
  flag_rst : Z;
  flag_psh : Z;
  flag_ack : Z;
  flag_urg : Z
}.
End tcp_info.

(** [PacketParser.parse_tcp_header]; [None] stands for the empty dict. *)
Definition parse_tcp_header (packet_data : bytes) (offset : Z)
    : result (option tcp_info.t) :=
  if len packet_data <? offset + 20 then Ok None
  else
    let* tcp_header :=
      unpack_HHLLBBHHH (sub packet_data offset (offset + 20)) in
    let src_port := tcp_0 tcp_header in
    let dst_port := tcp_1 tcp_header in
    let seq_num := tcp_2 tcp_header in
    let ack_num := tcp_3 tcp_header in
    let flags := tcp_5 tcp_header in
    let window := tcp_6 tcp_header in
    Ok (Some {| tcp_info.src_port := src_port;
                tcp_info.dst_port := dst_port;
                tcp_info.seq_num := seq_num;
                tcp_info.ack_num := ack_num;
                tcp_info.flags := flags;
                tcp_info.window := window;
                tcp_info.flag_fin := Z.land flags 0x01;
                tcp_info.flag_syn := Z.shiftr (Z.land flags 0x02) 1;
                tcp_info.flag_rst := Z.shiftr (Z.land flags 0x04) 2;
                tcp_info.flag_psh := Z.shiftr (Z.land flags 0x08) 3;
                tcp_info.flag_ack := Z.shiftr (Z.land flags 0x10) 4;
                tcp_info.flag_urg := Z.shiftr (Z.land flags 0x20) 5 |}).

(** The dictionary returned by [parse_udp_header]. *)
Module udp_info.
Record t : Type := {
  src_port : Z;
  dst_port : Z;
  length : Z;
  checksum : Z
}.
End udp_info.

(** [PacketParser.parse_udp_header]; [None] stands for the empty dict. *)
Definition parse_udp_header (packet_data : bytes) (offset : Z)
    : result (option udp_info.t) :=
  if len packet_data <? offset + 8 then Ok None
  else
    let* udp_header := unpack_HHHH (sub packet_data offset (offset + 8)) in
    let '(u0, u1, u2, u3) := udp_header in
    Ok (Some {| udp_info.src_port := u0;
                udp_info.dst_port := u1;
                udp_info.length := u2;
                udp_info.checksum := u3 |}).

(** [x if len(data) > 1 else 0] *)
Definition if_many {A} (data : list A) (x : result Q) : result Q :=
  if 1 <? len data then x else Ok 0%Q.

(** [statistics.mean(data)] under [if data:], else [0]. *)
Definition mean_or_0 (data : list Q) : result Q :=
  match data with
  | [] => Ok 0%Q
  | _ => mean data
  end.

(** [statistics.variance(data) if len(data) > 1 else 0] under [if data:],
    else [0]. *)
Definition variance_or_0 (data : list Q) : result Q :=
  match data with
  | [] => Ok 0%Q
  | _ => if_many data (variance data)
  end.

(** [min(data)] and [max(data)] under [if data:], else [0]. *)
Definition min_or_0 (data : list Z) : result Z :=
  match data with
  | [] => Ok 0
  | _ => min_ data
  end.

Definition max_or_0 (data : list Z) : result Z :=
  match data with
  | [] => Ok 0
  | _ => max_ data
  end.

(** The block "Flow rate calculations": the four rates, in the order
    bytes, packets, forward packets, backward packets. *)
Definition rates (duration : Q) (flow_state : FlowState.t)
    : result (Q * Q * Q * Q) :=
  if Qgtb duration 0 then
    let total_bytes :=
      FlowState.fwd_bytes flow_state + FlowState.bwd_bytes flow_state in
    let* r1 := truediv (inject_Z total_bytes) duration in
    let* r2 :=
      truediv (inject_Z (FlowState.total_packets flow_state)) duration in
    let* r3 :=
      truediv (inject_Z (FlowState.fwd_packets flow_state)) duration in
    let* r4 :=
      truediv (inject_Z (FlowState.bwd_packets flow_state)) duration in
    Ok (r1, r2, r3, r4)
  else Ok (0%Q, 0%Q, 0%Q, 0%Q).

(** The block "Flow duration"; a [start_time] of [None] or [0.0] is falsy. *)
Definition duration_since_start (flow_state : FlowState.t)
    (current_time : Q) : Q :=
  match FlowState.start_time flow_state with
  | Some s => if truthy s then (current_time - s)%Q else 0%Q
  | None => 0%Q
  end.

Section Statistics.

Variable sqrt : Q -> Q.

(** [statistics.stdev(data) if len(data) > 1 else 0] under [if data:],
    else [0]. *)
Definition std_or_0 (data : list Q) : result Q :=
  match data with
  | [] => Ok 0%Q
  | _ => if_many data (stdev sqrt data)
  end.

(** [PacketParser.calculate_flow_statistics] *)
Definition calculate_flow_statistics (flow_state : FlowState.t)
    (current_time : Q) : result Stats.t :=
  (* Flow duration *)
  let flow_duration := duration_since_start flow_state current_time in
  (* Packet length statistics *)
  let lengths := FlowState.all_packet_lengths flow_state in
  let* packet_length_mean := mean_or_0 (ints lengths) in
  let* packet_length_std := std_or_0 (ints lengths) in
  let* packet_length_min := min_or_0 lengths in
  let* packet_length_max := max_or_0 lengths in
  let* packet_length_variance := variance_or_0 (ints lengths) in
  (* Forward packet length statistics *)
  let* fwd_packet_length_mean :=
    mean_or_0 (ints (FlowState.fwd_packet_lengths flow_state)) in
  (* Flow rate calculations *)
  let duration := flow_duration in
  let* per_second := rates duration flow_state in
  (* Inter-arrival time statistics *)
  let* flow_inter_arrival_time_mean :=
    mean_or_0 (FlowState.all_inter_arrival_times flow_state) in
  let* flow_inter_arrival_time_std :=
    std_or_0 (FlowState.all_inter_arrival_times flow_state) in
  let* fwd_inter_arrival_time_mean :=
    mean_or_0 (FlowState.fwd_inter_arrival_times flow_state) in
  let* bwd_inter_arrival_time_mean :=
    mean_or_0 (FlowState.bwd_inter_arrival_times flow_state) in
  (* Activity statistics *)
  let* active_mean := mean_or_0 (FlowState.active_periods flow_state) in
  let* active_std := std_or_0 (FlowState.active_periods flow_state) in
  let* idle_mean := mean_or_0 (FlowState.idle_periods flow_state) in
  let* idle_std := std_or_0 (FlowState.idle_periods flow_state) in
  (* TCP specific statistics *)
  let* tcp_window_size_mean :=
    mean_or_0 (ints (FlowState.tcp_window_sizes flow_state)) in
  Ok {| Stats.flow_duration := flow_duration;
        Stats.total_fwd_packets := FlowState.fwd_packets flow_state;
        Stats.total_bwd_packets := FlowState.bwd_packets flow_state;
        Stats.total_length_fwd_packets := FlowState.fwd_bytes flow_state;
        Stats.total_length_bwd_packets := FlowState.bwd_bytes flow_state;
        Stats.packet_length_mean := packet_length_mean;
        Stats.packet_length_std := packet_length_std;
        Stats.packet_length_min := packet_length_min;
        Stats.packet_length_max := packet_length_max;
        Stats.packet_length_variance := packet_length_variance;
        Stats.fwd_packet_length_mean := fwd_packet_length_mean;
        Stats.flow_bytes_per_second := fst (fst (fst per_second));
        Stats.flow_packets_per_second := snd (fst (fst per_second));
        Stats.fwd_packets_per_second := snd (fst per_second);
        Stats.bwd_packets_per_second := snd per_second;
        Stats.flow_inter_arrival_time_mean := flow_inter_arrival_time_mean;
        Stats.flow_inter_arrival_time_std := flow_inter_arrival_time_std;
        Stats.fwd_inter_arrival_time_mean := fwd_inter_arrival_time_mean;
        Stats.bwd_inter_arrival_time_mean := bwd_inter_arrival_time_mean;
        Stats.active_mean := active_mean;
        Stats.active_std := active_std;
        Stats.idle_mean := idle_mean;
        Stats.idle_std := idle_std;
        Stats.tcp_window_size_mean := tcp_window_size_mean;
        Stats.tcp_flags_count :=
          map_fold (fun _ n acc => n + acc)
            0 (FlowState.tcp_flags_count flow_state);
        Stats.flow_bytes_total :=
          FlowState.fwd_bytes flow_state + FlowState.bwd_bytes flow_state |}.

(** *** The body of [parse_packet]

    The [features] object and the class-level state are mutated in place
    while the [try] block runs; [M] threads both and keeps them when an
    exception is raised. *)

Record heap : Type := {
  the_features : NetworkFeatures.t;
  the_class : state
}.

Definition M (A : Type) : Type := heap -> heap * result A.

Definition ret {A} (a : A) : M A := fun h => (h, Ok a).

Definition bind {A B} (m : M A) (k : A -> M B) : M B :=
  fun h =>
    match m h with
    | (h', Ok a) => k a h'
    | (h', Raise e) => (h', Raise e)
    end.

(** A call that touches neither object. *)
Definition call {A} (r : result A) : M A := fun h => (h, r).

Definition get_features : M NetworkFeatures.t :=
  fun h => (h, Ok (the_features h)).

Definition assign (f : NetworkFeatures.t -> NetworkFeatures.t) : M unit :=
  fun h =>
    ({| the_features := f (the_features h); the_class := the_class h |},
     Ok tt).

Definition get_flow_states : M (gmap flow_id FlowState.t) :=
  fun h => (h, Ok (flow_states (the_class h))).

Definition put_flow_states (m : gmap flow_id FlowState.t) : M unit :=
  fun h =>
    ({| the_features := the_features h;
        the_class := {| flow_states := m;
                        last_cleanup := last_cleanup (the_class h) |} |},
     Ok tt).

(** [m], started in [h], returns normally, in a state and with a value
    that satisfy [post]. *)
Definition returns {A} (m : M A) (h : heap) (post : heap -> A -> Prop)
    : Prop :=
  exists h' a, m h = (h', Ok a) /\ post h' a.

(** [try: body except Exception: handler]; other exceptions propagate. *)
Definition try_except (body : M unit) (handler : M unit) : M unit :=
  fun h =>
    match body h with
    | (h', Ok tt) => (h', Ok tt)
    | (h', Raise e) => if is_Exception e then handler h' else (h', Raise e)
    end.

Notation "x <- m ;; k" := (bind m (fun x => k))
  (at level 100, m at next level, right associativity, only parsing).
Notation "m ;; k" := (bind m (fun _ => k))
  (at level 100, right associativity, only parsing).

(** The transport-layer block: fills the TCP or UDP fields and yields the
    local variables [(tcp_flags, tcp_window)]. *)
Definition parse_transport (packet_data : bytes) (info : ip_info.t)
    (tcp_offset : Z) : M (Z * Z) :=
  if ip_info.protocol info =? 6 then
    tcp <- call (parse_tcp_header packet_data tcp_offset) ;;
    match tcp with
    | Some tcp_info =>
        assign (fun f =>
          NetworkFeatures.set_tcp
            (NetworkFeatures.set_ports f
               (tcp_info.src_port tcp_info) (tcp_info.dst_port tcp_info))
            (tcp_info.seq_num tcp_info) (tcp_info.ack_num tcp_info)
            (tcp_info.flags tcp_info) (tcp_info.window tcp_info)
            (tcp_info.flag_fin tcp_info) (tcp_info.flag_syn tcp_info)
            (tcp_info.flag_rst tcp_info) (tcp_info.flag_psh tcp_info)
            (tcp_info.flag_ack tcp_info) (tcp_info.flag_urg tcp_info)) ;;
        ret (tcp_info.flags tcp_info, tcp_info.window tcp_info)
    | None => ret (0, 0)
    end
  else if ip_info.protocol info =? 17 then
    udp <- call (parse_udp_header packet_data tcp_offset) ;;
    match udp with
    | Some udp_info =>
        assign (fun f =>
          NetworkFeatures.set_ports f
            (udp_info.src_port udp_info) (udp_info.dst_port udp_info)) ;;
        ret (0, 0)
    | None => ret (0, 0)
    end
  else ret (0, 0).

(** The block that creates the flow key, fetches or creates the flow
    state, updates it and copies the statistics into [features]. *)
Definition track_flow (timestamp : Q) (tcp_flags tcp_window : Z) : M unit :=
  f <- get_features ;;
  let flow_key :=
    FlowKey.init (NetworkFeatures.src_ip f) (NetworkFeatures.dst_ip f)
      (NetworkFeatures.src_port f) (NetworkFeatures.dst_port f)
      (NetworkFeatures.protocol f) in
  (* Initialize or get existing flow state *)
  table <- get_flow_states ;;
  (match table !! FlowKey.key flow_key with
   | None =>
       put_flow_states (<[FlowKey.key flow_key := FlowState.init]> table)
   | Some _ => ret tt
   end) ;;
  table <- get_flow_states ;;
  flow_state <-
    call (match table !! FlowKey.key flow_key with
          | Some fs => Ok fs
          | None => Raise KeyError
          end) ;;
  (* Update flow state (the object held by the dictionary) *)
  let flow_state :=
    FlowState.update flow_state (NetworkFeatures.packet_length f) timestamp
      (FlowKey.is_forward flow_key) tcp_flags tcp_window in
  put_flow_states (<[FlowKey.key flow_key := flow_state]> table) ;;
  (* Calculate flow statistics *)
  flow_stats <- call (calculate_flow_statistics flow_state timestamp) ;;
  assign (fun f => NetworkFeatures.set_flow_stats f flow_stats).

(** The [try] block of [parse_packet]. *)
Definition parse_body (packet_data : bytes) (timestamp : Q) : M unit :=
  eth <- call (parse_ethernet_header packet_data) ;;
  let '(dest_mac, src_mac, eth_type) := eth in
  (* Check for IPv4 (0x0800) *)
  if bool_decide (eth_type = Some 0x0800) then
    ip <- call (parse_ip_header packet_data 14) ;;
    match ip with
    | Some (info, tcp_offset) =>
        assign (fun f =>
          NetworkFeatures.set_ip f (ip_info.src_ip info) (ip_info.dst_ip info)
            (ip_info.protocol info) (ip_info.ttl info) (ip_info.tos info)
            (ip_info.header_length info)) ;;
        tw <- parse_transport packet_data info tcp_offset ;;
        track_flow timestamp (fst tw) (snd tw)
    | None => ret tt
    end
  else ret tt.

(** [PacketParser.parse_packet], with [now] the value [time.time()] takes
    inside [cleanup_old_flows].  The result is the updated class state and
    either the returned record or the exception that escapes.  The
    timestamp is a finite float whose product with 1000000 is a finite
    float, so that [int] returns; [Entry.parse_packet] is the function on
    every float. *)
Definition parse_packet (packet_data : bytes) (timestamp : Q) (now : Q)
    (st : state) : state * result NetworkFeatures.t :=
  let features :=
    NetworkFeatures.set_packet_length
      (NetworkFeatures.set_timestamp NetworkFeatures.init
         (int_of_float (timestamp * 1000000)))
      (len packet_data) in
  (* Clean up old flows periodically *)
  let st := cleanup_old_flows now st in
  let '(h, r) :=
    try_except (parse_body packet_data timestamp)
      (assign (fun f => NetworkFeatures.set_label f "PARSING_ERROR"))
      {| the_features := features; the_class := st |} in
  match r with
  | Ok tt => (the_class h, Ok (the_features h))
  | Raise e => (the_class h, Raise e)
  end.

End Statistics.

End PacketParser.

(** ** class DPDKPacketCapture: the capture loop *)

Module DPDKPacketCapture.

(** An item of the list returned by [receive_packets]: reading a
    [c_void_p] array yields an address, or [None] for a null pointer. *)
Abbreviation mbuf_ptr := (option Z).

(** What the loop does to the outside, in order. *)
Inductive event : Type :=
| FreePacket (mbuf : mbuf_ptr)     (* self.dpdk.free_packet(mbuf_ptr) *)
| RtePktmbufFree (mbuf : Z)        (* the driver call made by free_packet *)
| Sleep                            (* time.sleep(0.001) *)
| LogInfo
| LogWarning
| LogError.

(** The collaborators of the loop over a state [W] of the outside world:
    the driver's burst receive, the read of a buffer
    ([RteMbuf.from_address(p).get_packet_data()]), the clock and the user
    callback. *)
Record env (W : Type) : Type := {
  receive_packets : W -> W * list mbuf_ptr;
  get_packet_data : mbuf_ptr -> W -> result bytes;
  time : W -> Q;
  callback : bytes -> Q -> W -> W * result unit
}.
Arguments receive_packets {W} _ _.
Arguments get_packet_data {W} _ _ _.
Arguments time {W} _ _.
Arguments callback {W} _ _ _ _.

(** The attributes of the capture object the loop uses, the trace of
    events and the outside world. *)
Record t (W : Type) : Type := {
  running : bool;
  packet_count : Z;
  trace : list event;
  world : W
}.
Arguments running {W} _.
Arguments packet_count {W} _.
Arguments trace {W} _.
Arguments world {W} _.

Section Loop.

Context {W : Type} (E : env W).

Definition emit (ev : list event) (c : t W) : t W :=
  {| running := running c; packet_count := packet_count c;
     trace := trace c ++ ev; world := world c |}.

Definition set_world (w : W) (c : t W) : t W :=
  {| running := running c; packet_count := packet_count c;
     trace := trace c; world := w |}.

(** [DPDKWrapper.free_packet]: the driver is called for a non-null
    pointer only. *)
Definition free_packet (mbuf : mbuf_ptr) (c : t W) : t W :=
  match mbuf with
  | Some p =>
      if p =? 0 then emit [FreePacket mbuf] c
      else emit [FreePacket mbuf; RtePktmbufFree p] c
  | None => emit [FreePacket mbuf] c
  end.

(** The [try] block of the loop body. *)
Definition process (mbuf : mbuf_ptr) (c : t W) : t W * result unit :=
  match get_packet_data E mbuf (world c) with
  | Raise e => (c, Raise e)
  | Ok packet_data =>
      match packet_data with
      | [] => (c, Ok tt)
      | _ =>
          let timestamp := time E (world c) in
          match callback E packet_data timestamp (world c) with
          | (w, Raise e) => (set_world w c, Raise e)
          | (w, Ok tt) =>
              let count := packet_count c + 1 in
              let c := {| running := running c; packet_count := count;
                          trace := trace c; world := w |} in
              (if count mod 1000 =? 0 then emit [LogInfo] c else c, Ok tt)
          end
      end
  end.

(** The body of [for mbuf_ptr in mbufs]: [try] / [except Exception] /
    [finally]. *)
Definition handle_mbuf (mbuf : mbuf_ptr) (c : t W) : t W * result unit :=
  let '(c, r) := process mbuf c in
  let '(c, r) :=
    match r with
    | Ok tt => (c, Ok tt)
    | Raise e =>
        if is_Exception e then (emit [LogWarning] c, Ok tt)
        else (c, Raise e)
    end in
  (free_packet mbuf c, r).

(** [for mbuf_ptr in mbufs: ...]; an exception that escapes the body ends
    the iteration of the list. *)
Fixpoint for_mbufs (mbufs : list mbuf_ptr) (c : t W) : t W * result unit :=
  match mbufs with
  | [] => (c, Ok tt)
  | mbuf :: rest =>
      match handle_mbuf mbuf c with
      | (c, Ok tt) => for_mbufs rest c
      | (c, Raise e) => (c, Raise e)
      end
  end.

(** One pass through the body of [while self.running], together with the
    burst it received. *)
Definition iteration (c : t W) : list mbuf_ptr * (t W * result unit) :=
  let '(w, mbufs) := receive_packets E (world c) in
  let c := set_world w c in
  match mbufs with
  | [] => (mbufs, (emit [Sleep] c, Ok tt))
  | _ => (mbufs, for_mbufs mbufs c)
  end.

(** [while self.running: ...], cut after [fuel] passes. *)
Fixpoint loop (fuel : nat) (c : t W) : t W * result unit :=
  match fuel with
  | O => (c, Ok tt)
  | S fuel =>
      if running c then
        match snd (iteration c) with
        | (c, Ok tt) => loop fuel c
        | (c, Raise e) => (c, Raise e)
        end
      else (c, Ok tt)
  end.

(** [stop_capture] *)
Definition stop_capture (c : t W) : t W :=
  emit [LogInfo]
    {| running := false; packet_count := packet_count c;
       trace := trace c; world := world c |}.

(** [start_capture] once the mempool exists: the loop inside
    [try] / [except KeyboardInterrupt] / [except Exception] / [finally]. *)
Definition start_capture (fuel : nat) (c : t W) : t W :=
  let c := emit [LogInfo]
             {| running := true; packet_count := packet_count c;
                trace := trace c; world := world c |} in
  let '(c, r) := loop fuel c in
  let c :=
    match r with
    | Ok tt => c
    | Raise e => if is_Exception e then emit [LogError] c else emit [LogInfo] c
    end in
  stop_capture c.

(** The [free_packet] calls of a trace, in order. *)
Definition freed (tr : list event) : list mbuf_ptr :=
  flat_map (fun ev => match ev with FreePacket m => [m] | _ => [] end) tr.

End Loop.

End DPDKPacketCapture.

(** ** More of what FlowState maintains *)

Module FlowBook.
Import FlowState.

(** The number of calls that satisfy [p]. *)
Definition count (p : call -> bool) (calls : list call) : Z :=
  Z.of_nat (length (List.filter p calls)).

(** [sum(d.values())] for the flag counter. *)
Definition total (d : gmap Z Z) : Z := map_fold (fun _ n acc => n + acc) 0 d.

(** Per-direction bookkeeping that every sequence of updates maintains. *)
Record counted (F : t) : Prop := {
  counted_fwd : fwd_packets F = Z.of_nat (length (fwd_packet_lengths F));
  counted_bwd : bwd_packets F = Z.of_nat (length (bwd_packet_lengths F));
  counted_fwd_iat :
    Z.of_nat (length (fwd_inter_arrival_times F))
    = Z.max 0 (fwd_packets F - 1);
  counted_bwd_iat :
    Z.of_nat (length (bwd_inter_arrival_times F))
    = Z.max 0 (bwd_packets F - 1);
  counted_fwd_last : fwd_last_time F = None <-> fwd_packets F = 0;
  counted_bwd_last : bwd_last_time F = None <-> bwd_packets F = 0;
  counted_bytes :
    fwd_bytes F + bwd_bytes F = sum_ (all_packet_lengths F)
}.

(** How the times and the gaps of a flow hang together. *)
Record timed (F : t) : Prop := {
  timed_started : start_time F = None <-> last_packet_time F = None;
  timed_last : last_time F = last_packet_time F;
  timed_activity : last_activity_time F = last_packet_time F;
  timed_idle :
    idle_periods F
    = List.filter (fun gap => Qgtb gap 1) (all_inter_arrival_times F)
}.

(** The differences between consecutive timestamps, as floats, starting
    with [t - prev] for the first [t] of the list. *)
Fixpoint gaps (prev : Q) (ts : list Q) : list Q :=
  match ts with
  | [] => []
  | t0 :: rest => fsub t0 prev :: gaps t0 rest
  end.

(** [o] is unset or the timestamp of one of [calls]. *)
Definition seen (calls : list call) (o : option Q) : Prop :=
  match o with
  | Some t0 => In t0 (map c_timestamp calls)
  | None => True
  end.

End FlowBook.

(** ** Groups of fields of a NetworkFeatures record *)

Module Fields.
Import NetworkFeatures.

(** The record [parse_packet] holds when its [try] block starts. *)
Definition fresh (packet_data : bytes) (timestamp : Q) : t :=
  set_packet_length
    (set_timestamp init (int_of_float (timestamp * 1000000)))
    (PacketParser.len packet_data).

Definition ports (f : t) : Z * Z := (src_port f, dst_port f).

(** The fields that only the TCP branch assigns. *)
Definition tcp_part (f : t) : list Z :=
  [ tcp_flags f; tcp_window f; tcp_seq f; tcp_ack f;
    tcp_flag_fin f; tcp_flag_syn f; tcp_flag_rst f;
    tcp_flag_psh f; tcp_flag_ack f; tcp_flag_urg f ].

(** The flow key [parse_packet] builds from the record. *)
Definition flow_key (f : t) : FlowKey.t :=
  FlowKey.init (src_ip f) (dst_ip f) (src_port f) (dst_port f) (protocol f).

End Fields.

(** ** What the capture loop receives and hands to the driver *)

Module CaptureBook.
Import DPDKPacketCapture.

(** The [rte_pktmbuf_free] calls of a trace, in order. *)
Definition released (tr : list event) : list Z :=
  flat_map (fun ev => match ev with RtePktmbufFree p => [p] | _ => [] end) tr.

(** The handles that are truthy in [if mbuf:]. *)
Definition nonnull (mbufs : list mbuf_ptr) : list Z :=
  flat_map (fun m =>
              match m with
              | Some p => if p =? 0 then [] else [p]
              | None => []
              end) mbufs.

(** [c'] continues the trace of [c] by events whose driver calls are the
    non-null handles among its [free_packet] calls. *)
Definition extends {W} (c c' : t W) : Prop :=
  exists tr,
    trace c' = trace c ++ tr /\ released tr = nonnull (freed tr).

Section Received.

Context {W : Type} (E : env W).

(** The bursts the loop receives in [fuel] passes, one after the other. *)
Fixpoint received (fuel : nat) (c : t W) : list mbuf_ptr :=
  match fuel with
  | O => []
  | S fuel =>
      if running c then
        fst (iteration E c) ++
        match snd (iteration E c) with
        | (c, Ok tt) => received fuel c
        | (_, Raise _) => []
        end
      else []
  end.

End Received.

End CaptureBook.

(** ** class DPDKWrapper and DPDKPacketCapture.initialize

    The driver is a shared library reached through ctypes.  [initialize]
    calls each of its functions at most once, so the driver is given by
    the value each call returns.  Log lines are left out. *)

Module DPDKWrapper.

(** The return values of the driver functions. *)
Record replies : Type := {
  rte_eal_init : Z;
  rte_eth_dev_count_avail : Z;
  rte_pktmbuf_pool_create : option Z;   (* a [c_void_p]: [None] is NULL *)
  rte_eth_dev_configure : Z;
  rte_eth_rx_queue_setup : Z;
  rte_eth_tx_queue_setup : Z;
  rte_eth_dev_start : Z
}.

Inductive driver_call : Type :=
| EalInit
| DevCountAvail
| PktmbufPoolCreate
| DevConfigure
| RxQueueSetup (mb_pool : option Z)
| TxQueueSetup
| DevStart.

(** The attribute [mempool] of the capture object and the calls made to
    the driver so far. *)
Record t : Type := {
  mempool : option Z;
  calls : list driver_call
}.

Definition I (A : Type) : Type := t -> t * result A.

Definition ret {A} (a : A) : I A := fun s => (s, Ok a).

Definition raise {A} (e : exn) : I A := fun s => (s, Raise e).

Definition bind {A B} (m : I A) (k : A -> I B) : I B :=
  fun s =>
    match m s with
    | (s', Ok a) => k a s'
    | (s', Raise e) => (s', Raise e)
    end.

Notation "x <- m ;; k" := (bind m (fun x => k))
  (at level 100, m at next level, right associativity, only parsing).
Notation "m ;; k" := (bind m (fun _ => k))
  (at level 100, right associativity, only parsing).

(** A call of a driver function that answers [reply]. *)
Definition driver {A} (c : driver_call) (reply : A) : I A :=
  fun s => ({| mempool := mempool s; calls := calls s ++ [c] |}, Ok reply).

(** Truthiness of a [c_void_p] value. *)
Definition is_set (p : option Z) : bool :=
  match p with
  | Some a => negb (a =? 0)
  | None => false
  end.

(** [initialize_eal]; its [except Exception] logs and raises again. *)
Definition initialize_eal (d : replies) : I Z :=
  result <- driver EalInit (rte_eal_init d) ;;
  if result <? 0 then raise RuntimeError else ret result.

Definition get_port_count (d : replies) : I Z :=
  driver DevCountAvail (rte_eth_dev_count_avail d).

Definition create_mempool (d : replies) : I (option Z) :=
  pool <- driver PktmbufPoolCreate (rte_pktmbuf_pool_create d) ;;
  if negb (is_set pool) then raise RuntimeError else ret pool.

Definition configure_port (d : replies) : I Z :=
  result <- driver DevConfigure (rte_eth_dev_configure d) ;;
  if result <? 0 then raise RuntimeError else ret result.

Definition setup_rx_queue (d : replies) (mempool : option Z) : I Z :=
  result <- driver (RxQueueSetup mempool) (rte_eth_rx_queue_setup d) ;;
  if result <? 0 then raise RuntimeError else ret result.

Definition setup_tx_queue (d : replies) : I Z :=
  result <- driver TxQueueSetup (rte_eth_tx_queue_setup d) ;;
  if result <? 0 then raise RuntimeError else ret result.

Definition start_port (d : replies) : I Z :=
  result <- driver DevStart (rte_eth_dev_start d) ;;
  if result <? 0 then raise RuntimeError else ret result.

Definition get_mempool : I (option Z) := fun s => (s, Ok (mempool s)).

Definition set_mempool (pool : option Z) : I unit :=
  fun s => ({| mempool := pool; calls := calls s |}, Ok tt).

(** The [try] block of [DPDKPacketCapture.initialize]. *)
Definition initialize_body (d : replies) : I bool :=
  (* Initialize EAL *)
  initialize_eal d ;;
  (* Check available ports *)
  nb_ports <- get_port_count d ;;
  (if nb_ports =? 0 then raise RuntimeError else ret tt) ;;
  (* Create mempool for packet buffers *)
  pool <- create_mempool d ;;
  set_mempool pool ;;
  (* Configure port *)
  configure_port d ;;
  (* Setup queues *)
  mempool <- get_mempool ;;
  setup_rx_queue d mempool ;;
  setup_tx_queue d ;;
  (* Start port *)
  start_port d ;;
  ret true.

(** [DPDKPacketCapture.initialize]: [except Exception: return False]. *)
Definition initialize (d : replies) : I bool :=
  fun s =>
    match initialize_body d s with
    | (s', Ok b) => (s', Ok b)
    | (s', Raise e) =>
        if is_Exception e then (s', Ok false) else (s', Raise e)
    end.

(** The driver accepts every step of the initialisation. *)
Definition accepts (d : replies) : Prop :=
  0 <= rte_eal_init d /\
  rte_eth_dev_count_avail d <> 0 /\
  is_set (rte_pktmbuf_pool_create d) = true /\
  0 <= rte_eth_dev_configure d /\
  0 <= rte_eth_rx_queue_setup d /\
  0 <= rte_eth_tx_queue_setup d /\
  0 <= rte_eth_dev_start d.

(** Whether the driver accepts each step, in the order of the calls. *)
Definition verdicts (d : replies) : list bool :=
  [ 0 <=? rte_eal_init d;
    negb (rte_eth_dev_count_avail d =? 0);
    is_set (rte_pktmbuf_pool_create d);
    0 <=? rte_eth_dev_configure d;
    0 <=? rte_eth_rx_queue_setup d;
    0 <=? rte_eth_tx_queue_setup d;
    0 <=? rte_eth_dev_start d ].

(** The number of steps up to and including the first refused one. *)
Fixpoint attempted (vs : list bool) : nat :=
  match vs with
  | [] => O
  | v :: vs => if v then S (attempted vs) else 1%nat
  end.

(** The driver calls of a complete initialisation, in order. *)
Definition sequence (d : replies) : list driver_call :=
  [ EalInit; DevCountAvail; PktmbufPoolCreate; DevConfigure;
    RxQueueSetup (rte_pktmbuf_pool_create d); TxQueueSetup; DevStart ].

Section Start.

Context {W : Type} (E : DPDKPacketCapture.env W).

(** [DPDKPacketCapture.start_capture] from its first line: the capture
    loop is entered when the mempool is set or [initialize] returns
    [True]. *)
Definition start_capture (d : replies) (fuel : nat)
    (s : t) (c : DPDKPacketCapture.t W)
    : t * DPDKPacketCapture.t W * result unit :=
  if negb (is_set (mempool s)) then
    match initialize d s with
    | (s', Ok true) => (s', DPDKPacketCapture.start_capture E fuel c, Ok tt)
    | (s', Ok false) => (s', c, Ok tt)
    | (s', Raise e) => (s', c, Raise e)
    end
  else (s, DPDKPacketCapture.start_capture E fuel c, Ok tt).

End Start.

End DPDKWrapper.

(** ** class JSONConverter and the message key of KafkaProducerClient *)

Module JSONConverter.
Import NetworkFeatures.

(** The values a feature dictionary holds. *)
Inductive value : Type :=
| Int (n : Z)
| Float (x : Q)
| Str (s : string).

(** A dictionary with string keys, in insertion order. *)
Abbreviation dict := (list (string * value)).

(** [str(n)] for any integer. *)
Definition str_of_int (n : Z) : string :=
  if n <? 0 then String "-" (str_of_Z (- n)) else str_of_Z n.

(** [JSONConverter.get_protocol_name] *)
Definition get_protocol_name (protocol_num : Z) : string :=
  let protocol_map : gmap Z string :=
    <[1 := "ICMP"]> (<[6 := "TCP"]> (<[17 := "UDP"]>
      (<[47 := "GRE"]> (<[50 := "ESP"]> ∅)))) in
  default (String.append "UNKNOWN_" (str_of_int protocol_num))
    (protocol_map !! protocol_num).

(** [JSONConverter.features_to_dict], with [now] the text of
    [datetime.now().isoformat()]. *)
Definition features_to_dict (features : t) (now : string) : dict :=
  [ (* Basic network information *)
    ("src_ip", Str (src_ip features));
    ("dst_ip", Str (dst_ip features));
    ("src_port", Int (src_port features));
    ("dst_port", Int (dst_port features));
    ("protocol", Int (protocol features));
    (* Packet characteristics *)
    ("packet_length", Int (packet_length features));
    ("header_length", Int (header_length features));
    ("ttl", Int (ttl features));
    ("tos", Int (tos features));
    ("timestamp", Int (timestamp features));
    (* TCP specific features *)
    ("tcp_flags", Int (tcp_flags features));
    ("tcp_window", Int (tcp_window features));
    ("tcp_seq", Int (tcp_seq features));
    ("tcp_ack", Int (tcp_ack features));
    ("tcp_flag_fin", Int (tcp_flag_fin features));
    ("tcp_flag_syn", Int (tcp_flag_syn features));
    ("tcp_flag_rst", Int (tcp_flag_rst features));
    ("tcp_flag_psh", Int (tcp_flag_psh features));
    ("tcp_flag_ack", Int (tcp_flag_ack features));
    ("tcp_flag_urg", Int (tcp_flag_urg features));
    (* Flow timing *)
    ("flow_duration", Float (flow_duration features));
    (* Flow packet counts *)
    ("total_fwd_packets", Int (total_fwd_packets features));
    ("total_bwd_packets", Int (total_bwd_packets features));
    ("total_length_fwd_packets", Int (total_length_fwd_packets features));
    ("total_length_bwd_packets", Int (total_length_bwd_packets features));
    (* Packet length statistics *)
    ("packet_length_mean", Float (packet_length_mean features));
    ("packet_length_std", Float (packet_length_std features));
    ("packet_length_min", Int (packet_length_min features));
    ("packet_length_max", Int (packet_length_max features));
    ("packet_length_variance", Float (packet_length_variance features));
    ("fwd_packet_length_mean", Float (fwd_packet_length_mean features));
    (* Flow rate features *)
    ("flow_bytes_per_second", Float (flow_bytes_per_second features));
    ("flow_packets_per_second", Float (flow_packets_per_second features));
    ("fwd_packets_per_second", Float (fwd_packets_per_second features));
    ("bwd_packets_per_second", Float (bwd_packets_per_second features));
    (* Inter-arrival time features *)
    ("flow_inter_arrival_time_mean",
     Float (flow_inter_arrival_time_mean features));
    ("flow_inter_arrival_time_std",
     Float (flow_inter_arrival_time_std features));
    ("fwd_inter_arrival_time_mean",
     Float (fwd_inter_arrival_time_mean features));
    ("bwd_inter_arrival_time_mean",
     Float (bwd_inter_arrival_time_mean features));
    (* Activity features *)
    ("active_mean", Float (active_mean features));
    ("active_std", Float (active_std features));
    ("idle_mean", Float (idle_mean features));
    ("idle_std", Float (idle_std features));
    (* Additional features *)
    ("tcp_window_size_mean", Float (tcp_window_size_mean features));
    ("tcp_flags_count", Int (tcp_flags_count features));
    ("flow_bytes_total", Int (flow_bytes_total features));
    (* Classification *)
    ("label", Str (label features));
    (* Metadata *)
    ("capture_timestamp", Str now);
    ("protocol_name", Str (get_protocol_name (protocol features))) ]%string.

End JSONConverter.

Module KafkaProducerClient.
Import JSONConverter.

(** [d.get(key, default)] *)
Fixpoint get (d : dict) (key : string) (default : value) : value :=
  match d with
  | [] => default
  | (k, v) :: rest => if String.eqb k key then v else get rest key default
  end.

Section Key.

(** [str(x)] of a float, left open. *)
Variable float_str : Q -> string.

(** A value inside an f-string. *)
Definition format (v : value) : string :=
  match v with
  | Int n => str_of_int n
  | Float x => float_str x
  | Str s => s
  end.

(** The key [send_message] gives the message: the argument, or
    [f"{src_ip}:{src_port}"] read from the dictionary. *)
Definition message_key (message_data : dict) (key : option string)
    : string :=
  match key with
  | Some key => key
  | None =>
      String.append (format (get message_data "src_ip" (Str "unknown")))
        (String.append ":" (format (get message_data "src_port" (Int 0))))
  end.

End Key.

End KafkaProducerClient.

(** ** parse_packet on any float

    [timestamp] is whatever the caller passes: a finite float, an
    infinity or NaN. *)

Module PyFloat.

Inductive t : Type :=
| Finite (x : Q)
| Infinity (negative : bool)
| NaN.

(** The float of a real result: every finite float is below [2^1024] in
    magnitude, and a result that rounds to that or more is an infinity. *)
Definition of_real (x : Q) : t :=
  let r := round53 x in
  if Qltb (Qabs r) (2 ^ 1024) then Finite r else Infinity (Qltb r 0).

(** [x * k] for a finite float [k > 0]. *)
Definition mul (x : t) (k : Q) : t :=
  match x with
  | Finite q => of_real (q * k)
  | Infinity negative => Infinity negative
  | NaN => NaN
  end.

(** [int(x)]: "cannot convert float infinity to integer" is an
    [OverflowError], "cannot convert float NaN to integer" a
    [ValueError]. *)
Definition int (x : t) : result Z :=
  match x with
  | Finite q => Ok (trunc q)
  | Infinity _ => Raise OverflowError
  | NaN => Raise ValueError
  end.

End PyFloat.

Module Entry.

Section Statistics.

Variable sqrt : Q -> Q.

(** [PacketParser.parse_packet] from its first statement.  The assignment
    [features.timestamp = int(timestamp * 1000000)] stands before the
    [try] and before the sweep: what it raises leaves the function with
    the class state untouched.  Past it the function is
    [PacketParser.parse_packet]; the last case is never reached, [int]
    raising for an infinity and for NaN. *)
Definition parse_packet (packet_data : bytes) (timestamp : PyFloat.t)
    (now : Q) (st : PacketParser.state)
    : PacketParser.state * result NetworkFeatures.t :=
  match PyFloat.int (PyFloat.mul timestamp 1000000), timestamp with
  | Raise e, _ => (st, Raise e)
  | Ok _, PyFloat.Finite t =>
      PacketParser.parse_packet sqrt packet_data t now st
  | Ok _, _ => (st, Raise ValueError)
  end.

End Statistics.

End Entry.

(** ** Statements of the specification, in its own words

    These definitions follow the text of the specification, not the code;
    they are what the code is compared with. *)

Module Spec.

(** Section 4.A: the sentinel "unparseable" record, "carrying only
    packet_length, timestamp, and a parsing-error label". *)
Definition unparseable (packet_length timestamp : Z) : NetworkFeatures.t :=
  NetworkFeatures.set_label
    (NetworkFeatures.set_packet_length
       (NetworkFeatures.set_timestamp NetworkFeatures.init timestamp)
       packet_length)
    "PARSING_ERROR".

(** Section 4.B, step 1: endpoints compared "lexicographically as (4-byte
    IP, 16-bit port) tuples". *)
Fixpoint ip_lt (a b : bytes) : bool :=
  match a, b with
  | x :: a', y :: b' =>
      if byte_val x =? byte_val y then ip_lt a' b' else byte_val x <? byte_val y
  | [], _ :: _ => true
  | _, [] => false
  end.

Definition endpoint_lt (a b : bytes * Z) : bool :=
  if bool_decide (fst a = fst b) then snd a <? snd b
  else ip_lt (fst a) (fst b).

(** Section 4.B, steps 2 and 3: "the smaller pair becomes (ip_a, port_a);
    the other becomes (ip_b, port_b)" and "is_forward = (src_ip, src_port)
    == (ip_a, port_a)".  Addresses are rendered as the parser renders them. *)
Definition flow_key (src_ip dst_ip : bytes) (src_port dst_port protocol : Z)
    : FlowKey.t :=
  let a :=
    if endpoint_lt (dst_ip, dst_port) (src_ip, src_port)
    then (dst_ip, dst_port) else (src_ip, src_port) in
  let b :=
    if endpoint_lt (dst_ip, dst_port) (src_ip, src_port)
    then (src_ip, src_port) else (dst_ip, dst_port) in
  {| FlowKey.ip1 := dotted (fst a); FlowKey.port1 := snd a;
     FlowKey.ip2 := dotted (fst b); FlowKey.port2 := snd b;
     FlowKey.protocol := protocol;
     FlowKey.is_forward := bool_decide ((src_ip, src_port) = a) |}.

(** Section 8: "F.last_time >= F.start_time" (nothing to compare before
    the first packet). *)
Definition last_not_before_start (F : FlowState.t) : Prop :=
  match FlowState.start_time F, FlowState.last_time F with
  | Some s, Some l => (s <= l)%Q
  | _, _ => True
  end.

(** Section 8: "Sweep removes exactly the entries with
    last_time < now - 300 s and no others". *)
Definition expired (now : Q) (F : FlowState.t) : Prop :=
  match FlowState.last_time F with
  | Some l => (l < now - 300)%Q
  | None => False
  end.

End Spec.

(** ** Concrete inputs *)

Module Sample.

Definition byte_of (n : Z) : byte := default x00 (Byte.of_N (Z.to_N n)).

(** A rational square root: exact on [n / d] when [n * d] is a square. *)
Definition isqrt (q : Q) : Q := Z.sqrt (Qnum q * QDen q) # Qden q.

Definition empty_table : PacketParser.state :=
  {| PacketParser.flow_states := ∅; PacketParser.last_cleanup := 0 |}.

(** Ethernet header: two MAC addresses and the EtherType. *)
Definition ethernet (eth_type : list Z) : bytes :=
  map byte_of ([2; 0; 0; 0; 0; 1; 2; 0; 0; 0; 0; 2] ++ eth_type).

(** A 54-byte IPv6 frame (EtherType 0x86DD). *)
Definition ipv6_frame : bytes := ethernet [0x86; 0xDD] ++ repeat x00 40.

(** A 34-byte frame with EtherType 0x0800 whose first IP byte is 0x65:
    version nibble 6, IHL 5; protocol 1, 1.2.3.4 -> 5.6.7.8. *)
Definition version6_frame : bytes :=
  ethernet [0x08; 0x00]
  ++ map byte_of [0x65; 0; 0; 20; 0; 0; 0; 0; 64; 1; 0; 0;
                  1; 2; 3; 4; 5; 6; 7; 8].

(** A 20-byte IPv4 header (version 4, IHL 5, TTL 64) for [protocol]. *)
Definition ipv4_header (protocol : Z) (src dst : list Z) : bytes :=
  map byte_of ([0x45; 0; 0; 60; 0; 0; 0; 0; 64; protocol; 0; 0] ++ src ++ dst).

(** A 20-byte TCP header with sequence number 1 and window 8192. *)
Definition tcp_header (src_port dst_port : list Z) (flags : Z) : bytes :=
  map byte_of (src_port ++ dst_port
               ++ [0; 0; 0; 1; 0; 0; 0; 0; 0x50; flags; 0x20; 0; 0; 0; 0; 0]).

(** TCP SYN, 74 bytes, 10.0.0.1:5000 -> 10.0.0.2:80. *)
Definition syn_frame : bytes :=
  ethernet [0x08; 0x00]
  ++ ipv4_header 6 [10; 0; 0; 1] [10; 0; 0; 2]
  ++ tcp_header [0x13; 0x88] [0; 80] 0x02 ++ repeat x00 20.

(** The reply: TCP SYN-ACK, 74 bytes, 10.0.0.2:80 -> 10.0.0.1:5000. *)
Definition syn_ack_frame : bytes :=
  ethernet [0x08; 0x00]
  ++ ipv4_header 6 [10; 0; 0; 2] [10; 0; 0; 1]
  ++ tcp_header [0; 80] [0x13; 0x88] 0x12 ++ repeat x00 20.

(** UDP, 120 bytes, 192.168.1.1:53 -> 192.168.1.2:33000. *)
Definition udp_frame : bytes :=
  ethernet [0x08; 0x00]
  ++ ipv4_header 17 [192; 168; 1; 1] [192; 168; 1; 2]
  ++ map byte_of [0; 53; 0x80; 0xE8; 0; 86; 0; 0] ++ repeat x00 78.

(** A flow whose only packet was seen at time 0.0. *)
Definition flow_at_zero : FlowState.t :=
  FlowState.update FlowState.init 60 0 true 0 0.

(** An [update] call for a 74-byte forward TCP packet at time [ts]. *)
Definition tcp_update_at (ts : Q) : FlowState.call :=
  {| FlowState.c_packet_length := 74; FlowState.c_timestamp := ts;
     FlowState.c_is_forward := true;
     FlowState.c_tcp_flags := 16; FlowState.c_tcp_window := 512 |}.

Definition some_flow : PacketParser.flow_id :=
  ("10.0.0.1"%string, 5000, "10.0.0.2"%string, 80, 6).

Definition table_at_zero : PacketParser.state :=
  {| PacketParser.flow_states := {[ some_flow := flow_at_zero ]};
     PacketParser.last_cleanup := 0 |}.

(** A driver for the capture loop over a world without state: a burst of
    three handles, the second a null pointer; the first buffer holds one
    byte, the third none; reading through the null pointer raises; the
    callback always raises. *)
Definition driver : DPDKPacketCapture.env unit :=
  {| DPDKPacketCapture.receive_packets :=
       fun w => (w, [Some 4096; None; Some 8192]);
     DPDKPacketCapture.get_packet_data :=
       fun mbuf _ =>
         match mbuf with
         | None => Raise TypeError
         | Some p => if p =? 4096 then Ok [x2a] else Ok []
         end;
     DPDKPacketCapture.time := fun _ => 1000%Q;
     DPDKPacketCapture.callback := fun _ _ w => (w, Raise RuntimeError) |}.

Definition idle_capture : DPDKPacketCapture.t unit :=
  {| DPDKPacketCapture.running := true;
     DPDKPacketCapture.packet_count := 0;
     DPDKPacketCapture.trace := [];
     DPDKPacketCapture.world := tt |}.

(** A driver whose burst holds two buffers of one byte each, with a
    callback that is interrupted from the keyboard. *)
Definition interrupted : DPDKPacketCapture.env unit :=
  {| DPDKPacketCapture.receive_packets :=
       fun w => (w, [Some 4096; Some 8192]);
     DPDKPacketCapture.get_packet_data := fun _ _ => Ok [x2a];
     DPDKPacketCapture.time := fun _ => 1000%Q;
     DPDKPacketCapture.callback :=
       fun _ _ w => (w, Raise KeyboardInterrupt) |}.

(** The floats written 0.1, 1.1 and 0.29. *)
Definition float_0_1 : Q := 3602879701896397 # 36028797018963968.
Definition float_1_1 : Q := 4953959590107546 # 4503599627370496.
Definition float_0_29 : Q := 5224175567749775 # 18014398509481984.

End Sample.

(** * Facts about the embedding *)

(** ** Order on endpoints *)

Lemma ltb_irrefl (s : string) : String.ltb s s = false.
Proof.
  unfold String.ltb.
  pose proof (String.compare_antisym s s) as H.
  destruct (String.compare s s); simpl in H; try reflexivity; discriminate.
Qed.

Lemma ltb_total (s1 s2 : string) :
  s1 <> s2 -> String.ltb s1 s2 = negb (String.ltb s2 s1).
Proof.
  intros Hne. unfold String.ltb.
  rewrite (String.compare_antisym s2 s1).
  destruct (String.compare s1 s2) eqn:E; simpl; try reflexivity.
  apply String.compare_eq_iff in E. congruence.
Qed.

Lemma tuple_lt_irrefl (a : string * Z) : tuple_lt a a = false.
Proof.
  unfold tuple_lt. rewrite String.eqb_refl. apply Z.ltb_irrefl.
Qed.

Lemma tuple_lt_total (a b : string * Z) :
  a <> b -> tuple_lt a b = negb (tuple_lt b a).
Proof.
  destruct a as [s p], b as [s' p']. intros Hne. unfold tuple_lt. simpl.
  rewrite (String.eqb_sym s' s).
  destruct (String.eqb_spec s s') as [->|Hs].
  - assert (p <> p') by congruence.
    destruct (Z.ltb_spec p p'), (Z.ltb_spec p' p); simpl; auto; lia.
  - now apply ltb_total.
Qed.

Lemma tuple_lt_asym (a b : string * Z) :
  tuple_lt a b = true -> tuple_lt b a = false.
Proof.
  intros H. destruct (decide (a = b)) as [->|Hne].
  - rewrite tuple_lt_irrefl in H. discriminate.
  - rewrite (tuple_lt_total a b Hne) in H. now destruct (tuple_lt b a).
Qed.



(** ** Comparisons on rationals *)

Lemma Qgtb_lt (x y : Q) : Qgtb x y = true <-> (y < x)%Q.
Proof. unfold Qgtb, Qlt. apply Z.ltb_lt. Qed.

Lemma Qgtb_nlt (x y : Q) : Qgtb x y = false <-> ~ (y < x)%Q.
Proof.
  rewrite <- Qgtb_lt. destruct (Qgtb x y); split; auto; try discriminate.
  intros H. exfalso. now apply H.
Qed.

Lemma Qgtb_self_minus (x : Q) : Qgtb (x - x) 1 = false.
Proof.
  apply Qgtb_nlt. intros H.
  assert (E : (x - x == 0)%Q) by ring.
  rewrite E in H. discriminate H.
Qed.

Lemma Qgtb_nonzero (d : Q) : Qgtb d 0 = true -> Qeq_bool d 0 = false.
Proof.
  intros H. apply Qgtb_lt in H.
  destruct (Qeq_bool d 0) eqn:E; [ | reflexivity ].
  apply Qeq_bool_eq in E. rewrite E in H. discriminate H.
Qed.

(** ** Rounding to floats *)

Module FloatFacts.

Lemma Qgtb_false_le (x y : Q) : Qgtb x y = false <-> (x <= y)%Q.
Proof. unfold Qgtb, Qle. rewrite Z.ltb_ge. reflexivity. Qed.

(** [rne] is within a half of its argument. *)
Lemma rne_near (x : Q) : (Qabs (inject_Z (rne x) - x) <= 1 # 2)%Q.
Proof.
  unfold rne.
  pose proof (Qfloor_le x) as Hlo. pose proof (Qlt_floor x) as Hhi.
  rewrite inject_Z_plus in Hhi. change (inject_Z 1) with 1%Q in Hhi.
  set (f := Qfloor x) in *.
  apply Qabs_Qle_condition.
  destruct (Qcompare_spec (x - inject_Z f) (1 # 2)) as [E|L|G].
  - destruct (Z.even f); rewrite ?inject_Z_plus;
      change (inject_Z 1) with 1%Q; split; lra.
  - split; lra.
  - rewrite inject_Z_plus. change (inject_Z 1) with 1%Q. split; lra.
Qed.

Lemma rne_nonneg (x : Q) : (0 <= x)%Q -> 0 <= rne x.
Proof.
  intros Hx. unfold rne.
  assert (Hf : 0 <= Qfloor x).
  { change 0 with (Qfloor 0). now apply Qfloor_resp_le. }
  destruct (_ ?= _)%Q; [ destruct (Z.even _) | | ]; lia.
Qed.

Lemma round53_zero (x : Q) : (x == 0)%Q -> round53 x = 0%Q.
Proof.
  intros H. unfold round53. apply Qeq_bool_iff in H. now rewrite H.
Qed.

(** Rounding keeps the sign. *)
Lemma round53_nonneg (x : Q) : (0 <= x)%Q -> (0 <= round53 x)%Q.
Proof.
  intros Hx. unfold round53.
  destruct (Qeq_bool x 0); [ apply Qle_refl | ].
  cbv zeta. rewrite Qred_correct.
  assert (Hu : (0 < 2 ^ (ilog2 x - 52))%Q) by (apply Qpower_0_lt; reflexivity).
  apply Qmult_le_0_compat; [ | now apply Qlt_le_weak ].
  change 0%Q with (inject_Z 0). rewrite <- Zle_Qle.
  apply rne_nonneg. apply Qle_shift_div_l; [ exact Hu | ].
  now rewrite Qmult_0_l.
Qed.

Lemma fsub_self (x : Q) : fsub x x = 0%Q.
Proof. apply round53_zero. ring. Qed.

Lemma fsub_nonneg (x y : Q) : (y <= x)%Q -> (0 <= fsub x y)%Q.
Proof.
  intros H. apply round53_nonneg. unfold Qminus.
  now rewrite <- Qle_minus_iff.
Qed.

Lemma two_power (n : Z) : 0 <= n -> (inject_Z (2 ^ n) == 2 ^ n)%Q.
Proof. intros H. now rewrite Zpower_Qpower. Qed.

(** The exponent found is below the magnitude. *)
Lemma ilog2_below (x : Q) : ~ (x == 0)%Q -> (2 ^ ilog2 x <= Qabs x)%Q.
Proof.
  intros Hx. unfold ilog2.
  set (e := Z.log2 (Z.abs (Qnum x)) - Z.log2 (QDen x)).
  destruct (Qltb (Qabs x) (2 ^ e)) eqn:E;
    [ | now apply Qgtb_false_le in E ].
  clear E. destruct x as [n d]. unfold e. cbn [Qnum Qden Qabs].
  assert (Hn : 0 < Z.abs n).
  { destruct n; try reflexivity. exfalso. apply Hx. reflexivity. }
  destruct (Z.log2_spec _ Hn) as [Ha _].
  destruct (Z.log2_spec (Z.pos d) eq_refl) as [_ Hb].
  pose proof (Z.log2_nonneg (Z.abs n)) as Ha0.
  pose proof (Z.log2_nonneg (Z.pos d)) as Hb0.
  set (a := Z.log2 (Z.abs n)) in *. set (b := Z.log2 (Z.pos d)) in *.
  rewrite (Qmake_Qdiv (Z.abs n) d).
  apply Qle_shift_div_l; [ reflexivity | ].
  apply Qle_trans with (2 ^ (a - b - 1) * 2 ^ Z.succ b)%Q.
  - apply Qmult_le_l; [ apply Qpower_0_lt; reflexivity | ].
    rewrite <- two_power by lia. rewrite <- Zle_Qle. lia.
  - rewrite <- Qpower_plus by discriminate.
    replace (a - b - 1 + Z.succ b) with a by lia.
    rewrite <- two_power by lia. now rewrite <- Zle_Qle.
Qed.

(** And the magnitude is below the next power. *)
Lemma ilog2_above (x : Q) : ~ (x == 0)%Q -> (Qabs x < 2 ^ (ilog2 x + 1))%Q.
Proof.
  intros Hx. unfold ilog2.
  set (e := Z.log2 (Z.abs (Qnum x)) - Z.log2 (QDen x)).
  destruct (Qltb (Qabs x) (2 ^ e)) eqn:E.
  - apply Qgtb_lt in E. now replace (e - 1 + 1) with e by lia.
  - clear E. destruct x as [n d]. unfold e. cbn [Qnum Qden Qabs].
    assert (Hn : 0 < Z.abs n).
    { destruct n; try reflexivity. exfalso. apply Hx. reflexivity. }
    destruct (Z.log2_spec _ Hn) as [_ Ha].
    destruct (Z.log2_spec (Z.pos d) eq_refl) as [Hb _].
    pose proof (Z.log2_nonneg (Z.abs n)) as Ha0.
    pose proof (Z.log2_nonneg (Z.pos d)) as Hb0.
    set (a := Z.log2 (Z.abs n)) in *. set (b := Z.log2 (Z.pos d)) in *.
    rewrite (Qmake_Qdiv (Z.abs n) d).
    apply Qlt_shift_div_r; [ reflexivity | ].
    apply Qlt_le_trans with (2 ^ (a - b + 1) * 2 ^ b)%Q.
    + rewrite <- Qpower_plus by discriminate.
      replace (a - b + 1 + b) with (Z.succ a) by lia.
      rewrite <- two_power by lia. now rewrite <- Zlt_Qlt.
    + apply Qmult_le_l; [ apply Qpower_0_lt; reflexivity | ].
      rewrite <- two_power by lia. now rewrite <- Zle_Qle.
Qed.

(** The rounded value has at most 53 significant bits: it is an integer
    of magnitude at most [2^53] times the unit in the last place. *)
Lemma round53_bits (x : Q) :
  ~ (x == 0)%Q ->
  exists m : Z,
    Z.abs m <= 2 ^ 53 /\
    (round53 x == inject_Z m * 2 ^ (ilog2 x - 52))%Q.
Proof.
  intros Hx. unfold round53.
  destruct (Qeq_bool x 0) eqn:E;
    [ apply Qeq_bool_iff in E; contradiction | ].
  cbv zeta. set (u := (2 ^ (ilog2 x - 52))%Q).
  exists (rne (x / u)). split; [ | apply Qred_correct ].
  assert (Hu : (0 < u)%Q) by (apply Qpower_0_lt; reflexivity).
  pose proof (ilog2_above x Hx) as Ha.
  assert (Hy : (Qabs (x / u) < inject_Z (2 ^ 53))%Q).
  { unfold Qdiv. rewrite Qabs_Qmult, Qabs_Qinv, (Qabs_pos u)
      by now apply Qlt_le_weak.
    apply Qlt_shift_div_r; [ exact Hu | ].
    eapply Qlt_le_trans; [ exact Ha | ].
    rewrite two_power by lia. unfold u.
    rewrite <- Qpower_plus by discriminate.
    replace (53 + (ilog2 x - 52)) with (ilog2 x + 1) by lia.
    apply Qle_refl. }
  apply Qabs_Qlt_condition in Hy as [Hlo Hhi].
  unfold rne.
  pose proof (Qfloor_le (x / u)) as Hf1.
  pose proof (Qlt_floor (x / u)) as Hf2.
  assert (H1 : Qfloor (x / u) < 2 ^ 53).
  { rewrite Zlt_Qlt. eapply Qle_lt_trans; [ exact Hf1 | exact Hhi ]. }
  assert (H2 : - 2 ^ 53 <= Qfloor (x / u)).
  { assert (H : - 2 ^ 53 < Qfloor (x / u) + 1).
    { rewrite Zlt_Qlt. eapply Qlt_trans; [ | exact Hf2 ].
      rewrite inject_Z_opp. exact Hlo. }
    lia. }
  destruct (_ ?= _)%Q; [ destruct (Z.even _) | | ]; lia.
Qed.

(** The rounded value is within half a unit in the last place: a
    relative error of at most [2^-53]. *)
Lemma round53_near (x : Q) :
  (Qabs (round53 x - x) <= Qabs x * (1 # 2) ^ 53)%Q.
Proof.
  unfold round53. destruct (Qeq_bool x 0) eqn:E.
  - apply Qeq_bool_iff in E. rewrite E. vm_compute. discriminate.
  - assert (Hx : ~ (x == 0)%Q).
    { intros H. apply Qeq_bool_iff in H. congruence. }
    cbv zeta. rewrite Qred_correct.
    pose proof (ilog2_below x Hx) as He.
    set (e := ilog2 x) in *.
    assert (Hu : (0 < 2 ^ (e - 52))%Q) by (apply Qpower_0_lt; reflexivity).
    set (u := (2 ^ (e - 52))%Q) in *.
    pose proof (rne_near (x / u)) as Hr.
    set (r := inject_Z (rne (x / u))) in *.
    assert (E1 : (r * u - x == (r - x / u) * u)%Q).
    { field. intros H. rewrite H in Hu. now apply Qlt_irrefl in Hu. }
    rewrite E1, Qabs_Qmult, (Qabs_pos u) by now apply Qlt_le_weak.
    apply Qle_trans with ((1 # 2) * u)%Q.
    + apply Qmult_le_compat_r; [ exact Hr | now apply Qlt_le_weak ].
    + apply Qle_trans with (2 ^ e * (1 # 2) ^ 53)%Q.
      * unfold u. replace (e - 52) with (e + - 52) by lia.
        rewrite Qpower_plus by discriminate.
        assert (E2 : ((2:Q) ^ (-52) == 2 * (1 # 2) ^ 53)%Q) by reflexivity.
        rewrite E2. apply Qle_lteq. right. ring.
      * apply Qmult_le_compat_r; [ exact He | discriminate ].
Qed.

(** Truncation drops less than one. *)
Lemma trunc_near (x : Q) : (Qabs (inject_Z (trunc x) - x) < 1)%Q.
Proof.
  destruct x as [n d]. unfold trunc. cbn [Qnum Qden].
  pose proof (Z.quot_rem' n (Z.pos d)) as Hq.
  pose proof (Z.rem_bound_abs n (Z.pos d) ltac:(discriminate)) as Hr.
  set (q := Z.quot n (Z.pos d)) in *. set (r := Z.rem n (Z.pos d)) in *.
  apply Qabs_Qlt_condition. unfold Qlt, Qminus, Qplus, Qopp, inject_Z.
  cbn [Qnum Qden]. rewrite !Pos2Z.inj_mul. split; nia.
Qed.

(** [int] of the rounded product is within one of the real product, up
    to the rounding of the product. *)
Lemma int_of_float_near (x : Q) :
  (Qabs (inject_Z (int_of_float x) - x) < 1 + Qabs x * (1 # 2) ^ 53)%Q.
Proof.
  unfold int_of_float.
  pose proof (trunc_near (round53 x)) as H1.
  pose proof (round53_near x) as H2.
  set (p := round53 x) in *. set (t := inject_Z (trunc p)) in *.
  assert (E : (t - x == (t - p) + (p - x))%Q) by ring.
  rewrite E.
  eapply Qle_lt_trans; [ apply Qabs_triangle | ]. lra.
Qed.

End FloatFacts.

(** ** Flow state *)

Module FlowStateFacts.
Import FlowState.

Lemma sum_app (l : list Z) (x : Z) : sum_ (l ++ [x]) = sum_ l + x.
Proof. induction l as [|y l IH]; simpl; lia. Qed.

Lemma inv_init : inv init.
Proof. constructor; simpl; try reflexivity. tauto. Qed.

Lemma inv_update (F : t) (c : call) : inv F -> inv (apply F c).
Proof.
  intros [H1 H2 H3 H4 H5 H6]. destruct c as [pl ts fwd fl w].
  unfold apply, update; constructor; simpl.
  - destruct fwd; lia.
  - destruct fwd; rewrite ?sum_app; lia.
  - destruct fwd; rewrite ?sum_app; lia.
  - rewrite length_app. simpl. lia.
  - destruct (last_packet_time F) as [t0|] eqn:E; simpl.
    + rewrite length_app. simpl.
      assert (total_packets F <> 0)
        by (intros Z0; apply H6 in Z0; discriminate).
      lia.
    + assert (total_packets F = 0) by (now apply H6). lia.
  - split; [ discriminate | lia ].
Qed.

Lemma inv_run (calls : list call) (F : t) : inv F -> inv (run F calls).
Proof.
  revert F. induction calls as [|c calls IH]; intros F HF; simpl; auto.
  apply IH. now apply inv_update.
Qed.

Lemma run_cons (F : t) (c : call) (calls : list call) :
  run F (c :: calls) = run (apply F c) calls.
Proof. reflexivity. Qed.

(** Once set, [start_time] never changes. *)
Lemma run_start_time (calls : list call) (F : t) (s : Q) :
  start_time F = Some s -> start_time (run F calls) = Some s.
Proof.
  revert F. induction calls as [|c calls IH]; intros F HF; simpl; auto.
  apply IH. unfold apply, update; simpl. now rewrite HF.
Qed.

(** [last_time] is the timestamp of the latest call. *)
Lemma run_last_time (calls : list call) (F : t) :
  last_time (run F calls)
  = match last calls with
    | Some c => Some (c_timestamp c)
    | None => last_time F
    end.
Proof.
  revert F. induction calls as [|c calls IH]; intros F; [ reflexivity | ].
  rewrite run_cons, IH.
  destruct calls as [|c' calls]; [ reflexivity | ].
  change (last (c :: c' :: calls)) with (last (c' :: calls)).
  destruct (last (c' :: calls)) eqn:E; [ reflexivity | ].
  apply last_None in E. discriminate.
Qed.

Lemma last_map {A B} (f : A -> B) (l : list A) (x : A) :
  last l = Some x -> last (map f l) = Some (f x).
Proof.
  induction l as [|a l IH]; [ discriminate | ].
  destruct l as [|b l]; simpl in *.
  - intros H. now inversion H.
  - exact IH.
Qed.

Lemma last_cons_some {A} (a : A) (l : list A) (x : A) :
  last l = Some x -> last (a :: l) = Some x.
Proof. destruct l; [ discriminate | auto ]. Qed.

Lemma nondecreasing_last (x : Q) (ts : list Q) (y : Q) :
  nondecreasing (x :: ts) -> last (x :: ts) = Some y -> (x <= y)%Q.
Proof.
  revert x. induction ts as [|z ts IH]; intros x Hnd Hl.
  - inversion Hl. apply Qle_refl.
  - destruct Hnd as [Hxz Hnd].
    apply Qle_trans with z; [ exact Hxz | ].
    apply IH; [ exact Hnd | exact Hl ].
Qed.

End FlowStateFacts.

(** ** Flow statistics never raise *)

Module StatsFacts.
Import PacketParser.

Lemma mean_or_0_never (data : list Q) (e : exn) : mean_or_0 data <> Raise e.
Proof. destruct data; discriminate. Qed.

Lemma variance_defined (data : list Q) (e : exn) :
  (2 <= length data)%nat -> variance data <> Raise e.
Proof.
  intros H. unfold variance.
  destruct (Nat.ltb_spec (length data) 2); [ lia | discriminate ].
Qed.

Lemma if_many_length {A} (data : list A) (x : result Q) (e : exn) :
  if_many data x = Raise e -> (2 <= length data)%nat /\ x = Raise e.
Proof.
  unfold if_many, len.
  destruct (Z.ltb_spec 1 (Z.of_nat (length data))); [ | discriminate ].
  intros ->. split; [ lia | reflexivity ].
Qed.

Lemma variance_or_0_never (data : list Q) (e : exn) :
  variance_or_0 data <> Raise e.
Proof.
  destruct data as [|x data]; [ discriminate | ].
  unfold variance_or_0. intros H.
  apply if_many_length in H as [Hlen H].
  now apply variance_defined in H.
Qed.

Lemma std_or_0_never (sqrt : Q -> Q) (data : list Q) (e : exn) :
  std_or_0 sqrt data <> Raise e.
Proof.
  destruct data as [|x data]; [ discriminate | ].
  unfold std_or_0. intros H.
  apply if_many_length in H as [Hlen H].
  unfold stdev in H.
  destruct (variance (x :: data)) eqn:E; [ discriminate | ].
  now apply variance_defined in E.
Qed.

Lemma min_or_0_never (data : list Z) (e : exn) : min_or_0 data <> Raise e.
Proof. destruct data; discriminate. Qed.

Lemma max_or_0_never (data : list Z) (e : exn) : max_or_0 data <> Raise e.
Proof. destruct data; discriminate. Qed.

Lemma truediv_positive (x d : Q) :
  Qgtb d 0 = true -> truediv x d = Ok (x / d)%Q.
Proof. intros H. unfold truediv. now rewrite (Qgtb_nonzero d H). Qed.

(** The rates: quotients by a positive duration, zeros otherwise; no
    division happens unless the duration is positive. *)
Lemma rates_value (duration : Q) (F : FlowState.t) :
  rates duration F
  = Ok (if Qgtb duration 0
        then (inject_Z (FlowState.fwd_bytes F + FlowState.bwd_bytes F)
                / duration,
              inject_Z (FlowState.total_packets F) / duration,
              inject_Z (FlowState.fwd_packets F) / duration,
              inject_Z (FlowState.bwd_packets F) / duration)%Q
        else (0, 0, 0, 0)%Q).
Proof.
  unfold rates. destruct (Qgtb duration 0) eqn:E; [ | reflexivity ].
  now rewrite !truediv_positive by exact E.
Qed.

Ltac step E :=
  match type of E with
  | rbind ?r _ = _ =>
      let H := fresh "H" in
      destruct r eqn:H; cbn [rbind] in E
  end.

Ltac refute H :=
  first
    [ now apply mean_or_0_never in H
    | now apply std_or_0_never in H
    | now apply variance_or_0_never in H
    | now apply min_or_0_never in H
    | now apply max_or_0_never in H
    | rewrite rates_value in H; discriminate H ].

Ltac walk E :=
  repeat (step E;
          [ | first [ discriminate E
                    | exfalso;
                      match goal with H : _ = Raise _ |- _ => refute H end ] ]).

(** [calculate_flow_statistics] returns on every flow state: each call
    into [statistics] and each division is guarded in the source. *)
Lemma calculate_flow_statistics_total (sqrt : Q -> Q) (F : FlowState.t)
    (now : Q) :
  exists s, calculate_flow_statistics sqrt F now = Ok s.
Proof.
  destruct (calculate_flow_statistics sqrt F now) as [s|e] eqn:E;
    [ now exists s | exfalso ].
  unfold calculate_flow_statistics in E.
  walk E. discriminate E.
Qed.

(** The fields of the result that the claims speak of. *)
Lemma calculate_flow_statistics_fields (sqrt : Q -> Q) (F : FlowState.t)
    (now : Q) (s : Stats.t) :
  calculate_flow_statistics sqrt F now = Ok s ->
  Stats.flow_duration s = duration_since_start F now /\
  rates (Stats.flow_duration s) F
  = Ok (Stats.flow_bytes_per_second s, Stats.flow_packets_per_second s,
        Stats.fwd_packets_per_second s, Stats.bwd_packets_per_second s) /\
  mean_or_0 (FlowState.idle_periods F) = Ok (Stats.idle_mean s) /\
  std_or_0 sqrt (FlowState.idle_periods F) = Ok (Stats.idle_std s).
Proof.
  intros E. unfold calculate_flow_statistics in E.
  walk E. inversion E; subst; clear E. simpl.
  repeat split; try assumption.
  match goal with H : rates _ _ = Ok ?p |- _ =>
    rewrite H; now destruct p as [[[? ?] ?] ?] end.
Qed.

End StatsFacts.



(** ** The sweep *)

Module SweepFacts.
Import PacketParser.

Lemma delete_all_lookup (ks : list flow_id) (m : gmap flow_id FlowState.t)
    (k : flow_id) :
  fold_left (fun m flow_key => delete flow_key m) ks m !! k
  = if decide (k ∈ ks) then None else m !! k.
Proof.
  revert m. induction ks as [|k' ks IH]; intros m; simpl.
  - destruct (decide (k ∈ [])) as [H|_]; [ | reflexivity ].
    now apply not_elem_of_nil in H.
  - rewrite IH.
    destruct (decide (k ∈ ks)) as [Hin|Hnin].
    + rewrite decide_True by (now apply elem_of_cons; right). reflexivity.
    + destruct (decide (k = k')) as [->|Hne].
      * rewrite decide_True by (apply elem_of_cons; now left).
        apply lookup_delete_eq.
      * rewrite decide_False
          by (intros H; apply elem_of_cons in H as [?|?]; contradiction).
        now apply lookup_delete_ne.
Qed.

Lemma to_remove_spec (cutoff : Q) (m : gmap flow_id FlowState.t)
    (k : flow_id) :
  k ∈ map fst (List.filter (fun kv => stale cutoff (snd kv)) (map_to_list m))
  <-> exists F, m !! k = Some F /\ stale cutoff F = true.
Proof.
  rewrite list_elem_of_In, in_map_iff. split.
  - intros [[k' F] [<- HF]]. apply filter_In in HF as [HF Hs].
    exists F. split; [ | exact Hs ].
    apply elem_of_map_to_list. now apply list_elem_of_In.
  - intros [F [HF Hs]]. exists (k, F). split; [ reflexivity | ].
    apply filter_In. split; [ | exact Hs ].
    apply list_elem_of_In. now apply elem_of_map_to_list.
Qed.

(** What the sweep does when it runs: it drops the entries that pass the
    test of the source, and only those. *)
Lemma cleanup_lookup (now : Q) (st : state) (k : flow_id) :
  Qgtb (now - last_cleanup st) 60 = true ->
  flow_states (cleanup_old_flows now st) !! k
  = match flow_states st !! k with
    | Some F => if stale (now - 300) F then None else Some F
    | None => None
    end.
Proof.
  intros Hgate. unfold cleanup_old_flows. rewrite Hgate. simpl.
  rewrite delete_all_lookup.
  destruct (decide _) as [Hin|Hnin].
  - apply to_remove_spec in Hin as [F [-> ->]]. reflexivity.
  - destruct (flow_states st !! k) as [F|] eqn:EF; [ | reflexivity ].
    destruct (stale (now - 300) F) eqn:Es; [ | reflexivity ].
    exfalso. apply Hnin. apply to_remove_spec. eauto.
Qed.





End SweepFacts.

(** ** The capture loop *)

Module CaptureFacts.
Import DPDKPacketCapture.

Section WithEnv.

Context {W : Type} (E : env W).

Lemma freed_app (tr1 tr2 : list event) :
  freed (tr1 ++ tr2) = freed tr1 ++ freed tr2.
Proof. unfold freed. apply flat_map_app. Qed.

Lemma free_packet_freed (mbuf : mbuf_ptr) (c : t W) :
  freed (trace (free_packet mbuf c)) = freed (trace c) ++ [mbuf].
Proof.
  unfold free_packet.
  destruct mbuf as [p|]; [ destruct (p =? 0) | ]; simpl;
    now rewrite freed_app.
Qed.

(** The [try] block frees nothing itself. *)
Lemma process_freed (mbuf : mbuf_ptr) (c : t W) :
  freed (trace (fst (process E mbuf c))) = freed (trace c).
Proof.
  unfold process.
  destruct (get_packet_data E mbuf (world c)) as [[|b data]|e];
    try reflexivity.
  destruct (callback E (b :: data) (time E (world c)) (world c))
    as [w [[]|e]]; simpl; [ | reflexivity ].
  destruct (_ =? 0); simpl; [ | reflexivity ].
  rewrite freed_app. simpl. now rewrite app_nil_r.
Qed.

(** The [finally] clause: one buffer, one release, however the body
    ends. *)
Lemma handle_mbuf_freed (mbuf : mbuf_ptr) (c : t W) :
  freed (trace (fst (handle_mbuf E mbuf c))) = freed (trace c) ++ [mbuf].
Proof.
  unfold handle_mbuf.
  pose proof (process_freed mbuf c) as Hp.
  destruct (process E mbuf c) as [c1 [[]|e]]; simpl in *.
  - now rewrite free_packet_freed, Hp.
  - destruct (is_Exception e); simpl; rewrite free_packet_freed; simpl.
    + rewrite freed_app. simpl. now rewrite app_nil_r, Hp.
    + now rewrite Hp.
Qed.

(** Only what is not an [Exception] escapes the body. *)
Lemma handle_mbuf_escape (mbuf : mbuf_ptr) (c : t W) (e : exn) :
  snd (handle_mbuf E mbuf c) = Raise e ->
  snd (process E mbuf c) = Raise e /\ is_Exception e = false.
Proof.
  unfold handle_mbuf.
  destruct (process E mbuf c) as [c1 [[]|e']]; simpl; [ discriminate | ].
  destruct (is_Exception e') eqn:Ex; simpl; [ discriminate | ].
  intros H. inversion H; subst. auto.
Qed.

Lemma process_escape (mbuf : mbuf_ptr) (c : t W) (e : exn) :
  snd (process E mbuf c) = Raise e ->
  get_packet_data E mbuf (world c) = Raise e \/
  exists data ts w, snd (callback E data ts w) = Raise e.
Proof.
  unfold process.
  destruct (get_packet_data E mbuf (world c)) as [[|b data]|e'];
    simpl; try discriminate.
  - intros H. right. exists (b :: data), (time E (world c)), (world c).
    destruct (callback E _ _ _) as [w [[]|e']]; simpl in *;
      [ discriminate H | exact H ].
  - intros H. left. inversion H. reflexivity.
Qed.

End WithEnv.

End CaptureFacts.

(** ** Header parsers never raise *)

Module ParseFacts.
Import PacketParser.

Lemma sub_length {A} (l : list A) (lo n : Z) :
  0 <= lo -> 0 <= n -> lo + n <= len l ->
  length (sub l lo (lo + n)) = Z.to_nat n.
Proof.
  intros Hlo Hn Hlen. unfold sub, slice, len in *.
  rewrite length_take, length_drop. lia.
Qed.

Lemma slice_length {A} (l : list A) (lo hi : nat) :
  (lo <= hi)%nat -> (hi <= length l)%nat ->
  length (slice l lo hi) = (hi - lo)%nat.
Proof.
  intros H1 H2. unfold slice. rewrite length_take, length_drop. lia.
Qed.

Lemma sized_ok {A} (n : nat) (data : bytes) (v : A) :
  length data = n -> sized n data v = Ok v.
Proof. intros H. unfold sized. now rewrite H, Nat.eqb_refl. Qed.

Lemma inet_ntoa_ok (packed : bytes) :
  length packed = 4%nat -> inet_ntoa packed = Ok (dotted packed).
Proof. intros H. unfold inet_ntoa. now rewrite H. Qed.

Lemma parse_ethernet_header_total (data : bytes) :
  exists dest_mac src_mac eth_type,
    parse_ethernet_header data = Ok (dest_mac, src_mac, eth_type) /\
    (len data < 14 -> eth_type = None).
Proof.
  unfold parse_ethernet_header.
  destruct (Z.ltb_spec (len data) 14) as [Hs|Hl].
  - exists None, None, None. auto.
  - unfold unpack_6s6sH.
    rewrite sized_ok by (apply (sub_length data 0 14); lia).
    simpl. do 3 eexists. split; [ reflexivity | lia ].
Qed.

Lemma parse_ip_header_total (data : bytes) (offset : Z) :
  0 <= offset ->
  exists r,
    parse_ip_header data offset = Ok r /\
    (offset + 20 <= len data ->
       exists info tcp_offset,
         r = Some (info, tcp_offset) /\ 0 <= tcp_offset) /\
    (len data < offset + 20 -> r = None).
Proof.
  intros Hoff. unfold parse_ip_header.
  destruct (Z.ltb_spec (len data) (offset + 20)) as [Hs|Hl].
  - exists None. repeat split; auto. lia.
  - unfold unpack_BBHHHBBH4s4s.
    assert (Hlen : length (sub data offset (offset + 20)) = 20%nat)
      by (apply (sub_length data offset 20); lia).
    rewrite sized_ok by exact Hlen. cbn [rbind ip_8 ip_9].
    rewrite !inet_ntoa_ok by (rewrite slice_length; lia).
    cbn [rbind]. eexists. split; [ reflexivity | ].
    split; [ | lia ]. intros _. do 2 eexists. split; [ reflexivity | ].
    cbn [ip_0].
    assert (0 <= Z.land (be_uint (slice (sub data offset (offset + 20)) 0 1)) 15)
      by (apply Z.land_nonneg; right; lia).
    lia.
Qed.

Lemma parse_tcp_header_total (data : bytes) (offset : Z) :
  0 <= offset -> exists r, parse_tcp_header data offset = Ok r.
Proof.
  intros Hoff. unfold parse_tcp_header.
  destruct (Z.ltb_spec (len data) (offset + 20)) as [Hs|Hl]; [ eauto | ].
  unfold unpack_HHLLBBHHH.
  rewrite sized_ok by (apply (sub_length data offset 20); lia).
  simpl. eauto.
Qed.

Lemma parse_udp_header_total (data : bytes) (offset : Z) :
  0 <= offset -> exists r, parse_udp_header data offset = Ok r.
Proof.
  intros Hoff. unfold parse_udp_header.
  destruct (Z.ltb_spec (len data) (offset + 8)) as [Hs|Hl]; [ eauto | ].
  unfold unpack_HHHH.
  rewrite sized_ok by (apply (sub_length data offset 8); lia).
  simpl. eauto.
Qed.

Lemma same_ip_refl (f : NetworkFeatures.t) : NetworkFeatures.same_ip f f.
Proof. repeat split. Qed.

(** The transport block returns, touching only ports and TCP fields. *)
Lemma parse_transport_returns (data : bytes) (info : ip_info.t)
    (tcp_offset : Z) (h : heap) :
  0 <= tcp_offset ->
  returns (parse_transport data info tcp_offset) h
    (fun h' _ =>
       the_class h' = the_class h /\
       NetworkFeatures.same_ip (the_features h) (the_features h')).
Proof.
  intros Hoff. unfold returns, parse_transport.
  destruct (ip_info.protocol info =? 6).
  - destruct (parse_tcp_header_total data tcp_offset Hoff) as [[ti|] Ht];
      unfold bind, call, assign, ret; rewrite Ht; simpl;
      do 2 eexists; (split; [ reflexivity | ]); simpl;
      split; try reflexivity; repeat split.
  - destruct (ip_info.protocol info =? 17).
    + destruct (parse_udp_header_total data tcp_offset Hoff) as [[ui|] Hu];
        unfold bind, call, assign, ret; rewrite Hu; simpl;
        do 2 eexists; (split; [ reflexivity | ]); simpl;
        split; try reflexivity; repeat split.
    + unfold ret. do 2 eexists. split; [ reflexivity | ].
      split; [ reflexivity | apply same_ip_refl ].
Qed.

(** The flow block returns: the lookup that follows the insertion cannot
    miss, and the statistics never raise.  It leaves the flow of the
    packet in the table. *)
Lemma track_flow_returns (sqrt : Q -> Q) (timestamp : Q)
    (tcp_flags tcp_window : Z) (h : heap) :
  returns (track_flow sqrt timestamp tcp_flags tcp_window) h
    (fun h' _ =>
       NetworkFeatures.same_ip (the_features h) (the_features h') /\
       let f := the_features h in
       let k :=
         FlowKey.init (NetworkFeatures.src_ip f) (NetworkFeatures.dst_ip f)
           (NetworkFeatures.src_port f) (NetworkFeatures.dst_port f)
           (NetworkFeatures.protocol f) in
       exists F,
         flow_states (the_class h') !! FlowKey.key k = Some F /\
         FlowState.last_time F = Some timestamp).
Proof.
  unfold returns, track_flow, bind, get_features, get_flow_states,
    put_flow_states, call, assign, ret.
  set (f := the_features h).
  set (k := FlowKey.key
              (FlowKey.init (NetworkFeatures.src_ip f) (NetworkFeatures.dst_ip f)
                 (NetworkFeatures.src_port f) (NetworkFeatures.dst_port f)
                 (NetworkFeatures.protocol f))).
  destruct (flow_states (the_class h) !! k) as [F0|] eqn:Ek; simpl.
  - rewrite Ek.
    match goal with |- context [calculate_flow_statistics sqrt ?F ?t] =>
      destruct (StatsFacts.calculate_flow_statistics_total sqrt F t)
        as [s Hs]; rewrite Hs end.
    simpl. do 2 eexists. split; [ reflexivity | ]. simpl.
    split; [ repeat split | ].
    eexists. split; [ apply lookup_insert_eq | reflexivity ].
  - rewrite lookup_insert_eq.
    match goal with |- context [calculate_flow_statistics sqrt ?F ?t] =>
      destruct (StatsFacts.calculate_flow_statistics_total sqrt F t)
        as [s Hs]; rewrite Hs end.
    simpl. do 2 eexists. split; [ reflexivity | ]. simpl.
    split; [ repeat split | ].
    eexists. split; [ apply lookup_insert_eq | reflexivity ].
Qed.

End ParseFacts.


(** ** The body of parse_packet *)

Module BodyFacts.
Import PacketParser.

(** A frame that is not IPv4 leaves both objects as they are. *)
Lemma parse_body_not_ipv4 (sqrt : Q -> Q) (data : bytes) (ts : Q) (h : heap) :
  eth_type_of data <> Some 0x0800 ->
  parse_body sqrt data ts h = (h, Ok tt).
Proof.
  unfold eth_type_of, parse_body, bind, call.
  destruct (ParseFacts.parse_ethernet_header_total data)
    as (dm & sm & ty & -> & _).
  intros Hty. rewrite bool_decide_eq_false_2 by exact Hty. reflexivity.
Qed.

(** An IPv4 frame with a whole IP header goes all the way: IP fields,
    transport fields, flow table, statistics. *)
Lemma parse_body_ipv4 (sqrt : Q -> Q) (data : bytes) (ts : Q) (h : heap) :
  eth_type_of data = Some 0x0800 ->
  34 <= len data ->
  exists info tcp_offset,
    parse_ip_header data 14 = Ok (Some (info, tcp_offset)) /\
    returns (parse_body sqrt data ts) h
      (fun h' _ =>
         let f := the_features h in
         let f' := the_features h' in
         NetworkFeatures.same_base f f' /\
         NetworkFeatures.src_ip f' = ip_info.src_ip info /\
         NetworkFeatures.dst_ip f' = ip_info.dst_ip info /\
         NetworkFeatures.protocol f' = ip_info.protocol info /\
         NetworkFeatures.ttl f' = ip_info.ttl info /\
         NetworkFeatures.tos f' = ip_info.tos info /\
         NetworkFeatures.header_length f' = ip_info.header_length info /\
         exists k F,
           flow_states (the_class h') !! k = Some F /\
           FlowState.last_time F = Some ts).
Proof.
  unfold eth_type_of. intros Hty Hlen.
  destruct (ParseFacts.parse_ethernet_header_total data)
    as (dm & sm & ty & Heth & _).
  rewrite Heth in Hty. subst ty.
  destruct (ParseFacts.parse_ip_header_total data 14) as (r & Hip & Hsome & _);
    [ lia | ].
  destruct Hsome as (info & off & -> & Hoff); [ lia | ].
  exists info, off. split; [ exact Hip | ].
  unfold returns, parse_body, bind, call. rewrite Heth, Hip.
  rewrite bool_decide_eq_true_2 by reflexivity.
  unfold assign at 1. cbn beta iota.
  match goal with |- context [parse_transport data info off ?h1] =>
    destruct (ParseFacts.parse_transport_returns data info off h1 Hoff)
      as (h2 & tw & Ht & Hc & Hf); rewrite Ht
  end.
  destruct (ParseFacts.track_flow_returns sqrt ts (fst tw) (snd tw) h2)
    as (h3 & [] & Hk & Hg & Hflow).
  rewrite Hk. exists h3, tt. split; [ reflexivity | ].
  unfold NetworkFeatures.same_ip, NetworkFeatures.same_base in *.
  cbv zeta in *. simpl in Hf, Hc.
  destruct Hflow as (F & HF & Hlast).
  repeat split; try (intuition congruence).
  eauto.
Qed.

(** The [try] block returns on every frame and leaves the packet length,
    the timestamp and the label of the record alone. *)
Lemma parse_body_returns (sqrt : Q -> Q) (data : bytes) (ts : Q) (h : heap) :
  returns (parse_body sqrt data ts) h
    (fun h' _ =>
       NetworkFeatures.same_base (the_features h) (the_features h')).
Proof.
  destruct (decide (eth_type_of data = Some 0x0800)) as [Hty|Hty].
  - destruct (Z.le_gt_cases 34 (len data)) as [Hlen|Hshort].
    + destruct (parse_body_ipv4 sqrt data ts h Hty Hlen)
        as (info & off & _ & h' & a & Hb & Hs & _).
      exists h', a. auto.
    + exists h, tt. split; [ | repeat split ].
      unfold eth_type_of in Hty. unfold parse_body, bind, call.
      destruct (ParseFacts.parse_ethernet_header_total data)
        as (dm & sm & ty & Heth & _).
      rewrite Heth in *. subst ty.
      rewrite bool_decide_eq_true_2 by reflexivity.
      destruct (ParseFacts.parse_ip_header_total data 14)
        as (r & Hip & _ & Hnone); [ lia | ].
      rewrite Hip, Hnone by lia. reflexivity.
  - exists h, tt. split; [ now apply parse_body_not_ipv4 | repeat split ].
Qed.


End BodyFacts.

(** ** More about flow state *)

Module FlowBookFacts.
Import FlowState FlowBook.

Lemma run_snoc (F : t) (calls : list call) (c : call) :
  run F (calls ++ [c]) = apply (run F calls) c.
Proof. unfold run. now rewrite fold_left_app. Qed.

Lemma counted_init : counted init.
Proof. constructor; simpl; try reflexivity; tauto. Qed.

Lemma counted_update (F : t) (c : call) : counted F -> counted (apply F c).
Proof.
  intros [H1 H2 H3 H4 H5 H6 H7]. destruct c as [pl ts fwd fl w].
  unfold apply, update; constructor; simpl.
  - destruct fwd; rewrite ?length_app; simpl; lia.
  - destruct fwd; rewrite ?length_app; simpl; lia.
  - destruct fwd; [ | lia ].
    destruct (fwd_last_time F) eqn:E; simpl.
    + rewrite length_app. simpl.
      assert (fwd_packets F <> 0)
        by (intros Z0; apply H5 in Z0; discriminate).
      lia.
    + assert (fwd_packets F = 0) by (now apply H5). lia.
  - destruct fwd; [ lia | ].
    destruct (bwd_last_time F) eqn:E; simpl.
    + rewrite length_app. simpl.
      assert (bwd_packets F <> 0)
        by (intros Z0; apply H6 in Z0; discriminate).
      lia.
    + assert (bwd_packets F = 0) by (now apply H6). lia.
  - destruct fwd; [ split; [ discriminate | lia ] | exact H5 ].
  - destruct fwd; [ exact H6 | split; [ discriminate | lia ] ].
  - rewrite FlowStateFacts.sum_app. destruct fwd; lia.
Qed.

Lemma counted_run (calls : list call) : counted (run init calls).
Proof.
  induction calls as [|c calls IH] using rev_ind;
    [ apply counted_init | ].
  rewrite run_snoc. now apply counted_update.
Qed.

Lemma timed_init : timed init.
Proof. constructor; simpl; try reflexivity; tauto. Qed.

Lemma timed_update (F : t) (c : call) : timed F -> timed (apply F c).
Proof.
  intros [H1 H2 H3 H5]. destruct c as [pl ts fwd fl w].
  unfold apply, update; constructor; simpl; try reflexivity.
  - destruct (start_time F); split; discriminate.
  - destruct (start_time F) as [s|] eqn:Es.
    + rewrite H3. destruct (last_packet_time F) as [l|]; simpl.
      * rewrite List.filter_app. simpl.
        destruct (Qgtb (fsub ts l) 1); simpl; now rewrite H5, ?app_nil_r.
      * exact H5.
    + destruct H1 as [H1 _]. rewrite (H1 eq_refl). simpl.
      rewrite FloatFacts.fsub_self. exact H5.
Qed.

Lemma timed_run (calls : list call) : timed (run init calls).
Proof.
  induction calls as [|c calls IH] using rev_ind; [ apply timed_init | ].
  rewrite run_snoc. now apply timed_update.
Qed.

(** The gaps of a list that grows at its end. *)
Lemma last_cons {A} (a d : A) (l : list A) :
  List.last (a :: l) d = List.last l a.
Proof.
  revert a d. induction l as [|b l IH]; intros a d; [ reflexivity | ].
  change (List.last (a :: b :: l) d) with (List.last (b :: l) d).
  now rewrite (IH b d), (IH b a).
Qed.

Lemma gaps_snoc (prev : Q) (ts : list Q) (t0 : Q) :
  gaps prev (ts ++ [t0]) = gaps prev ts ++ [fsub t0 (List.last ts prev)].
Proof.
  revert prev. induction ts as [|a ts IH]; intros prev; [ reflexivity | ].
  simpl gaps. rewrite IH, last_cons. reflexivity.
Qed.

(** Every inter-arrival time is the difference between the timestamp of
    a call and that of the call before it. *)
Lemma gaps_of_run (c : call) (calls : list call) :
  let F := run init (c :: calls) in
  last_packet_time F
  = Some (List.last (map c_timestamp calls) (c_timestamp c)) /\
  all_inter_arrival_times F
  = gaps (c_timestamp c) (map c_timestamp calls).
Proof.
  cbv zeta. induction calls as [|c' calls IH] using rev_ind.
  - split; reflexivity.
  - change (c :: calls ++ [c']) with ((c :: calls) ++ [c']).
    rewrite run_snoc. destruct IH as [Hl Hg].
    rewrite map_app. simpl map. rewrite gaps_snoc, List.last_last.
    set (F := run init (c :: calls)) in *.
    destruct c' as [pl ts fwd fl w]. unfold apply, update.
    cbn [last_packet_time all_inter_arrival_times c_timestamp].
    split; [ reflexivity | ]. rewrite Hl, Hg. reflexivity.
Qed.

End FlowBookFacts.

Module FlowRecordFacts.
Import FlowState FlowBook.

(** The lists of a flow state are the calls it received, by direction. *)
Lemma lists_of_run (calls : list call) :
  let F := run init calls in
  all_packet_lengths F = map c_packet_length calls /\
  fwd_packet_lengths F
  = map c_packet_length (List.filter c_is_forward calls) /\
  bwd_packet_lengths F
  = map c_packet_length
      (List.filter (fun c => negb (c_is_forward c)) calls) /\
  tcp_window_sizes F
  = List.filter (fun w => 0 <? w) (map c_tcp_window calls) /\
  active_periods F = [].
Proof.
  cbv zeta. induction calls as [|c calls IH] using rev_ind.
  - repeat split.
  - rewrite FlowBookFacts.run_snoc.
    destruct IH as (H1 & H2 & H3 & H4 & H5).
    destruct c as [pl ts fwd fl w]. unfold apply, update. simpl.
    rewrite !List.filter_app, !map_app, List.filter_app. simpl.
    rewrite H1, H5.
    repeat split.
    + destruct fwd; simpl; now rewrite H2, ?app_nil_r.
    + destruct fwd; simpl; now rewrite H3, ?app_nil_r.
    + destruct (0 <? w); simpl; now rewrite H4, ?app_nil_r.
Qed.

(** The flag counter holds, per flag byte, the number of calls that
    carried it; keys are positive. *)
Lemma flags_of_run (calls : list call) (k : Z) :
  tcp_flags_count (run init calls) !! k
  = if (0 <? k) && (0 <? count (fun c => c_tcp_flags c =? k) calls)
    then Some (count (fun c => c_tcp_flags c =? k) calls)
    else None.
Proof.
  unfold count. induction calls as [|c calls IH] using rev_ind.
  - simpl. now rewrite andb_false_r.
  - rewrite FlowBookFacts.run_snoc.
    destruct c as [pl ts fwd fl w]. unfold apply, update. simpl.
    rewrite List.filter_app, length_app. simpl.
    destruct (Z.ltb_spec 0 fl) as [Hfl|Hfl].
    + unfold incr. destruct (Z.eqb_spec fl k) as [->|Hne].
      * rewrite lookup_insert_eq, IH. simpl.
        destruct (Z.ltb_spec 0 k); [ | lia ]. simpl.
        destruct (Z.ltb_spec 0
                    (Z.of_nat (length
                       (List.filter (fun c => c_tcp_flags c =? k) calls))));
          simpl.
        -- destruct (Z.ltb_spec 0
                       (Z.of_nat (length
                          (List.filter (fun c => c_tcp_flags c =? k) calls)
                        + 1))); [ | lia ].
           f_equal. lia.
        -- destruct (Z.ltb_spec 0
                       (Z.of_nat (length
                          (List.filter (fun c => c_tcp_flags c =? k) calls)
                        + 1))); [ | lia ].
           f_equal. lia.
      * rewrite lookup_insert_ne by exact Hne. rewrite IH. simpl.
        now rewrite Nat.add_0_r.
    + rewrite IH. destruct (Z.eqb_spec fl k) as [->|Hne]; simpl.
      * destruct (Z.ltb_spec 0 k); [ lia | reflexivity ].
      * now rewrite Nat.add_0_r.
Qed.

Lemma total_insert (d : gmap Z Z) (k v : Z) :
  d !! k = None -> total (<[k := v]> d) = v + total d.
Proof.
  intros H. unfold total.
  apply (map_fold_insert_L (fun _ n acc => n + acc)); [ | exact H ].
  intros. lia.
Qed.

Lemma total_incr (d : gmap Z Z) (k : Z) : total (incr d k) = total d + 1.
Proof.
  unfold incr. destruct (d !! k) as [v|] eqn:E; simpl.
  - rewrite <- (insert_delete_eq d k (v + 1)).
    rewrite <- (insert_delete_id d k v E) at 2.
    rewrite !total_insert by apply lookup_delete_eq. lia.
  - rewrite total_insert by exact E. lia.
Qed.

(** The sum of the flag counter is the number of calls with a flag set. *)
Lemma total_of_run (calls : list call) :
  total (tcp_flags_count (run init calls))
  = count (fun c => 0 <? c_tcp_flags c) calls.
Proof.
  unfold count. induction calls as [|c calls IH] using rev_ind.
  - reflexivity.
  - rewrite FlowBookFacts.run_snoc.
    destruct c as [pl ts fwd fl w]. unfold apply, update. simpl.
    rewrite List.filter_app, length_app. simpl.
    destruct (0 <? fl); simpl.
    + rewrite total_incr, IH. lia.
    + rewrite IH. lia.
Qed.

End FlowRecordFacts.

Module StatsFieldFacts.
Import PacketParser.

(** Every field of the dictionary, in terms of the flow state. *)
Lemma calculate_flow_statistics_all (sqrt : Q -> Q) (F : FlowState.t)
    (now : Q) (s : Stats.t) :
  calculate_flow_statistics sqrt F now = Ok s ->
  (Stats.flow_duration s = duration_since_start F now /\
   Stats.total_fwd_packets s = FlowState.fwd_packets F /\
   Stats.total_bwd_packets s = FlowState.bwd_packets F /\
   Stats.total_length_fwd_packets s = FlowState.fwd_bytes F /\
   Stats.total_length_bwd_packets s = FlowState.bwd_bytes F /\
   Stats.tcp_flags_count s = FlowBook.total (FlowState.tcp_flags_count F) /\
   Stats.flow_bytes_total s
   = FlowState.fwd_bytes F + FlowState.bwd_bytes F) /\
  (mean_or_0 (ints (FlowState.all_packet_lengths F))
   = Ok (Stats.packet_length_mean s) /\
   std_or_0 sqrt (ints (FlowState.all_packet_lengths F))
   = Ok (Stats.packet_length_std s) /\
   min_or_0 (FlowState.all_packet_lengths F)
   = Ok (Stats.packet_length_min s) /\
   max_or_0 (FlowState.all_packet_lengths F)
   = Ok (Stats.packet_length_max s) /\
   variance_or_0 (ints (FlowState.all_packet_lengths F))
   = Ok (Stats.packet_length_variance s) /\
   mean_or_0 (ints (FlowState.fwd_packet_lengths F))
   = Ok (Stats.fwd_packet_length_mean s) /\
   mean_or_0 (ints (FlowState.tcp_window_sizes F))
   = Ok (Stats.tcp_window_size_mean s)) /\
  (mean_or_0 (FlowState.all_inter_arrival_times F)
   = Ok (Stats.flow_inter_arrival_time_mean s) /\
   std_or_0 sqrt (FlowState.all_inter_arrival_times F)
   = Ok (Stats.flow_inter_arrival_time_std s) /\
   mean_or_0 (FlowState.fwd_inter_arrival_times F)
   = Ok (Stats.fwd_inter_arrival_time_mean s) /\
   mean_or_0 (FlowState.bwd_inter_arrival_times F)
   = Ok (Stats.bwd_inter_arrival_time_mean s) /\
   mean_or_0 (FlowState.active_periods F) = Ok (Stats.active_mean s) /\
   std_or_0 sqrt (FlowState.active_periods F) = Ok (Stats.active_std s)).
Proof.
  intros E. unfold calculate_flow_statistics in E.
  StatsFacts.walk E. inversion E; subst; clear E. simpl.
  repeat split; assumption.
Qed.

End StatsFieldFacts.

Module GapFacts.
Import FlowState FlowBook.

Lemma nondecreasing_tail (x : Q) (l : list Q) :
  nondecreasing (x :: l) -> nondecreasing l.
Proof. destruct l as [|y l]; [ auto | now intros [_ H] ]. Qed.

Lemma nondecreasing_head (x : Q) (l : list Q) :
  nondecreasing (x :: l) -> Forall (fun y => x <= y)%Q l.
Proof.
  revert x. induction l as [|y l IH]; intros x H; [ constructor | ].
  destruct H as [Hxy H]. constructor; [ exact Hxy | ].
  apply (IH y) in H.
  eapply Forall_impl; [ exact H | ]. intros z Hz. simpl in Hz.
  now apply Qle_trans with y.
Qed.

(** In a sequence that never goes back, the last timestamp bounds all. *)
Lemma nondecreasing_snoc (l : list Q) (x : Q) :
  nondecreasing (l ++ [x]) ->
  nondecreasing l /\ Forall (fun y => y <= x)%Q l.
Proof.
  induction l as [|y l IH]; intros H; [ split; [ exact I | constructor ] | ].
  change ((y :: l) ++ [x]) with (y :: (l ++ [x])) in H.
  pose proof (nondecreasing_head _ _ H) as Hy.
  apply nondecreasing_tail in H as Ht. destruct (IH Ht) as [H1 H2].
  split.
  - destruct l as [|z l]; [ exact I | ].
    split; [ | exact H1 ]. now inversion Hy.
  - constructor; [ | exact H2 ].
    apply Forall_app in Hy as [_ Hy]. now inversion Hy.
Qed.

(** The three "last seen" times are timestamps of calls already made. *)
Lemma last_times_seen (calls : list call) :
  let F := run init calls in
  seen calls (last_packet_time F) /\
  seen calls (fwd_last_time F) /\
  seen calls (bwd_last_time F).
Proof.
  cbv zeta. induction calls as [|c calls IH] using rev_ind.
  - repeat split.
  - rewrite FlowBookFacts.run_snoc. destruct IH as (H1 & H2 & H3).
    assert (Hw : forall o, seen calls o -> seen (calls ++ [c]) o).
    { intros [t0|]; simpl; [ | auto ]. rewrite map_app, in_app_iff. auto. }
    assert (Hc : seen (calls ++ [c]) (Some (c_timestamp c))).
    { simpl. rewrite map_app, in_app_iff. right. now left. }
    destruct c as [pl ts fwd fl w]. unfold apply, update. simpl in *.
    split; [ exact Hc | ].
    destruct fwd; split; auto.
Qed.

Lemma append_gap_nonneg (l : list Q) (calls : list call) (o : option Q)
    (ts : Q) :
  Forall (fun g => 0 <= g)%Q l ->
  seen calls o ->
  Forall (fun y => y <= ts)%Q (map c_timestamp calls) ->
  Forall (fun g => 0 <= g)%Q (append_gap l o ts).
Proof.
  intros Hl Ho Hts. destruct o as [t0|]; simpl; [ | exact Hl ].
  apply Forall_app. split; [ exact Hl | ]. constructor; [ | constructor ].
  rewrite Forall_forall in Hts.
  apply FloatFacts.fsub_nonneg.
  apply Hts. apply list_elem_of_In. exact Ho.
Qed.

Lemma gaps_nonneg (calls : list call) :
  nondecreasing (map c_timestamp calls) ->
  let F := run init calls in
  Forall (fun g => 0 <= g)%Q (all_inter_arrival_times F) /\
  Forall (fun g => 0 <= g)%Q (fwd_inter_arrival_times F) /\
  Forall (fun g => 0 <= g)%Q (bwd_inter_arrival_times F).
Proof.
  cbv zeta. induction calls as [|c calls IH] using rev_ind; intros Hnd.
  - repeat split; constructor.
  - rewrite map_app in Hnd. simpl in Hnd.
    apply nondecreasing_snoc in Hnd as [Hnd Hle].
    destruct (IH Hnd) as (H1 & H2 & H3).
    destruct (last_times_seen calls) as (S1 & S2 & S3).
    rewrite FlowBookFacts.run_snoc.
    destruct c as [pl ts fwd fl w]. unfold apply, update. simpl in *.
    split; [ now apply (append_gap_nonneg _ calls) | ].
    destruct fwd; split; auto; now apply (append_gap_nonneg _ calls).
Qed.

End GapFacts.

Module ExtremeFacts.

Lemma fold_min_le (l : list Z) (x : Z) :
  fold_left Z.min l x <= x /\ Forall (fun y => fold_left Z.min l x <= y) l.
Proof.
  revert x. induction l as [|y l IH]; intros x; simpl.
  - split; [ lia | constructor ].
  - destruct (IH (Z.min x y)) as [H1 H2]. split; [ lia | ].
    constructor; [ lia | exact H2 ].
Qed.

Lemma fold_max_ge (l : list Z) (x : Z) :
  x <= fold_left Z.max l x /\ Forall (fun y => y <= fold_left Z.max l x) l.
Proof.
  revert x. induction l as [|y l IH]; intros x; simpl.
  - split; [ lia | constructor ].
  - destruct (IH (Z.max x y)) as [H1 H2]. split; [ lia | ].
    constructor; [ lia | exact H2 ].
Qed.

Lemma min_or_0_bound (l : list Z) (m : Z) :
  PacketParser.min_or_0 l = Ok m -> Forall (fun y => m <= y) l.
Proof.
  destruct l as [|x l]; simpl; intros H; inversion H; subst;
    [ constructor | ].
  destruct (fold_min_le l x). now constructor.
Qed.

Lemma max_or_0_bound (l : list Z) (m : Z) :
  PacketParser.max_or_0 l = Ok m -> Forall (fun y => y <= m) l.
Proof.
  destruct l as [|x l]; simpl; intros H; inversion H; subst;
    [ constructor | ].
  destruct (fold_max_ge l x). now constructor.
Qed.

End ExtremeFacts.

(** ** Slices and big-endian fields *)

Module WireFacts.
Import PacketParser.

Lemma byte_val_range (b : byte) : 0 <= byte_val b < 256.
Proof.
  unfold byte_val. pose proof (Byte.to_N_bounded b). lia.
Qed.

Lemma byte_val_inj (a b : byte) : byte_val a = byte_val b -> a = b.
Proof.
  unfold byte_val. intros H. apply N2Z.inj in H.
  pose proof (Byte.of_to_N a) as Ha. rewrite H, Byte.of_to_N in Ha.
  now inversion Ha.
Qed.

Lemma be_uint_snoc (bs : bytes) (b : byte) :
  be_uint (bs ++ [b]) = be_uint bs * 256 + byte_val b.
Proof. unfold be_uint. now rewrite fold_left_app. Qed.

Lemma be_uint_range (bs : bytes) : 0 <= be_uint bs < 256 ^ Z.of_nat (length bs).
Proof.
  induction bs as [|b bs IH] using rev_ind;
    [ change (0 <= 0 < 1); lia | ].
  rewrite be_uint_snoc, length_app. simpl length.
  replace (Z.of_nat (length bs + 1)) with (Z.succ (Z.of_nat (length bs)))
    by lia.
  rewrite Z.pow_succ_r by lia.
  pose proof (byte_val_range b). nia.
Qed.

Lemma be_uint_below (bs : bytes) (k : nat) :
  (length bs <= k)%nat -> 0 <= be_uint bs < 256 ^ Z.of_nat k.
Proof.
  intros H. pose proof (be_uint_range bs) as [H0 H1]. split; [ exact H0 | ].
  eapply Z.lt_le_trans; [ exact H1 | ].
  apply Z.pow_le_mono_r; lia.
Qed.

Lemma slice_below {A} (l : list A) (lo hi : nat) :
  (length (slice l lo hi) <= hi - lo)%nat.
Proof. unfold slice. rewrite length_take. lia. Qed.

(** A slice of a slice is a slice of the whole. *)
Lemma slice_sub {A} (data : list A) (offset n : Z) (a b : nat) :
  0 <= offset -> (a <= b)%nat -> Z.of_nat b <= n ->
  slice (sub data offset (offset + n)) a b
  = sub data (offset + Z.of_nat a) (offset + Z.of_nat b).
Proof.
  intros Ho Hab Hb. unfold sub, slice.
  rewrite skipn_firstn_comm, take_take, drop_drop.
  replace (Z.to_nat (offset + Z.of_nat a)) with (Z.to_nat offset + a)%nat
    by lia.
  f_equal. lia.
Qed.

End WireFacts.

Module FlagFacts.

(** The low six bits of a byte, masked one by one, are bits and put the
    byte's low six bits together again. *)
Lemma flag_bits (f : Z) :
  0 <= f < 256 ->
  let bit m k := Z.shiftr (Z.land f m) k in
  (bit 1 0 = 0 \/ bit 1 0 = 1) /\
  (bit 2 1 = 0 \/ bit 2 1 = 1) /\
  (bit 4 2 = 0 \/ bit 4 2 = 1) /\
  (bit 8 3 = 0 \/ bit 8 3 = 1) /\
  (bit 16 4 = 0 \/ bit 16 4 = 1) /\
  (bit 32 5 = 0 \/ bit 32 5 = 1) /\
  f mod 64
  = bit 1 0 + 2 * bit 2 1 + 4 * bit 4 2 + 8 * bit 8 3 + 16 * bit 16 4
    + 32 * bit 32 5.
Proof.
  intros Hf. cbv beta zeta.
  assert (Hall :
    forallb
      (fun n =>
         let f := Z.of_nat n in
         let bit m k := Z.shiftr (Z.land f m) k in
         (bit 1 0 <? 2) && (bit 2 1 <? 2) && (bit 4 2 <? 2) && (bit 8 3 <? 2)
         && (bit 16 4 <? 2) && (bit 32 5 <? 2)
         && (0 <=? bit 1 0) && (0 <=? bit 2 1) && (0 <=? bit 4 2)
         && (0 <=? bit 8 3) && (0 <=? bit 16 4) && (0 <=? bit 32 5)
         && (f mod 64
             =? bit 1 0 + 2 * bit 2 1 + 4 * bit 4 2 + 8 * bit 8 3
                + 16 * bit 16 4 + 32 * bit 32 5))
      (seq 0 256) = true) by (vm_compute; reflexivity).
  rewrite forallb_forall in Hall.
  specialize (Hall (Z.to_nat f)).
  rewrite Z2Nat.id in Hall by lia. cbv beta zeta in Hall.
  assert (Hin : In (Z.to_nat f) (seq 0 256)) by (apply in_seq; lia).
  specialize (Hall Hin).
  repeat (apply andb_prop in Hall as [Hall ?]).
  repeat match goal with
         | H : (_ <? _) = true |- _ => apply Z.ltb_lt in H
         | H : (_ <=? _) = true |- _ => apply Z.leb_le in H
         | H : (_ =? _) = true |- _ => apply Z.eqb_eq in H
         end.
  repeat split; try lia.
Qed.

End FlagFacts.

(** ** Text of addresses *)

Module TextFacts.

Lemma mac_length (l : bytes) :
  length l = 6%nat -> String.length (join ":" (map hex2 l)) = 17%nat.
Proof.
  intros H.
  destruct l as [|b1 [|b2 [|b3 [|b4 [|b5 [|b6 [|b7 l]]]]]]];
    try discriminate H.
  reflexivity.
Qed.

(** Decimal text has no dot in it. *)
Lemma digits_no_dot (d : Decimal.uint) :
  ~ In "."%char (list_ascii_of_string (NilEmpty.string_of_uint d)).
Proof.
  induction d; simpl; try tauto; (intros [H|H]; [ discriminate H | auto ]).
Qed.

Lemma str_of_Z_no_dot (n : Z) :
  ~ In "."%char (list_ascii_of_string (str_of_Z n)).
Proof.
  unfold str_of_Z, NilZero.string_of_uint.
  destruct (N.to_uint (Z.to_N n)) eqn:E; try apply digits_no_dot.
  simpl. intros [H|[]]. discriminate H.
Qed.

Lemma to_uint_not_nil (n : N) : N.to_uint n <> Decimal.Nil.
Proof.
  intros H. pose proof (DecimalN.Unsigned.of_to n) as Hn. rewrite H in Hn.
  simpl in Hn. subst n. discriminate H.
Qed.

Lemma str_of_Z_inj (n m : Z) :
  0 <= n -> 0 <= m -> str_of_Z n = str_of_Z m -> n = m.
Proof.
  intros Hn Hm H. unfold str_of_Z in H.
  pose proof (NilZero.usu _ (to_uint_not_nil (Z.to_N n))) as H1.
  pose proof (NilZero.usu _ (to_uint_not_nil (Z.to_N m))) as H2.
  rewrite H, H2 in H1. inversion H1 as [H3].
  apply DecimalN.Unsigned.to_uint_inj in H3. lia.
Qed.

(** Two texts cut at their first dot agree piece by piece. *)
Lemma split_at_dot (s1 s2 r1 r2 : string) :
  ~ In "."%char (list_ascii_of_string s1) ->
  ~ In "."%char (list_ascii_of_string s2) ->
  String.append s1 (String "." r1) = String.append s2 (String "." r2) ->
  s1 = s2 /\ r1 = r2.
Proof.
  revert s2. induction s1 as [|c s1 IH]; intros [|c' s2] H1 H2 H; simpl in *.
  - inversion H. auto.
  - inversion H; subst. exfalso. apply H2. now left.
  - inversion H; subst. exfalso. apply H1. now left.
  - inversion H; subst.
    destruct (IH s2) as [-> ->]; auto.
Qed.

Lemma dotted_inj (p q : bytes) :
  length p = 4%nat -> length q = 4%nat -> dotted p = dotted q -> p = q.
Proof.
  intros Hp Hq H.
  destruct p as [|a1 [|a2 [|a3 [|a4 [|a5 p]]]]]; try discriminate Hp.
  destruct q as [|b1 [|b2 [|b3 [|b4 [|b5 q]]]]]; try discriminate Hq.
  unfold dotted in H. cbn [map join] in H.
  change (String.append "." ?x) with (String "."%char x) in H.
  apply split_at_dot in H as [E1 H]; try apply str_of_Z_no_dot.
  apply split_at_dot in H as [E2 H]; try apply str_of_Z_no_dot.
  apply split_at_dot in H as [E3 E4]; try apply str_of_Z_no_dot.
  repeat match goal with
         | E : str_of_Z (byte_val ?a) = str_of_Z (byte_val ?b) |- _ =>
             apply str_of_Z_inj in E;
             [ apply WireFacts.byte_val_inj in E; subst
             | apply WireFacts.byte_val_range
             | apply WireFacts.byte_val_range ]
         end.
  reflexivity.
Qed.

End TextFacts.

(** ** The effect of parse_packet *)

Module PacketFacts.
Import PacketParser.

Local Ltac zeros :=
  let H := fresh "H" in
  intros H; unfold Fields.tcp_part in H; simpl in H |- *;
  injection H; intros; f_equal; congruence.

(** The transport block, case by case. *)
Lemma parse_transport_effect (data : bytes) (info : ip_info.t)
    (tcp_offset : Z) (h : heap) :
  0 <= tcp_offset ->
  exists h' tw,
    parse_transport data info tcp_offset h = (h', Ok tw) /\
    the_class h' = the_class h /\
    NetworkFeatures.same_ip (the_features h) (the_features h') /\
    (Fields.tcp_part (the_features h) = repeat 0 10 ->
     tw = (NetworkFeatures.tcp_flags (the_features h'),
           NetworkFeatures.tcp_window (the_features h'))) /\
    (ip_info.protocol info <> 6 ->
     Fields.tcp_part (the_features h') = Fields.tcp_part (the_features h)) /\
    (ip_info.protocol info <> 6 -> ip_info.protocol info <> 17 ->
     Fields.ports (the_features h') = Fields.ports (the_features h)) /\
    (ip_info.protocol info = 6 ->
     PacketParser.len data < tcp_offset + 20 -> h' = h) /\
    (ip_info.protocol info = 17 ->
     PacketParser.len data < tcp_offset + 8 -> h' = h).
Proof.
  intros Hoff. unfold parse_transport.
  destruct (Z.eqb_spec (ip_info.protocol info) 6) as [E6|N6].
  - unfold bind, call, assign, ret.
    unfold parse_tcp_header at 1.
    destruct (Z.ltb_spec (len data) (tcp_offset + 20)) as [Hs|Hl].
    + exists h, (0, 0). repeat split; try congruence; try lia.
      zeros.
    + unfold unpack_HHLLBBHHH.
      rewrite ParseFacts.sized_ok
        by (apply (ParseFacts.sub_length data tcp_offset 20); lia).
      cbn [rbind]. do 2 eexists. split; [ reflexivity | ].
      repeat split; try congruence; try lia.
  - destruct (Z.eqb_spec (ip_info.protocol info) 17) as [E17|N17].
    + unfold bind, call, assign, ret.
      unfold parse_udp_header at 1.
      destruct (Z.ltb_spec (len data) (tcp_offset + 8)) as [Hs|Hl].
      * exists h, (0, 0). repeat split; try congruence; try lia.
        zeros.
      * unfold unpack_HHHH.
        rewrite ParseFacts.sized_ok
          by (apply (ParseFacts.sub_length data tcp_offset 8); lia).
        cbn [rbind]. do 2 eexists. split; [ reflexivity | ].
        repeat split; try congruence; try lia.
        zeros.
    + unfold ret. exists h, (0, 0). repeat split; try congruence.
      zeros.
Qed.

(** The flow block: one insertion into the table, the statistics of the
    inserted state copied into the record. *)
Lemma track_flow_effect (sqrt : Q -> Q) (timestamp : Q)
    (tcp_flags tcp_window : Z) (h : heap) :
  let f := the_features h in
  let k := FlowKey.key (Fields.flow_key f) in
  let table := flow_states (the_class h) in
  let F' :=
    FlowState.update (default FlowState.init (table !! k))
      (NetworkFeatures.packet_length f) timestamp
      (FlowKey.is_forward (Fields.flow_key f)) tcp_flags tcp_window in
  exists s,
    calculate_flow_statistics sqrt F' timestamp = Ok s /\
    track_flow sqrt timestamp tcp_flags tcp_window h
    = ({| the_features := NetworkFeatures.set_flow_stats f s;
          the_class := {| flow_states := <[k := F']> table;
                          last_cleanup := last_cleanup (the_class h) |} |},
       Ok tt).
Proof.
  cbv zeta. unfold Fields.flow_key.
  set (f := the_features h).
  set (key := FlowKey.init (NetworkFeatures.src_ip f) (NetworkFeatures.dst_ip f)
                (NetworkFeatures.src_port f) (NetworkFeatures.dst_port f)
                (NetworkFeatures.protocol f)).
  set (k := FlowKey.key key).
  match goal with |- context [calculate_flow_statistics sqrt ?F ?t] =>
    destruct (StatsFacts.calculate_flow_statistics_total sqrt F t) as [s Hs]
  end.
  exists s. split; [ exact Hs | ].
  unfold track_flow, bind, get_features, get_flow_states, put_flow_states,
    call, assign, ret.
  fold f. fold key. fold k.
  destruct (flow_states (the_class h) !! k) as [F0|] eqn:Ek; simpl.
  - fold f key k. rewrite Ek. simpl in Hs. rewrite Hs. reflexivity.
  - fold f key k. rewrite lookup_insert_eq. simpl in Hs. rewrite Hs.
    simpl. now rewrite insert_insert_eq.
Qed.

(** An IPv4 frame with a whole IP header, end to end: [f1] is the record
    as the flow block finds it, [s] the statistics copied into it. *)
Lemma parse_packet_ipv4 (sqrt : Q -> Q) (data : bytes) (ts now : Q)
    (st : state) :
  eth_type_of data = Some 0x0800 ->
  34 <= len data ->
  exists info off f1 s,
    let st0 := cleanup_old_flows now st in
    let k := FlowKey.key (Fields.flow_key f1) in
    let F' :=
      FlowState.update (default FlowState.init (flow_states st0 !! k))
        (len data) ts (FlowKey.is_forward (Fields.flow_key f1))
        (NetworkFeatures.tcp_flags f1) (NetworkFeatures.tcp_window f1) in
    parse_ip_header data 14 = Ok (Some (info, off)) /\
    0 <= off /\
    parse_packet sqrt data ts now st
    = ({| flow_states := <[k := F']> (flow_states st0);
          last_cleanup := last_cleanup st0 |},
       Ok (NetworkFeatures.set_flow_stats f1 s)) /\
    calculate_flow_statistics sqrt F' ts = Ok s /\
    NetworkFeatures.same_base (Fields.fresh data ts) f1 /\
    NetworkFeatures.src_ip f1 = ip_info.src_ip info /\
    NetworkFeatures.dst_ip f1 = ip_info.dst_ip info /\
    NetworkFeatures.protocol f1 = ip_info.protocol info /\
    (ip_info.protocol info <> 6 -> Fields.tcp_part f1 = repeat 0 10) /\
    (ip_info.protocol info <> 6 -> ip_info.protocol info <> 17 ->
     Fields.ports f1 = (0, 0)) /\
    (ip_info.protocol info = 6 -> len data < off + 20 ->
     Fields.ports f1 = (0, 0) /\ Fields.tcp_part f1 = repeat 0 10) /\
    (ip_info.protocol info = 17 -> len data < off + 8 ->
     Fields.ports f1 = (0, 0)).
Proof.
  unfold eth_type_of. intros Hty Hlen.
  destruct (ParseFacts.parse_ethernet_header_total data)
    as (dm & sm & ty & Heth & _).
  rewrite Heth in Hty. subst ty.
  destruct (ParseFacts.parse_ip_header_total data 14) as (r & Hip & Hsome & _);
    [ lia | ].
  destruct Hsome as (info & off & -> & Hoff); [ lia | ].
  set (h1 := {| the_features :=
                  NetworkFeatures.set_ip (Fields.fresh data ts)
                    (ip_info.src_ip info) (ip_info.dst_ip info)
                    (ip_info.protocol info) (ip_info.ttl info)
                    (ip_info.tos info) (ip_info.header_length info);
                the_class := cleanup_old_flows now st |}).
  destruct (parse_transport_effect data info off h1 Hoff)
    as (h2 & tw & Ht & Hc & Hsame & Htw & Hn6 & Hn & Hs6 & Hs17).
  specialize (Htw eq_refl). subst tw.
  destruct (track_flow_effect sqrt ts
              (NetworkFeatures.tcp_flags (the_features h2))
              (NetworkFeatures.tcp_window (the_features h2)) h2)
    as (s & Hs & Hk).
  destruct Hsame as ((Hpl & Hts & Hlb) & Hsrc & Hdst & Hpr & _).
  exists info, off, (the_features h2), s. cbv zeta.
  rewrite Hc in Hs, Hk. rewrite Hpl in Hs, Hk.
  split; [ exact Hip | ]. split; [ exact Hoff | ].
  split; [ | split; [ exact Hs | ] ].
  - unfold parse_packet, try_except, parse_body, bind, call.
    rewrite Heth, Hip. rewrite bool_decide_eq_true_2 by reflexivity.
    unfold assign at 1. cbn beta iota.
    match goal with |- context [parse_transport data info off ?h] =>
      change h with h1
    end.
    rewrite Ht. cbn [fst snd].
    rewrite Hk. reflexivity.
  - split; [ repeat split; assumption | ].
    split; [ exact Hsrc | ]. split; [ exact Hdst | ]. split; [ exact Hpr | ].
    split; [ intros H6; now rewrite (Hn6 H6) | ].
    split; [ intros H6 H17; now rewrite (Hn H6 H17) | ].
    split.
    + intros H6 Hsh. rewrite (Hs6 H6 Hsh). split; reflexivity.
    + intros H17 Hsh. now rewrite (Hs17 H17 Hsh).
Qed.

(** A frame announced as IPv4 that ends inside the Ethernet or the IP
    header leaves the record and the flow table alone. *)
Lemma parse_packet_truncated (sqrt : Q -> Q) (data : bytes) (ts now : Q)
    (st : state) :
  len data < 34 ->
  parse_packet sqrt data ts now st
  = (cleanup_old_flows now st, Ok (Fields.fresh data ts)).
Proof.
  intros Hshort.
  unfold parse_packet, try_except, parse_body, bind, call.
  destruct (ParseFacts.parse_ethernet_header_total data)
    as (dm & sm & ty & Heth & _).
  rewrite Heth.
  destruct (bool_decide (ty = Some 2048)); [ | reflexivity ].
  destruct (ParseFacts.parse_ip_header_total data 14)
    as (r & Hip & _ & Hnone); [ lia | ].
  rewrite Hip, Hnone by lia. reflexivity.
Qed.

End PacketFacts.

(** ** More on the capture loop *)

Module LoopFacts.
Import DPDKPacketCapture CaptureBook.

Lemma released_app (tr1 tr2 : list event) :
  released (tr1 ++ tr2) = released tr1 ++ released tr2.
Proof. unfold released. apply flat_map_app. Qed.

Lemma nonnull_app (l1 l2 : list mbuf_ptr) :
  nonnull (l1 ++ l2) = nonnull l1 ++ nonnull l2.
Proof. unfold nonnull. apply flat_map_app. Qed.

Lemma extends_refl {W} (c : t W) : extends c c.
Proof. exists []. split; [ now rewrite app_nil_r | reflexivity ]. Qed.

Lemma extends_trans {W} (c1 c2 c3 : t W) :
  extends c1 c2 -> extends c2 c3 -> extends c1 c3.
Proof.
  intros (tr1 & H1 & R1) (tr2 & H2 & R2). exists (tr1 ++ tr2). split.
  - now rewrite H2, H1, app_assoc.
  - now rewrite released_app, CaptureFacts.freed_app, nonnull_app, R1, R2.
Qed.

Lemma extends_same {W} (c c' : t W) : trace c' = trace c -> extends c c'.
Proof.
  intros H. exists []. split; [ now rewrite app_nil_r | reflexivity ].
Qed.

Lemma extends_emit {W} (ev : list event) (c : t W) :
  released ev = nonnull (freed ev) -> extends c (emit ev c).
Proof. intros H. exists ev. split; [ reflexivity | exact H ]. Qed.

Section WithEnv.

Context {W : Type} (E : env W).

Lemma free_packet_extends (mbuf : mbuf_ptr) (c : t W) :
  extends c (free_packet mbuf c).
Proof.
  unfold free_packet.
  destruct mbuf as [p|]; [ destruct (p =? 0) eqn:Ep | ];
    apply extends_emit; simpl; rewrite ?Ep; reflexivity.
Qed.

Lemma process_extends (mbuf : mbuf_ptr) (c : t W) :
  extends c (fst (process E mbuf c)).
Proof.
  unfold process.
  destruct (get_packet_data E mbuf (world c)) as [[|b data]|e];
    try apply extends_refl.
  destruct (callback E (b :: data) (time E (world c)) (world c))
    as [w [[]|e]]; simpl; [ | now apply extends_same ].
  destruct (_ =? 0); [ | now apply extends_same ].
  eapply extends_trans; [ | apply (extends_emit [LogInfo]); reflexivity ].
  now apply extends_same.
Qed.

Lemma handle_mbuf_extends (mbuf : mbuf_ptr) (c : t W) :
  extends c (fst (handle_mbuf E mbuf c)).
Proof.
  unfold handle_mbuf.
  pose proof (process_extends mbuf c) as Hp.
  destruct (process E mbuf c) as [c1 [[]|e]]; simpl in *.
  - eapply extends_trans; [ exact Hp | apply free_packet_extends ].
  - destruct (is_Exception e); simpl.
    + eapply extends_trans; [ exact Hp | ].
      eapply extends_trans; [ apply (extends_emit [LogWarning]); reflexivity | ].
      apply free_packet_extends.
    + eapply extends_trans; [ exact Hp | apply free_packet_extends ].
Qed.

Lemma for_mbufs_extends (mbufs : list mbuf_ptr) (c : t W) :
  extends c (fst (for_mbufs E mbufs c)).
Proof.
  revert c. induction mbufs as [|m l IH]; intros c; simpl.
  - apply extends_refl.
  - pose proof (handle_mbuf_extends m c) as Hh.
    destruct (handle_mbuf E m c) as [c1 [[]|e]]; simpl in *.
    + eapply extends_trans; [ exact Hh | apply IH ].
    + exact Hh.
Qed.

Lemma iteration_extends (c : t W) :
  extends c (fst (snd (iteration E c))).
Proof.
  unfold iteration.
  destruct (receive_packets E (world c)) as [w [|m l]].
  - simpl. eapply extends_trans; [ | apply (extends_emit [Sleep]); reflexivity ].
    now apply extends_same.
  - eapply extends_trans; [ | apply for_mbufs_extends ].
    now apply extends_same.
Qed.

Lemma loop_extends (fuel : nat) (c : t W) :
  extends c (fst (loop E fuel c)).
Proof.
  revert c. induction fuel as [|fuel IH]; intros c; simpl.
  - apply extends_refl.
  - destruct (running c); [ | apply extends_refl ].
    pose proof (iteration_extends c) as Hi.
    destruct (snd (iteration E c)) as [c1 [[]|e]]; simpl in *.
    + eapply extends_trans; [ exact Hi | apply IH ].
    + exact Hi.
Qed.

(** The handles released by the body of the [for], and how it ends. *)
Lemma for_mbufs_prefix (mbufs : list mbuf_ptr) (c : t W) :
  exists done rest,
    mbufs = done ++ rest /\
    freed (trace (fst (for_mbufs E mbufs c))) = freed (trace c) ++ done /\
    match snd (for_mbufs E mbufs c) with
    | Ok _ => rest = []
    | Raise e => is_Exception e = false /\ done <> []
    end.
Proof.
  revert c. induction mbufs as [|m l IH]; intros c; simpl.
  - exists [], []. repeat split. now rewrite app_nil_r.
  - pose proof (CaptureFacts.handle_mbuf_freed E m c) as Hf.
    pose proof (CaptureFacts.handle_mbuf_escape E m c) as He.
    destruct (handle_mbuf E m c) as [c1 [[]|e]]; simpl in *.
    + destruct (IH c1) as (done & rest & -> & Hd & Hr).
      exists (m :: done), rest. split; [ reflexivity | ].
      split; [ now rewrite Hd, Hf, <- app_assoc | ].
      destruct (snd (for_mbufs E (done ++ rest) c1)) as [[]|e];
        [ exact Hr | ].
      split; [ apply Hr | discriminate ].
    + exists [m], l. split; [ reflexivity | ]. split; [ exact Hf | ].
      split; [ apply (He e eq_refl) | discriminate ].
Qed.

(** The counter moves up, by at most one per released buffer. *)
Lemma process_count (mbuf : mbuf_ptr) (c : t W) :
  packet_count c <= packet_count (fst (process E mbuf c))
  <= packet_count c + 1.
Proof.
  unfold process.
  destruct (get_packet_data E mbuf (world c)) as [[|b data]|e];
    simpl; try lia.
  destruct (callback E (b :: data) (time E (world c)) (world c))
    as [w [[]|e]]; simpl; [ | lia ].
  destruct (_ =? 0); simpl; lia.
Qed.

Lemma free_packet_count (mbuf : mbuf_ptr) (c : t W) :
  packet_count (free_packet mbuf c) = packet_count c.
Proof.
  unfold free_packet. destruct mbuf as [p|]; [ destruct (p =? 0) | ];
    reflexivity.
Qed.

Lemma handle_mbuf_count (mbuf : mbuf_ptr) (c : t W) :
  packet_count c <= packet_count (fst (handle_mbuf E mbuf c))
  <= packet_count c + 1.
Proof.
  unfold handle_mbuf.
  pose proof (process_count mbuf c) as Hp.
  destruct (process E mbuf c) as [c1 [[]|e]]; simpl in *.
  - now rewrite free_packet_count.
  - destruct (is_Exception e); simpl; now rewrite free_packet_count.
Qed.

Lemma for_mbufs_count (mbufs : list mbuf_ptr) (c : t W) :
  let c' := fst (for_mbufs E mbufs c) in
  packet_count c <= packet_count c'
  <= packet_count c + Z.of_nat (length (freed (trace c'))) - Z.of_nat (length (freed (trace c))).
Proof.
  cbv zeta. revert c. induction mbufs as [|m l IH]; intros c; simpl.
  - lia.
  - pose proof (handle_mbuf_count m c) as Hc.
    pose proof (CaptureFacts.handle_mbuf_freed E m c) as Hf.
    destruct (handle_mbuf E m c) as [c1 [[]|e]]; simpl in *.
    + specialize (IH c1). rewrite Hf in IH. rewrite length_app in IH. simpl in IH. lia.
    + rewrite Hf. rewrite length_app. simpl. lia.
Qed.

Lemma iteration_count (c : t W) :
  let c' := fst (snd (iteration E c)) in
  packet_count c <= packet_count c'
  <= packet_count c + Z.of_nat (length (freed (trace c'))) - Z.of_nat (length (freed (trace c))).
Proof.
  cbv zeta. unfold iteration.
  destruct (receive_packets E (world c)) as [w [|m l]].
  - simpl. rewrite CaptureFacts.freed_app. simpl. rewrite app_nil_r. lia.
  - apply (for_mbufs_count (m :: l) (set_world w c)).
Qed.

Lemma loop_count (fuel : nat) (c : t W) :
  let c' := fst (loop E fuel c) in
  packet_count c <= packet_count c'
  <= packet_count c + Z.of_nat (length (freed (trace c'))) - Z.of_nat (length (freed (trace c))).
Proof.
  cbv zeta. revert c. induction fuel as [|fuel IH]; intros c; simpl.
  - lia.
  - destruct (running c); [ | simpl; lia ].
    pose proof (iteration_count c) as Hi. cbv zeta in Hi.
    destruct (snd (iteration E c)) as [c1 [[]|e]]; simpl in *.
    + specialize (IH c1). lia.
    + exact Hi.
Qed.

(** When the read and the callback raise nothing but [Exception]s, a
    pass ends normally and releases the whole burst. *)
Lemma iteration_all (c : t W) :
  (forall mbuf w e, get_packet_data E mbuf w = Raise e ->
                    is_Exception e = true) ->
  (forall data ts w e, snd (callback E data ts w) = Raise e ->
                       is_Exception e = true) ->
  snd (snd (iteration E c)) = Ok tt /\
  freed (trace (fst (snd (iteration E c))))
  = freed (trace c) ++ fst (iteration E c).
Proof.
  intros Hread Hcb. unfold iteration.
  destruct (receive_packets E (world c)) as [w mbufs].
  assert (Hfor : forall l c0,
    snd (for_mbufs E l c0) = Ok tt /\
    freed (trace (fst (for_mbufs E l c0))) = freed (trace c0) ++ l).
  { induction l as [|m l IH]; intros c0; simpl.
    - now rewrite app_nil_r.
    - pose proof (CaptureFacts.handle_mbuf_freed E m c0) as Hf.
      pose proof (CaptureFacts.handle_mbuf_escape E m c0) as He.
      destruct (handle_mbuf E m c0) as [c1 [[]|e]]; simpl in *.
      + destruct (IH c1) as [H1 H2]. split; [ exact H1 | ].
        rewrite H2, Hf, <- app_assoc. reflexivity.
      + exfalso. destruct (He e eq_refl) as [Hp Hx].
        apply CaptureFacts.process_escape in Hp as [Hp|(d & ts & w' & Hp)].
        * apply Hread in Hp. congruence.
        * apply Hcb in Hp. congruence. }
  destruct mbufs as [|m l].
  - simpl. split; [ reflexivity | ].
    rewrite CaptureFacts.freed_app. reflexivity.
  - exact (Hfor (m :: l) (set_world w c)).
Qed.

End WithEnv.

End LoopFacts.

(** ** Text of message keys and protocol names *)

Module KeyFacts.
Import JSONConverter.

Lemma chars_app (s1 s2 : string) :
  list_ascii_of_string (String.append s1 s2)
  = list_ascii_of_string s1 ++ list_ascii_of_string s2.
Proof. induction s1 as [|c s1 IH]; simpl; [ reflexivity | now rewrite IH ]. Qed.

Lemma digits_no_colon (d : Decimal.uint) :
  ~ In ":"%char (list_ascii_of_string (NilEmpty.string_of_uint d)).
Proof.
  induction d; simpl; try tauto; (intros [H|H]; [ discriminate H | auto ]).
Qed.

Lemma str_of_Z_no_colon (n : Z) :
  ~ In ":"%char (list_ascii_of_string (str_of_Z n)).
Proof.
  unfold str_of_Z, NilZero.string_of_uint.
  destruct (N.to_uint (Z.to_N n)) eqn:E; try apply digits_no_colon.
  simpl. intros [H|[]]. discriminate H.
Qed.

(** Dotted text of any length has no colon in it. *)
Lemma dotted_no_colon (p : bytes) :
  ~ In ":"%char (list_ascii_of_string (dotted p)).
Proof.
  unfold dotted. induction p as [|b p IH]; [ simpl; tauto | ].
  destruct p as [|b' p]; [ apply str_of_Z_no_colon | ].
  change (map _ (b :: b' :: p))
    with (str_of_Z (byte_val b)
          :: map (fun b => str_of_Z (byte_val b)) (b' :: p)).
  set (rest := map _ (b' :: p)) in *.
  assert (E : join "." (str_of_Z (byte_val b) :: rest)
              = String.append (str_of_Z (byte_val b))
                  (String.append "." (join "." rest)))
    by reflexivity.
  rewrite E, !chars_app. intros H.
  apply in_app_or in H as [H|H]; [ now apply str_of_Z_no_colon in H | ].
  apply in_app_or in H as [H|H]; [ | contradiction ].
  simpl in H. destruct H as [H|[]]. discriminate H.
Qed.

(** Two texts cut at their first colon agree piece by piece. *)
Lemma split_at_colon (s1 s2 r1 r2 : string) :
  ~ In ":"%char (list_ascii_of_string s1) ->
  ~ In ":"%char (list_ascii_of_string s2) ->
  String.append s1 (String ":" r1) = String.append s2 (String ":" r2) ->
  s1 = s2 /\ r1 = r2.
Proof.
  revert s2. induction s1 as [|c s1 IH]; intros [|c' s2] H1 H2 H; simpl in *.
  - inversion H. auto.
  - inversion H; subst. exfalso. apply H2. now left.
  - inversion H; subst. exfalso. apply H1. now left.
  - inversion H; subst.
    destruct (IH s2) as [-> ->]; auto.
Qed.

Lemma str_of_int_nonneg (n : Z) : 0 <= n -> str_of_int n = str_of_Z n.
Proof.
  intros H. unfold str_of_int.
  destruct (Z.ltb_spec n 0); [ lia | reflexivity ].
Qed.

(** The five names of the table, and the numbers that have one. *)
Lemma protocol_map_cases (n : Z) :
  (n = 1 /\ get_protocol_name n = "ICMP"%string) \/
  (n = 6 /\ get_protocol_name n = "TCP"%string) \/
  (n = 17 /\ get_protocol_name n = "UDP"%string) \/
  (n = 47 /\ get_protocol_name n = "GRE"%string) \/
  (n = 50 /\ get_protocol_name n = "ESP"%string) \/
  (get_protocol_name n = String.append "UNKNOWN_" (str_of_int n)).
Proof.
  unfold get_protocol_name. cbv zeta.
  destruct (decide (n = 1)) as [->|N1];
    [ left; split; [ reflexivity | ]; now rewrite lookup_insert_eq | ].
  rewrite lookup_insert_ne by congruence.
  destruct (decide (n = 6)) as [->|N6];
    [ right; left; split; [ reflexivity | ]; now rewrite lookup_insert_eq | ].
  rewrite lookup_insert_ne by congruence.
  destruct (decide (n = 17)) as [->|N17];
    [ do 2 right; left; split; [ reflexivity | ];
      now rewrite lookup_insert_eq | ].
  rewrite lookup_insert_ne by congruence.
  destruct (decide (n = 47)) as [->|N47];
    [ do 3 right; left; split; [ reflexivity | ];
      now rewrite lookup_insert_eq | ].
  rewrite lookup_insert_ne by congruence.
  destruct (decide (n = 50)) as [->|N50];
    [ do 4 right; left; split; [ reflexivity | ];
      now rewrite lookup_insert_eq | ].
  rewrite lookup_insert_ne by congruence.
  rewrite lookup_empty. do 5 right. reflexivity.
Qed.

End KeyFacts.

(** * Scenarios of the specification

    The embedding run on the concrete frames of section 8 of the
    specification, with [Sample.isqrt] for [math.sqrt]. *)

(** Scenario 1: a single TCP SYN at time 1000. *)
Example scenario_single_syn :
  exists st f,
    PacketParser.parse_packet Sample.isqrt Sample.syn_frame 1000 1000
      Sample.empty_table = (st, Ok f) /\
    NetworkFeatures.src_ip f = "10.0.0.1"%string /\
    NetworkFeatures.dst_ip f = "10.0.0.2"%string /\
    NetworkFeatures.src_port f = 5000 /\
    NetworkFeatures.dst_port f = 80 /\
    NetworkFeatures.protocol f = 6 /\
    NetworkFeatures.packet_length f = 74 /\
    NetworkFeatures.tcp_flag_syn f = 1 /\
    NetworkFeatures.tcp_flag_ack f = 0 /\
    NetworkFeatures.total_fwd_packets f = 1 /\
    NetworkFeatures.total_bwd_packets f = 0 /\
    NetworkFeatures.flow_duration f = 0%Q /\
    NetworkFeatures.flow_packets_per_second f = 0%Q /\
    NetworkFeatures.label f = "BENIGN"%string.
Proof.
  do 2 eexists. split; [ vm_compute; reflexivity | ]. repeat split.
Qed.

(** Scenario 2: the SYN, then the SYN-ACK of the peer 0.1 s later. *)
Example scenario_syn_then_syn_ack :
  exists st1 f1 st2 f2,
    PacketParser.parse_packet Sample.isqrt Sample.syn_frame 1000 1000
      Sample.empty_table = (st1, Ok f1) /\
    PacketParser.parse_packet Sample.isqrt Sample.syn_ack_frame
      (10001 # 10) (10001 # 10) st1 = (st2, Ok f2) /\
    NetworkFeatures.total_fwd_packets f2 = 1 /\
    NetworkFeatures.total_bwd_packets f2 = 1 /\
    (NetworkFeatures.flow_duration f2 == 1 # 10)%Q /\
    (NetworkFeatures.flow_packets_per_second f2 == 20)%Q /\
    NetworkFeatures.flow_inter_arrival_time_mean f2
    = fsub (10001 # 10) 1000 /\
    (Qabs (NetworkFeatures.flow_inter_arrival_time_mean f2 - (1 # 10))
     <= (1 # 10) * (1 # 2) ^ 53)%Q /\
    NetworkFeatures.flow_inter_arrival_time_std f2 = 0%Q.
Proof.
  do 4 eexists. split; [ vm_compute; reflexivity | ].
  split; [ vm_compute; reflexivity | ]. repeat split.
  vm_compute. discriminate.
Qed.

(** The floats 0.1 and 1.1 are 1.0 apart once their difference is
    rounded: two packets at these times leave no idle period, and the
    inter-arrival time stored is 1. *)
Example scenario_gap_of_one_second :
  let F :=
    FlowState.run FlowState.init
      [ Sample.tcp_update_at Sample.float_0_1;
        Sample.tcp_update_at Sample.float_1_1 ] in
  (1 < Sample.float_1_1 - Sample.float_0_1)%Q /\
  FlowState.all_inter_arrival_times F = [1%Q] /\
  FlowState.idle_periods F = [].
Proof. cbv zeta. split; [ reflexivity | ]. split; vm_compute; reflexivity. Qed.

(** The float 0.29 is just below 29/100, yet its product with 1000000
    rounds to 290000. *)
Example scenario_microseconds :
  (Sample.float_0_29 * 1000000 < 290000)%Q /\
  exists st f,
    PacketParser.parse_packet Sample.isqrt Sample.syn_frame
      Sample.float_0_29 1000 Sample.empty_table = (st, Ok f) /\
    NetworkFeatures.timestamp f = 290000.
Proof.
  split; [ reflexivity | ].
  do 2 eexists. split; [ vm_compute; reflexivity | reflexivity ].
Qed.

(** Scenario 3: a single UDP packet of 120 bytes. *)
Example scenario_udp :
  exists st f,
    PacketParser.parse_packet Sample.isqrt Sample.udp_frame 1000 1000
      Sample.empty_table = (st, Ok f) /\
    NetworkFeatures.protocol f = 17 /\
    NetworkFeatures.packet_length f = 120 /\
    NetworkFeatures.src_port f = 53 /\
    NetworkFeatures.dst_port f = 33000 /\
    NetworkFeatures.tcp_flags f = 0 /\
    NetworkFeatures.tcp_window f = 0.
Proof.
  do 2 eexists. split; [ vm_compute; reflexivity | ]. repeat split.
Qed.

(** * Properties of the specification *)

(** C1, as stated, fails: the record returned for an IPv6 frame
    (EtherType 0x86DD) is labelled "BENIGN", not "PARSING_ERROR". *)
Lemma C1_counterexample :
  PacketParser.eth_type_of Sample.ipv6_frame = Some 0x86DD /\
  exists f,
    snd (PacketParser.parse_packet Sample.isqrt Sample.ipv6_frame 1000 1000
           Sample.empty_table) = Ok f /\
    NetworkFeatures.label f = "BENIGN"%string /\
    NetworkFeatures.label f <> "PARSING_ERROR"%string /\
    f <> Spec.unparseable 54 1000000000.
Proof.
  split; [ reflexivity | ].
  eexists. split; [ vm_compute; reflexivity | ].
  split; [ reflexivity | ]. split; [ discriminate | ].
  intros H. apply (f_equal NetworkFeatures.label) in H. discriminate H.
Qed.

(** C1 (amended): for every frame whose EtherType is not 0x0800 (frames
    shorter than 14 bytes included), [parse_packet] returns the default
    record in which only [packet_length] and [timestamp] are set: the
    label is "BENIGN", [src_ip] is empty, [protocol] is 0, and the flow
    table is not touched beyond the periodic sweep. *)
Theorem C1_non_ipv4_yields_default_record (sqrt : Q -> Q) (data : bytes)
    (ts now : Q) (st : PacketParser.state) :
  PacketParser.eth_type_of data <> Some 0x0800 ->
  exists f,
    PacketParser.parse_packet sqrt data ts now st
    = (PacketParser.cleanup_old_flows now st, Ok f) /\
    f = NetworkFeatures.set_packet_length
          (NetworkFeatures.set_timestamp NetworkFeatures.init
             (int_of_float (ts * 1000000)))
          (PacketParser.len data) /\
    NetworkFeatures.label f = "BENIGN"%string /\
    NetworkFeatures.packet_length f = PacketParser.len data /\
    NetworkFeatures.timestamp f = int_of_float (ts * 1000000) /\
    NetworkFeatures.src_ip f = ""%string /\
    NetworkFeatures.protocol f = 0.
Proof.
  intros Hty. eexists. split.
  - unfold PacketParser.parse_packet, PacketParser.try_except.
    rewrite BodyFacts.parse_body_not_ipv4 by exact Hty. reflexivity.
  - repeat split.
Qed.

(** C1 on the IPv6 frame. *)
Lemma C1_non_ipv4_yields_default_record_witness :
  PacketParser.eth_type_of Sample.ipv6_frame <> Some 0x0800 /\
  exists f,
    PacketParser.parse_packet Sample.isqrt Sample.ipv6_frame 1000 1000
      Sample.empty_table
    = (PacketParser.cleanup_old_flows 1000 Sample.empty_table, Ok f) /\
    NetworkFeatures.label f = "BENIGN"%string /\
    NetworkFeatures.packet_length f = 54.
Proof.
  assert (H : PacketParser.eth_type_of Sample.ipv6_frame <> Some 0x0800)
    by (vm_compute; discriminate).
  split; [ exact H | ].
  destruct (C1_non_ipv4_yields_default_record Sample.isqrt Sample.ipv6_frame
              1000 1000 Sample.empty_table H)
    as (f & Hp & _ & Hl & Hn & _).
  exists f. split; [ exact Hp | ]. split; [ exact Hl | exact Hn ].
Defined.

(** C2, as stated, fails on its last part: two updates at times 5 and 3
    leave [start_time = 5] and [last_time = 3]. *)
Lemma C2_counterexample :
  let calls :=
    [ {| FlowState.c_packet_length := 60; FlowState.c_timestamp := 5;
         FlowState.c_is_forward := true;
         FlowState.c_tcp_flags := 0; FlowState.c_tcp_window := 0 |};
      {| FlowState.c_packet_length := 60; FlowState.c_timestamp := 3;
         FlowState.c_is_forward := true;
         FlowState.c_tcp_flags := 0; FlowState.c_tcp_window := 0 |} ] in
  let F := FlowState.run FlowState.init calls in
  FlowState.start_time F = Some 5%Q /\
  FlowState.last_time F = Some 3%Q /\
  ~ Spec.last_not_before_start F.
Proof.
  cbv zeta. repeat split. intros H. vm_compute in H. apply H. reflexivity.
Qed.

(** C2 (amended): after any sequence of updates of a fresh FlowState,
    [total_packets = fwd_packets + bwd_packets], [fwd_bytes] is the sum
    of [fwd_packet_lengths] and [all_inter_arrival_times] has
    [max(0, total_packets - 1)] entries; [last_time >= start_time] holds
    when the timestamps of the calls never decrease. *)
Theorem C2_flow_state_invariants (calls : list FlowState.call) :
  let F := FlowState.run FlowState.init calls in
  FlowState.total_packets F
  = FlowState.fwd_packets F + FlowState.bwd_packets F /\
  FlowState.fwd_bytes F = sum_ (FlowState.fwd_packet_lengths F) /\
  Z.of_nat (length (FlowState.all_inter_arrival_times F))
  = Z.max 0 (FlowState.total_packets F - 1) /\
  (FlowState.nondecreasing (map FlowState.c_timestamp calls) ->
   Spec.last_not_before_start F).
Proof.
  cbv zeta.
  destruct (FlowStateFacts.inv_run calls _ FlowStateFacts.inv_init)
    as [H1 H2 _ _ H5 _].
  repeat split; auto.
  intros Hnd. unfold Spec.last_not_before_start.
  destruct calls as [|c calls]; [ exact I | ].
  rewrite FlowStateFacts.run_cons.
  rewrite (FlowStateFacts.run_start_time calls _ (FlowState.c_timestamp c))
    by reflexivity.
  rewrite FlowStateFacts.run_last_time.
  destruct (last calls) as [c'|] eqn:El; simpl.
  - apply (FlowStateFacts.nondecreasing_last _
             (map FlowState.c_timestamp calls)); [ exact Hnd | ].
    apply (FlowStateFacts.last_map FlowState.c_timestamp (c :: calls)).
    now apply FlowStateFacts.last_cons_some.
  - apply Qle_refl.
Qed.

(** C2 on two updates at times 1000 and 1001. *)
Lemma C2_flow_state_invariants_witness :
  let calls :=
    [ {| FlowState.c_packet_length := 74; FlowState.c_timestamp := 1000;
         FlowState.c_is_forward := true;
         FlowState.c_tcp_flags := 2; FlowState.c_tcp_window := 256 |};
      {| FlowState.c_packet_length := 74; FlowState.c_timestamp := 1001;
         FlowState.c_is_forward := false;
         FlowState.c_tcp_flags := 18; FlowState.c_tcp_window := 256 |} ] in
  Spec.last_not_before_start (FlowState.run FlowState.init calls).
Proof.
  cbv zeta.
  refine (proj2 (proj2 (proj2 (C2_flow_state_invariants _))) _).
  simpl. split; [ discriminate | exact I ].
Defined.

(** C3, as stated, fails twice.  The endpoints 10.0.0.2:80 and 9.0.0.1:80
    compared as 4-byte addresses put 9.0.0.1 first; the code compares the
    dotted-quad texts and puts 10.0.0.2 first.  And for a packet whose two
    endpoints coincide the code clears [is_forward] although the source
    endpoint equals [(ip1, port1)]. *)
Lemma C3_counterexample :
  let src := map Sample.byte_of [10; 0; 0; 2] in
  let dst := map Sample.byte_of [9; 0; 0; 1] in
  let k := FlowKey.init (dotted src) (dotted dst) 80 80 6 in
  let same := FlowKey.init "1.1.1.1" "1.1.1.1" 0 0 1 in
  inet_ntoa src = Ok "10.0.0.2"%string /\
  inet_ntoa dst = Ok "9.0.0.1"%string /\
  Spec.endpoint_lt (dst, 80) (src, 80) = true /\
  FlowKey.ip1 (Spec.flow_key src dst 80 80 6) = "9.0.0.1"%string /\
  FlowKey.ip1 k = "10.0.0.2"%string /\
  k <> Spec.flow_key src dst 80 80 6 /\
  FlowKey.is_forward same = false /\
  ("1.1.1.1"%string, 0) = (FlowKey.ip1 same, FlowKey.port1 same).
Proof.
  cbv zeta. repeat split; try reflexivity.
  intros H. apply (f_equal FlowKey.ip1) in H. vm_compute in H. discriminate.
Qed.

(** C3 (amended): the endpoints are compared as (dotted-quad text, port)
    tuples, texts by code point; the pair that is strictly smaller comes
    first, the source pair coming second when neither is smaller;
    [is_forward] holds exactly when the source pair is strictly smaller,
    which for two distinct endpoints is when it equals [(ip1, port1)]. *)
Theorem C3_flow_key_orders_text_endpoints
    (src_ip dst_ip : string) (src_port dst_port protocol : Z) :
  let src := (src_ip, src_port) in
  let dst := (dst_ip, dst_port) in
  let k := FlowKey.init src_ip dst_ip src_port dst_port protocol in
  let a := (FlowKey.ip1 k, FlowKey.port1 k) in
  let b := (FlowKey.ip2 k, FlowKey.port2 k) in
  FlowKey.protocol k = protocol /\
  (a = src /\ b = dst \/ a = dst /\ b = src) /\
  tuple_lt b a = false /\
  FlowKey.is_forward k = tuple_lt src dst /\
  (src <> dst -> (FlowKey.is_forward k = true <-> src = a)).
Proof.
  cbv zeta. unfold FlowKey.init.
  destruct (tuple_lt (src_ip, src_port) (dst_ip, dst_port)) eqn:E; simpl.
  - repeat split; auto using tuple_lt_asym.
  - repeat split; auto; try discriminate; congruence.
Qed.

(** C4, as stated, fails: a 34-byte frame with EtherType 0x0800 whose
    version nibble is 6 is parsed like any other; the record carries its
    addresses and the label "BENIGN", and a flow is created for it. *)
Lemma C4_counterexample :
  PacketParser.eth_type_of Sample.version6_frame = Some 0x0800 /\
  PacketParser.len Sample.version6_frame = 34 /\
  (exists info off,
     PacketParser.parse_ip_header Sample.version6_frame 14
     = Ok (Some (info, off)) /\ PacketParser.ip_info.version info = 6) /\
  exists st f,
    PacketParser.parse_packet Sample.isqrt Sample.version6_frame 1000 1000
      Sample.empty_table = (st, Ok f) /\
    NetworkFeatures.src_ip f = "1.2.3.4"%string /\
    NetworkFeatures.dst_ip f = "5.6.7.8"%string /\
    NetworkFeatures.total_fwd_packets f = 1 /\
    NetworkFeatures.label f = "BENIGN"%string /\
    f <> Spec.unparseable 34 1000000000 /\
    PacketParser.flow_states st <> ∅.
Proof.
  split; [ reflexivity | ]. split; [ reflexivity | ].
  split; [ do 2 eexists; split; [ vm_compute; reflexivity | reflexivity ] | ].
  do 2 eexists. split; [ vm_compute; reflexivity | ].
  repeat split.
  - intros H. apply (f_equal NetworkFeatures.label) in H. discriminate H.
  - intros H.
    apply (f_equal (fun m =>
             m !! ("1.2.3.4"%string, 0, "5.6.7.8"%string, 0, 1))) in H.
    vm_compute in H. discriminate H.
Qed.

(** C4 (amended): for every frame with EtherType 0x0800 and at least 34
    bytes, parsing continues past the IP header whatever the version
    nibble: the record carries the addresses, protocol, TTL, TOS and header
    length of the header and the label "BENIGN", and the flow table holds
    a flow last seen at the packet's timestamp. *)
Theorem C4_version_is_not_checked (sqrt : Q -> Q) (data : bytes)
    (ts now : Q) (st : PacketParser.state) :
  PacketParser.eth_type_of data = Some 0x0800 ->
  34 <= PacketParser.len data ->
  exists info tcp_offset st' f,
    PacketParser.parse_ip_header data 14 = Ok (Some (info, tcp_offset)) /\
    PacketParser.parse_packet sqrt data ts now st = (st', Ok f) /\
    NetworkFeatures.label f = "BENIGN"%string /\
    NetworkFeatures.src_ip f = PacketParser.ip_info.src_ip info /\
    NetworkFeatures.dst_ip f = PacketParser.ip_info.dst_ip info /\
    NetworkFeatures.protocol f = PacketParser.ip_info.protocol info /\
    NetworkFeatures.ttl f = PacketParser.ip_info.ttl info /\
    NetworkFeatures.tos f = PacketParser.ip_info.tos info /\
    NetworkFeatures.header_length f = PacketParser.ip_info.header_length info /\
    exists k F,
      PacketParser.flow_states st' !! k = Some F /\
      FlowState.last_time F = Some ts.
Proof.
  intros Hty Hlen.
  destruct (BodyFacts.parse_body_ipv4 sqrt data ts
              {| PacketParser.the_features :=
                   NetworkFeatures.set_packet_length
                     (NetworkFeatures.set_timestamp NetworkFeatures.init
                        (int_of_float (ts * 1000000)))
                     (PacketParser.len data);
                 PacketParser.the_class :=
                   PacketParser.cleanup_old_flows now st |} Hty Hlen)
    as (info & off & Hip & h' & [] & Hb & (_ & _ & Hl) & H).
  exists info, off, (PacketParser.the_class h'), (PacketParser.the_features h').
  split; [ exact Hip | ]. split.
  - unfold PacketParser.parse_packet, PacketParser.try_except.
    rewrite Hb. reflexivity.
  - split; [ exact Hl | exact H ].
Qed.

(** C4 on the frame whose version nibble is 6. *)
Lemma C4_version_is_not_checked_witness :
  exists st f,
    PacketParser.parse_packet Sample.isqrt Sample.version6_frame 1000 1000
      Sample.empty_table = (st, Ok f) /\
    NetworkFeatures.label f = "BENIGN"%string.
Proof.
  destruct (C4_version_is_not_checked Sample.isqrt Sample.version6_frame
              1000 1000 Sample.empty_table eq_refl)
    as (info & off & st & f & _ & Hp & Hl & _).
  - vm_compute. discriminate.
  - exists st, f. split; [ exact Hp | exact Hl ].
Defined.

(** C5: for two distinct endpoints the keys of the two directions are
    equal under [__eq__], have equal hashes, and carry opposite
    [is_forward] bits. *)
Theorem C5_flow_key_direction_symmetric
    (py_hash : string * Z * string * Z * Z -> Z)
    (a b : string * Z) (protocol : Z) :
  a <> b ->
  let ab := FlowKey.init (fst a) (fst b) (snd a) (snd b) protocol in
  let ba := FlowKey.init (fst b) (fst a) (snd b) (snd a) protocol in
  FlowKey.eq ab ba = true /\
  FlowKey.key ab = FlowKey.key ba /\
  FlowKey.hash py_hash ab = FlowKey.hash py_hash ba /\
  FlowKey.is_forward ab = negb (FlowKey.is_forward ba).
Proof.
  intros Hne. cbv zeta.
  destruct a as [ia pa], b as [ib pb]. simpl fst. simpl snd.
  unfold FlowKey.eq, FlowKey.hash, FlowKey.init.
  rewrite (tuple_lt_total _ _ Hne).
  destruct (tuple_lt (ib, pb) (ia, pa)); simpl;
    rewrite ?bool_decide_eq_true; repeat split; reflexivity.
Qed.

(** C5 at the endpoints 10.0.0.1:5000 and 10.0.0.2:80, protocol 6. *)
Lemma C5_flow_key_direction_symmetric_witness :
  let a := ("10.0.0.1"%string, 5000) in
  let b := ("10.0.0.2"%string, 80) in
  FlowKey.eq (FlowKey.init (fst a) (fst b) (snd a) (snd b) 6)
             (FlowKey.init (fst b) (fst a) (snd b) (snd a) 6) = true /\
  FlowKey.is_forward (FlowKey.init (fst a) (fst b) (snd a) (snd b) 6)
  = negb (FlowKey.is_forward (FlowKey.init (fst b) (fst a) (snd b) (snd a) 6)).
Proof.
  cbv zeta.
  pose proof (C5_flow_key_direction_symmetric (fun _ => 0)
                ("10.0.0.1"%string, 5000) ("10.0.0.2"%string, 80) 6) as H.
  destruct H as (H1 & _ & _ & H4); [ discriminate | ].
  split; [ exact H1 | exact H4 ].
Defined.

(** C6: [update] always leaves [last_activity_time = ts].  On the first
    packet of a flow ([start_time] unset) [last_activity_time] is first set
    to [ts], the gap is 0 and nothing is appended; afterwards the gap,
    the float [ts - last_activity_time] ([fsub]), is appended to
    [idle_periods] exactly when [last_activity_time] is set and the gap
    exceeds 1.  Hence three
    updates at times 0, 1.5 and 3.0 leave [idle_periods = [1.5; 1.5]], and
    the statistics computed from that state have [idle_mean = 1.5] and
    [idle_std = 0] (given [sqrt 0 = 0]). *)
Theorem C6_idle_periods (sqrt : Q -> Q) :
  (forall q : Q, (q == 0)%Q -> (sqrt q == 0)%Q) ->
  (forall (self : FlowState.t) (packet_length : Z) (ts : Q)
          (is_forward : bool) (tcp_flags tcp_window : Z),
     let self' :=
       FlowState.update self packet_length ts is_forward tcp_flags
         tcp_window in
     FlowState.last_activity_time self' = Some ts /\
     (FlowState.start_time self = None ->
        FlowState.idle_periods self' = FlowState.idle_periods self) /\
     (FlowState.start_time self <> None ->
        FlowState.last_activity_time self = None ->
        FlowState.idle_periods self' = FlowState.idle_periods self) /\
     (forall t0 : Q,
        FlowState.start_time self <> None ->
        FlowState.last_activity_time self = Some t0 ->
        ((1 < fsub ts t0)%Q ->
           FlowState.idle_periods self'
           = FlowState.idle_periods self ++ [fsub ts t0]) /\
        (~ (1 < fsub ts t0)%Q ->
           FlowState.idle_periods self' = FlowState.idle_periods self))) /\
  (forall c1 c2 c3 : FlowState.call,
     FlowState.c_timestamp c1 = 0%Q ->
     FlowState.c_timestamp c2 = (3 # 2)%Q ->
     FlowState.c_timestamp c3 = 3%Q ->
     let F := FlowState.run FlowState.init [c1; c2; c3] in
     FlowState.idle_periods F = [(3 # 2)%Q; (3 # 2)%Q] /\
     exists s,
       PacketParser.calculate_flow_statistics sqrt F 3 = Ok s /\
       (Stats.idle_mean s == 3 # 2)%Q /\
       (Stats.idle_std s == 0)%Q).
Proof.
  intros Hsqrt. split.
  - intros self pl ts fwd fl w. cbv zeta. unfold FlowState.update. simpl.
    split; [ reflexivity | ].
    split; [ | split ].
    + intros ->. simpl. now rewrite FloatFacts.fsub_self.
    + intros Hs ->. now destruct (FlowState.start_time self).
    + intros t0 Hs ->.
      destruct (FlowState.start_time self); [ | congruence ]. simpl.
      split; intros H.
      * apply Qgtb_lt in H. now rewrite H.
      * apply Qgtb_nlt in H. now rewrite H.
  - intros [p1 t1 f1 g1 w1] [p2 t2 f2 g2 w2] [p3 t3 f3 g3 w3].
    simpl. intros -> -> ->. cbv zeta.
    assert (Hidle :
      FlowState.idle_periods
        (FlowState.run FlowState.init
           [ FlowState.Build_call p1 0 f1 g1 w1;
             FlowState.Build_call p2 (3 # 2) f2 g2 w2;
             FlowState.Build_call p3 3 f3 g3 w3 ])
      = [(3 # 2)%Q; (3 # 2)%Q]) by (vm_compute; reflexivity).
    split; [ exact Hidle | ].
    destruct (StatsFacts.calculate_flow_statistics_total sqrt
                (FlowState.run FlowState.init
                   [ FlowState.Build_call p1 0 f1 g1 w1;
                     FlowState.Build_call p2 (3 # 2) f2 g2 w2;
                     FlowState.Build_call p3 3 f3 g3 w3 ]) 3) as [s E].
    exists s. split; [ exact E | ].
    apply StatsFacts.calculate_flow_statistics_fields in E
      as (_ & _ & Hm & Hs).
    rewrite Hidle in Hm, Hs.
    split.
    + inversion Hm as [Hm']. reflexivity.
    + inversion Hs as [Hs']. apply Hsqrt. reflexivity.
Qed.

(** C6 with the rational square root [Sample.isqrt]. *)
Lemma C6_idle_periods_witness :
  let F :=
    FlowState.run FlowState.init
      [ Sample.tcp_update_at 0; Sample.tcp_update_at (3 # 2);
        Sample.tcp_update_at 3 ] in
  (forall q : Q, (q == 0)%Q -> (Sample.isqrt q == 0)%Q) /\
  FlowState.idle_periods F = [(3 # 2)%Q; (3 # 2)%Q] /\
  exists s,
    PacketParser.calculate_flow_statistics Sample.isqrt F 3 = Ok s /\
    (Stats.idle_mean s == 3 # 2)%Q /\ (Stats.idle_std s == 0)%Q.
Proof.
  cbv zeta.
  assert (H0 : forall q : Q, (q == 0)%Q -> (Sample.isqrt q == 0)%Q).
  { intros [n d] Hq. unfold Qeq in Hq. simpl in Hq.
    assert (n = 0) by lia. subst n. reflexivity. }
  split; [ exact H0 | ].
  exact (proj2 (C6_idle_periods Sample.isqrt H0)
           (Sample.tcp_update_at 0) (Sample.tcp_update_at (3 # 2))
           (Sample.tcp_update_at 3) eq_refl eq_refl eq_refl).
Defined.

(** C7, at the failing input: a table holding one flow whose last packet
    was seen at time 0.0, swept at [now = 1000] with [last_cleanup = 0].
    The sweep runs ([last_cleanup] becomes 1000) and the flow is older
    than [now - 300], yet it stays in the table. *)
Theorem C7_sweep_keeps_flow_seen_at_zero :
  let st := PacketParser.cleanup_old_flows 1000 Sample.table_at_zero in
  FlowState.last_time Sample.flow_at_zero = Some 0%Q /\
  Spec.expired 1000 Sample.flow_at_zero /\
  PacketParser.last_cleanup st = 1000%Q /\
  PacketParser.flow_states st !! Sample.some_flow = Some Sample.flow_at_zero.
Proof.
  cbv zeta. split; [ reflexivity | ]. split; [ reflexivity | ].
  split; [ reflexivity | ].
  rewrite SweepFacts.cleanup_lookup by reflexivity.
  unfold Sample.table_at_zero. simpl.
  rewrite lookup_singleton_eq. reflexivity.
Qed.

(** C8: [calculate_flow_statistics] always returns (no division by zero,
    nor any other exception); when the emitted [flow_duration] is 0 the
    four rates are exactly 0; when it is positive each rate is the byte
    or packet total divided by it; a flow that has seen one packet, asked
    at that packet's time, has duration 0. *)
Theorem C8_rates_guarded_by_duration (sqrt : Q -> Q) (F : FlowState.t)
    (now : Q) :
  exists s,
    PacketParser.calculate_flow_statistics sqrt F now = Ok s /\
    ((Stats.flow_duration s == 0)%Q ->
       Stats.flow_bytes_per_second s = 0%Q /\
       Stats.flow_packets_per_second s = 0%Q /\
       Stats.fwd_packets_per_second s = 0%Q /\
       Stats.bwd_packets_per_second s = 0%Q) /\
    ((0 < Stats.flow_duration s)%Q ->
       Stats.flow_bytes_per_second s
       = (inject_Z (FlowState.fwd_bytes F + FlowState.bwd_bytes F)
          / Stats.flow_duration s)%Q /\
       Stats.flow_packets_per_second s
       = (inject_Z (FlowState.total_packets F) / Stats.flow_duration s)%Q /\
       Stats.fwd_packets_per_second s
       = (inject_Z (FlowState.fwd_packets F) / Stats.flow_duration s)%Q /\
       Stats.bwd_packets_per_second s
       = (inject_Z (FlowState.bwd_packets F) / Stats.flow_duration s)%Q) /\
    (forall c : FlowState.call,
       F = FlowState.apply FlowState.init c ->
       now = FlowState.c_timestamp c ->
       (Stats.flow_duration s == 0)%Q).
Proof.
  destruct (StatsFacts.calculate_flow_statistics_total sqrt F now) as [s E].
  exists s. split; [ exact E | ].
  apply StatsFacts.calculate_flow_statistics_fields in E
    as (Hd & Hr & _ & _).
  rewrite StatsFacts.rates_value in Hr.
  split; [ | split ].
  - intros Hz.
    assert (G : Qgtb (Stats.flow_duration s) 0 = false).
    { apply Qgtb_nlt. rewrite Hz. discriminate. }
    rewrite G in Hr. inversion Hr. auto.
  - intros Hpos. apply Qgtb_lt in Hpos. rewrite Hpos in Hr.
    inversion Hr. auto.
  - intros c -> ->. rewrite Hd. unfold PacketParser.duration_since_start.
    simpl. destruct (truthy (FlowState.c_timestamp c)); [ ring | reflexivity ].
Qed.

(** C9, as stated, fails on one control path: when the callback is
    interrupted ([KeyboardInterrupt] is not an [Exception]) on the first
    of two buffers, the pass ends with that exception, the first handle
    has been released and the second never is. *)
Lemma C9_counterexample :
  fst (DPDKPacketCapture.iteration Sample.interrupted Sample.idle_capture)
  = [Some 4096; Some 8192] /\
  snd (snd (DPDKPacketCapture.iteration Sample.interrupted
              Sample.idle_capture))
  = Raise KeyboardInterrupt /\
  DPDKPacketCapture.freed
    (DPDKPacketCapture.trace
       (fst (snd (DPDKPacketCapture.iteration Sample.interrupted
                    Sample.idle_capture))))
  = [Some 4096] /\
  CaptureBook.released
    (DPDKPacketCapture.trace
       (fst (snd (DPDKPacketCapture.iteration Sample.interrupted
                    Sample.idle_capture))))
  = [4096].
Proof. repeat split. Qed.

(** C9 (amended): in a pass of the capture loop in which the buffer read
    and the callback raise nothing but [Exception]s, the pass ends
    normally and the [free_packet] calls it makes are exactly the handles
    of the burst, one call per handle, in order: whether the callback
    returned, an exception was raised, or the buffer held no data.  Each
    of these calls hands its handle to the driver's [rte_pktmbuf_free],
    once, unless the handle is null. *)
Theorem C9_each_buffer_released_once {W : Type}
    (E : DPDKPacketCapture.env W) (c : DPDKPacketCapture.t W) :
  (forall mbuf w e,
     DPDKPacketCapture.get_packet_data E mbuf w = Raise e ->
     is_Exception e = true) ->
  (forall data ts w e,
     snd (DPDKPacketCapture.callback E data ts w) = Raise e ->
     is_Exception e = true) ->
  let mbufs := fst (DPDKPacketCapture.iteration E c) in
  let c' := fst (snd (DPDKPacketCapture.iteration E c)) in
  snd (snd (DPDKPacketCapture.iteration E c)) = Ok tt /\
  DPDKPacketCapture.freed (DPDKPacketCapture.trace c')
  = DPDKPacketCapture.freed (DPDKPacketCapture.trace c) ++ mbufs /\
  CaptureBook.released (DPDKPacketCapture.trace c')
  = CaptureBook.released (DPDKPacketCapture.trace c)
    ++ CaptureBook.nonnull mbufs.
Proof.
  intros Hread Hcb. cbv zeta.
  destruct (LoopFacts.iteration_all E c Hread Hcb) as [Hok Hfreed].
  split; [ exact Hok | ]. split; [ exact Hfreed | ].
  destruct (LoopFacts.iteration_extends E c) as (tr & Htr & Hrel).
  rewrite Htr in Hfreed. rewrite CaptureFacts.freed_app in Hfreed.
  apply app_inv_head in Hfreed.
  rewrite Htr, LoopFacts.released_app, Hrel, Hfreed. reflexivity.
Qed.

(** C9 on a burst of three handles: the callback raises on the first,
    the read raises on the second, a null pointer, and the third holds
    no data.  All three are passed to [free_packet]; the driver is given
    the two that are not null. *)
Lemma C9_each_buffer_released_once_witness :
  DPDKPacketCapture.freed
    (DPDKPacketCapture.trace
       (fst (snd (DPDKPacketCapture.iteration Sample.driver
                    Sample.idle_capture))))
  = [Some 4096; None; Some 8192] /\
  CaptureBook.released
    (DPDKPacketCapture.trace
       (fst (snd (DPDKPacketCapture.iteration Sample.driver
                    Sample.idle_capture))))
  = [4096; 8192].
Proof.
  refine (proj2 (C9_each_buffer_released_once Sample.driver
                   Sample.idle_capture _ _)).
  - intros [p|] w e; simpl.
    + destruct (p =? 4096); discriminate.
    + intros H. inversion H. reflexivity.
  - intros data ts w e H. simpl in H. inversion H. reflexivity.
Defined.

(** C10, as stated, fails for timestamps that [int] does not convert:
    [features.timestamp = int(timestamp * 1000000)] stands before the
    [try].  For the float 1e303 the product is an infinity and the
    [OverflowError] of [int] leaves [parse_packet]; so it does for an
    infinite timestamp, and for NaN it is a [ValueError].  The class
    state is as it was. *)
Lemma C10_counterexample :
  Entry.parse_packet Sample.isqrt Sample.syn_frame
    (PyFloat.Finite (10 ^ 303)) 1000 Sample.empty_table
  = (Sample.empty_table, Raise OverflowError) /\
  Entry.parse_packet Sample.isqrt Sample.syn_frame
    (PyFloat.Infinity false) 1000 Sample.empty_table
  = (Sample.empty_table, Raise OverflowError) /\
  Entry.parse_packet Sample.isqrt Sample.syn_frame
    PyFloat.NaN 1000 Sample.empty_table
  = (Sample.empty_table, Raise ValueError).
Proof. repeat split; vm_compute; reflexivity. Qed.

(** C10 (amended): [parse_packet] returns a record for every byte string
    and every finite timestamp whose product with 1000000 is a finite
    float.  The record has the length of the input as [packet_length]
    and [int(timestamp * 1000000)] as [timestamp], which is within one
    microsecond of the timestamp, up to the rounding of the product.
    Whatever the timestamp, an exception that leaves [parse_packet] is
    the one raised by that conversion, and the class state is then as it
    was. *)
Theorem C10_parse_packet_total (sqrt : Q -> Q) (data : bytes) (now : Q)
    (st : PacketParser.state) :
  (forall ts : Q,
     (Qabs (round53 (ts * 1000000)) < 2 ^ 1024)%Q ->
     exists st' f,
       Entry.parse_packet sqrt data (PyFloat.Finite ts) now st
       = (st', Ok f) /\
       NetworkFeatures.packet_length f = Z.of_nat (length data) /\
       NetworkFeatures.timestamp f = int_of_float (ts * 1000000) /\
       (Qabs (inject_Z (NetworkFeatures.timestamp f) - ts * 1000000)
        < 1 + Qabs (ts * 1000000) * (1 # 2) ^ 53)%Q) /\
  (forall (timestamp : PyFloat.t) (st' : PacketParser.state) (e : exn),
     Entry.parse_packet sqrt data timestamp now st = (st', Raise e) ->
     st' = st /\
     PyFloat.int (PyFloat.mul timestamp 1000000) = Raise e /\
     (e = OverflowError \/ e = ValueError)).
Proof.
  assert (Hbody : forall ts : Q,
            exists st' f,
              PacketParser.parse_packet sqrt data ts now st = (st', Ok f) /\
              NetworkFeatures.packet_length f = Z.of_nat (length data) /\
              NetworkFeatures.timestamp f = int_of_float (ts * 1000000)).
  { intros ts.
    destruct (BodyFacts.parse_body_returns sqrt data ts
                {| PacketParser.the_features :=
                     NetworkFeatures.set_packet_length
                       (NetworkFeatures.set_timestamp NetworkFeatures.init
                          (int_of_float (ts * 1000000)))
                       (PacketParser.len data);
                   PacketParser.the_class :=
                     PacketParser.cleanup_old_flows now st |})
      as (h' & [] & Hb & Hpl & Hts & _).
    exists (PacketParser.the_class h'), (PacketParser.the_features h').
    split; [ | split; [ exact Hpl | exact Hts ] ].
    unfold PacketParser.parse_packet, PacketParser.try_except.
    rewrite Hb. reflexivity. }
  split.
  - intros ts Hfin. destruct (Hbody ts) as (st' & f & Hp & Hpl & Hts).
    exists st', f. split; [ | split; [ exact Hpl | split; [ exact Hts | ] ] ].
    + unfold Entry.parse_packet, PyFloat.mul, PyFloat.of_real. cbv zeta.
      apply Qgtb_lt in Hfin. unfold Qltb. rewrite Hfin. exact Hp.
    + rewrite Hts. apply FloatFacts.int_of_float_near.
  - intros timestamp st' e. unfold Entry.parse_packet.
    destruct timestamp as [ts|negative|]; cbn [PyFloat.mul PyFloat.int].
    + unfold PyFloat.of_real. cbv zeta.
      destruct (Qltb (Qabs (round53 (ts * 1000000))) (2 ^ 1024));
        cbn [PyFloat.int].
      * destruct (Hbody ts) as (st1 & f & Hp & _). rewrite Hp.
        intros H. discriminate H.
      * intros H. inversion H. auto.
    + intros H. inversion H. auto.
    + intros H. inversion H. auto.
Qed.

(** C10 on the float 0.29, whose microseconds are 290000. *)
Lemma C10_parse_packet_total_witness :
  exists st' f,
    Entry.parse_packet Sample.isqrt Sample.syn_frame
      (PyFloat.Finite Sample.float_0_29) 1000 Sample.empty_table
    = (st', Ok f) /\
    NetworkFeatures.packet_length f = 74 /\
    NetworkFeatures.timestamp f = 290000.
Proof.
  destruct (proj1 (C10_parse_packet_total Sample.isqrt Sample.syn_frame 1000
                     Sample.empty_table) Sample.float_0_29)
    as (st' & f & Hp & Hpl & Hts & _).
  - vm_compute. reflexivity.
  - exists st', f. split; [ exact Hp | ]. split; [ exact Hpl | ].
    rewrite Hts. vm_compute. reflexivity.
Defined.

(** * Further properties of the code *)

(** ** Flow state *)

(** X1: after any sequence of updates of a fresh FlowState, the three
    length lists are the packet lengths of the calls, in order, all of
    them, the forward ones and the backward ones; the window list holds
    the positive windows; every counter is the length of its list, the
    byte totals are the sums of the lists, and each direction has one
    inter-arrival time less than it has packets. *)
Theorem flow_state_mirrors_calls (calls : list FlowState.call) :
  let F := FlowState.run FlowState.init calls in
  let fwd := List.filter FlowState.c_is_forward calls in
  let bwd := List.filter (fun c => negb (FlowState.c_is_forward c)) calls in
  FlowState.all_packet_lengths F = map FlowState.c_packet_length calls /\
  FlowState.fwd_packet_lengths F = map FlowState.c_packet_length fwd /\
  FlowState.bwd_packet_lengths F = map FlowState.c_packet_length bwd /\
  FlowState.tcp_window_sizes F
  = List.filter (fun w => 0 <? w) (map FlowState.c_tcp_window calls) /\
  FlowState.total_packets F = Z.of_nat (length calls) /\
  FlowState.fwd_packets F = Z.of_nat (length fwd) /\
  FlowState.bwd_packets F = Z.of_nat (length bwd) /\
  FlowState.bwd_bytes F = sum_ (map FlowState.c_packet_length bwd) /\
  FlowState.fwd_bytes F + FlowState.bwd_bytes F
  = sum_ (map FlowState.c_packet_length calls) /\
  Z.of_nat (length (FlowState.fwd_inter_arrival_times F))
  = Z.max 0 (Z.of_nat (length fwd) - 1) /\
  Z.of_nat (length (FlowState.bwd_inter_arrival_times F))
  = Z.max 0 (Z.of_nat (length bwd) - 1).
Proof.
  cbv zeta.
  destruct (FlowRecordFacts.lists_of_run calls) as (L1 & L2 & L3 & L4 & _).
  destruct (FlowBookFacts.counted_run calls) as [C1 C2 C3 C4 _ _ C7].
  destruct (FlowStateFacts.inv_run calls _ FlowStateFacts.inv_init)
    as [_ _ I3 I4 _ _].
  rewrite L1 in *. rewrite L2 in *. rewrite L3 in *.
  rewrite length_map in *.
  repeat split; try assumption; congruence.
Qed.

(** X2: [start_time] is the timestamp of the first call and [last_time]
    that of the latest, whatever the order of the timestamps, and
    [all_inter_arrival_times] holds, in order, the float difference
    between the timestamp of each later call and that of the call before
    it: one entry less than there are calls. *)
Theorem inter_arrival_times_between_calls (c : FlowState.call)
    (calls : list FlowState.call) :
  let F := FlowState.run FlowState.init (c :: calls) in
  FlowState.start_time F = Some (FlowState.c_timestamp c) /\
  (exists c_last,
     last (c :: calls) = Some c_last /\
     FlowState.last_time F = Some (FlowState.c_timestamp c_last)) /\
  FlowState.all_inter_arrival_times F
  = FlowBook.gaps (FlowState.c_timestamp c)
      (map FlowState.c_timestamp calls) /\
  length (FlowState.all_inter_arrival_times F) = length calls.
Proof.
  cbv zeta.
  assert (Hs : FlowState.start_time (FlowState.run FlowState.init (c :: calls))
               = Some (FlowState.c_timestamp c)).
  { rewrite FlowStateFacts.run_cons.
    now apply FlowStateFacts.run_start_time. }
  split; [ exact Hs | ]. split.
  - destruct (last (c :: calls)) as [c_last|] eqn:El;
      [ | apply last_None in El; discriminate ].
    exists c_last. split; [ reflexivity | ].
    pose proof (FlowStateFacts.run_last_time (c :: calls) FlowState.init)
      as Hl.
    rewrite El in Hl. exact Hl.
  - destruct (FlowBookFacts.gaps_of_run c calls) as [_ Hg].
    split; [ exact Hg | ]. rewrite Hg. clear Hs Hg.
    generalize (FlowState.c_timestamp c).
    induction calls as [|c' calls IH]; intros prev; [ reflexivity | ].
    simpl. now rewrite IH.
Qed.

(** X3: the idle periods of a flow are exactly its inter-arrival times
    that exceed one second, in order; so every idle period exceeds 1. *)
Theorem idle_periods_are_the_long_gaps (calls : list FlowState.call) :
  let F := FlowState.run FlowState.init calls in
  FlowState.idle_periods F
  = List.filter (fun gap => Qgtb gap 1) (FlowState.all_inter_arrival_times F) /\
  Forall (fun gap => 1 < gap)%Q (FlowState.idle_periods F).
Proof.
  cbv zeta. destruct (FlowBookFacts.timed_run calls) as [_ _ _ T5].
  split; [ exact T5 | ]. rewrite T5.
  apply Forall_forall. intros g Hg. apply list_elem_of_In in Hg.
  apply filter_In in Hg as [_ Hg]. now apply Qgtb_lt.
Qed.

(** X4: when the timestamps of the calls never decrease, no inter-arrival
    time is negative, overall or in either direction. *)
Theorem inter_arrival_times_nonnegative (calls : list FlowState.call) :
  FlowState.nondecreasing (map FlowState.c_timestamp calls) ->
  let F := FlowState.run FlowState.init calls in
  Forall (fun g => 0 <= g)%Q (FlowState.all_inter_arrival_times F) /\
  Forall (fun g => 0 <= g)%Q (FlowState.fwd_inter_arrival_times F) /\
  Forall (fun g => 0 <= g)%Q (FlowState.bwd_inter_arrival_times F).
Proof. apply GapFacts.gaps_nonneg. Qed.

(** X4 on three forward packets at times 0, 1.5 and 3. *)
Lemma inter_arrival_times_nonnegative_witness :
  Forall (fun g => 0 <= g)%Q
    (FlowState.all_inter_arrival_times
       (FlowState.run FlowState.init
          [ Sample.tcp_update_at 0; Sample.tcp_update_at (3 # 2);
            Sample.tcp_update_at 3 ])).
Proof.
  refine (proj1 (inter_arrival_times_nonnegative
                   [ Sample.tcp_update_at 0; Sample.tcp_update_at (3 # 2);
                     Sample.tcp_update_at 3 ] _)).
  simpl. repeat split; discriminate.
Defined.

(** ** Flow statistics *)

(** X5: the statistics computed from a flow report its packets: the
    packet and byte totals per direction are the numbers and summed
    lengths of the forward and backward calls, [flow_bytes_total] is the
    summed length of all calls, [tcp_flags_count] is the number of calls
    with a non-zero flag byte, and the smallest and largest packet
    lengths bound the length of every call. *)
Theorem statistics_report_the_packets (sqrt : Q -> Q)
    (calls : list FlowState.call) (now : Q) :
  let F := FlowState.run FlowState.init calls in
  let fwd := List.filter FlowState.c_is_forward calls in
  let bwd := List.filter (fun c => negb (FlowState.c_is_forward c)) calls in
  exists s,
    PacketParser.calculate_flow_statistics sqrt F now = Ok s /\
    Stats.total_fwd_packets s = Z.of_nat (length fwd) /\
    Stats.total_bwd_packets s = Z.of_nat (length bwd) /\
    Stats.total_fwd_packets s + Stats.total_bwd_packets s
    = Z.of_nat (length calls) /\
    Stats.total_length_fwd_packets s
    = sum_ (map FlowState.c_packet_length fwd) /\
    Stats.total_length_bwd_packets s
    = sum_ (map FlowState.c_packet_length bwd) /\
    Stats.flow_bytes_total s = sum_ (map FlowState.c_packet_length calls) /\
    Stats.tcp_flags_count s
    = FlowBook.count (fun c => 0 <? FlowState.c_tcp_flags c) calls /\
    Forall (fun c =>
              Stats.packet_length_min s <= FlowState.c_packet_length c
              <= Stats.packet_length_max s) calls.
Proof.
  cbv zeta.
  destruct (StatsFacts.calculate_flow_statistics_total sqrt
              (FlowState.run FlowState.init calls) now) as [s E].
  exists s. split; [ exact E | ].
  apply StatsFieldFacts.calculate_flow_statistics_all in E
    as ((_ & S1 & S2 & S3 & S4 & S5 & S6) & (_ & _ & M1 & M2 & _) & _).
  destruct (FlowRecordFacts.lists_of_run calls) as (L1 & L2 & L3 & _).
  destruct (FlowBookFacts.counted_run calls) as [C1 C2 _ _ _ _ C7].
  destruct (FlowStateFacts.inv_run calls _ FlowStateFacts.inv_init)
    as [I1 I2 I3 I4 _ _].
  rewrite L1 in *. rewrite L2 in *. rewrite L3 in *.
  rewrite length_map in *.
  rewrite S1, S2, S3, S4, S5, S6, FlowRecordFacts.total_of_run.
  repeat split; try congruence; try lia.
  apply ExtremeFacts.min_or_0_bound in M1.
  apply ExtremeFacts.max_or_0_bound in M2.
  rewrite Forall_forall in M1, M2. apply Forall_forall. intros c Hc.
  assert (Hin : FlowState.c_packet_length c
                ∈ map FlowState.c_packet_length calls).
  { apply list_elem_of_In, in_map, list_elem_of_In, Hc. }
  split; [ now apply M1 | now apply M2 ].
Qed.

(** X6: nothing is ever appended to [active_periods]: the statistics of
    every flow have [active_mean = 0] and [active_std = 0]. *)
Theorem active_statistics_are_always_zero (sqrt : Q -> Q)
    (calls : list FlowState.call) (now : Q) :
  let F := FlowState.run FlowState.init calls in
  FlowState.active_periods F = [] /\
  exists s,
    PacketParser.calculate_flow_statistics sqrt F now = Ok s /\
    Stats.active_mean s = 0%Q /\ Stats.active_std s = 0%Q.
Proof.
  cbv zeta.
  destruct (FlowRecordFacts.lists_of_run calls) as (_ & _ & _ & _ & L5).
  split; [ exact L5 | ].
  destruct (StatsFacts.calculate_flow_statistics_total sqrt
              (FlowState.run FlowState.init calls) now) as [s E].
  exists s. split; [ exact E | ].
  apply StatsFieldFacts.calculate_flow_statistics_all in E
    as (_ & _ & (_ & _ & _ & _ & A1 & A2)).
  rewrite L5 in A1, A2. simpl in A1, A2.
  inversion A1. inversion A2. auto.
Qed.

(** X7: a flow whose first packet carries the timestamp 0.0 has a falsy
    [start_time]: whatever packets follow and whenever the statistics are
    computed, [flow_duration] is 0 and the four rates are 0. *)
Theorem flow_started_at_zero_has_no_duration (sqrt : Q -> Q)
    (c : FlowState.call) (calls : list FlowState.call) (now : Q) :
  (FlowState.c_timestamp c == 0)%Q ->
  exists s,
    PacketParser.calculate_flow_statistics sqrt
      (FlowState.run FlowState.init (c :: calls)) now = Ok s /\
    Stats.flow_duration s = 0%Q /\
    Stats.flow_bytes_per_second s = 0%Q /\
    Stats.flow_packets_per_second s = 0%Q /\
    Stats.fwd_packets_per_second s = 0%Q /\
    Stats.bwd_packets_per_second s = 0%Q.
Proof.
  intros Hz.
  destruct (StatsFacts.calculate_flow_statistics_total sqrt
              (FlowState.run FlowState.init (c :: calls)) now) as [s E].
  exists s. split; [ exact E | ].
  apply StatsFacts.calculate_flow_statistics_fields in E as (Hd & Hr & _).
  assert (Hs : FlowState.start_time (FlowState.run FlowState.init (c :: calls))
               = Some (FlowState.c_timestamp c)).
  { rewrite FlowStateFacts.run_cons.
    now apply FlowStateFacts.run_start_time. }
  unfold PacketParser.duration_since_start in Hd. rewrite Hs in Hd.
  unfold truthy in Hd. rewrite (Qeq_eq_bool _ _ Hz) in Hd. simpl in Hd.
  rewrite Hd in Hr. rewrite StatsFacts.rates_value in Hr. simpl in Hr.
  inversion Hr. auto.
Qed.

(** X7 on a flow with packets at times 0, 1.5 and 3, asked at time 3. *)
Lemma flow_started_at_zero_has_no_duration_witness :
  exists s,
    PacketParser.calculate_flow_statistics Sample.isqrt
      (FlowState.run FlowState.init
         [ Sample.tcp_update_at 0; Sample.tcp_update_at (3 # 2);
           Sample.tcp_update_at 3 ]) 3 = Ok s /\
    Stats.flow_duration s = 0%Q /\
    Stats.flow_packets_per_second s = 0%Q.
Proof.
  destruct (flow_started_at_zero_has_no_duration Sample.isqrt
              (Sample.tcp_update_at 0)
              [ Sample.tcp_update_at (3 # 2); Sample.tcp_update_at 3 ] 3)
    as (s & E & Hd & _ & Hp & _).
  - reflexivity.
  - exists s. auto.
Defined.

(** ** Header parsers *)

(** X8: [parse_ip_header] on a frame that has 20 bytes at [offset] reads
    each field at its place in those bytes, big-endian: version and IHL
    are the high and low nibble of byte 0, TOS is byte 1, the total
    length bytes 2-3, TTL byte 8, the protocol byte 9, the addresses
    bytes 12-15 and 16-19 rendered as dotted text; the transport offset is
    [offset + 4 * IHL].  Hence version < 16, header length <= 60, TOS,
    TTL and protocol < 256. *)
Theorem ip_header_fields_by_position (data : bytes) (offset : Z) :
  0 <= offset ->
  offset + 20 <= PacketParser.len data ->
  exists info,
    PacketParser.parse_ip_header data offset
    = Ok (Some (info, offset + PacketParser.ip_info.header_length info)) /\
    let byte0 := be_uint (PacketParser.sub data offset (offset + 1)) in
    PacketParser.ip_info.version info = byte0 / 16 /\
    PacketParser.ip_info.header_length info = 4 * (byte0 mod 16) /\
    PacketParser.ip_info.tos info
    = be_uint (PacketParser.sub data (offset + 1) (offset + 2)) /\
    PacketParser.ip_info.total_length info
    = be_uint (PacketParser.sub data (offset + 2) (offset + 4)) /\
    PacketParser.ip_info.ttl info
    = be_uint (PacketParser.sub data (offset + 8) (offset + 9)) /\
    PacketParser.ip_info.protocol info
    = be_uint (PacketParser.sub data (offset + 9) (offset + 10)) /\
    PacketParser.ip_info.src_ip info
    = dotted (PacketParser.sub data (offset + 12) (offset + 16)) /\
    PacketParser.ip_info.dst_ip info
    = dotted (PacketParser.sub data (offset + 16) (offset + 20)) /\
    0 <= PacketParser.ip_info.version info < 16 /\
    0 <= PacketParser.ip_info.header_length info <= 60 /\
    0 <= PacketParser.ip_info.tos info < 256 /\
    0 <= PacketParser.ip_info.total_length info < 65536 /\
    0 <= PacketParser.ip_info.ttl info < 256 /\
    0 <= PacketParser.ip_info.protocol info < 256.
Proof.
  intros Ho Hlen. unfold PacketParser.parse_ip_header.
  destruct (Z.ltb_spec (PacketParser.len data) (offset + 20)); [ lia | ].
  assert (Hl : length (PacketParser.sub data offset (offset + 20)) = 20%nat)
    by (apply (ParseFacts.sub_length data offset 20); lia).
  unfold unpack_BBHHHBBH4s4s. rewrite ParseFacts.sized_ok by exact Hl.
  cbn [rbind ip_0 ip_1 ip_2 ip_5 ip_6 ip_8 ip_9].
  rewrite !ParseFacts.inet_ntoa_ok by (rewrite ParseFacts.slice_length; lia).
  cbn [rbind].
  match goal with
  | |- exists info, Ok (Some (?r, _)) = _ /\ _ => exists r
  end.
  split.
  - reflexivity.
  - cbv zeta. cbn [PacketParser.ip_info.version
                   PacketParser.ip_info.header_length
                   PacketParser.ip_info.tos
                   PacketParser.ip_info.total_length
                   PacketParser.ip_info.ttl PacketParser.ip_info.protocol
                   PacketParser.ip_info.src_ip PacketParser.ip_info.dst_ip].
    rewrite !(WireFacts.slice_sub data offset 20) by lia.
    change (Z.of_nat 0) with 0. rewrite Z.add_0_r.
    change (Z.of_nat 1) with 1. change (Z.of_nat 2) with 2.
    change (Z.of_nat 4) with 4. change (Z.of_nat 8) with 8.
    change (Z.of_nat 9) with 9. change (Z.of_nat 10) with 10.
    change (Z.of_nat 12) with 12. change (Z.of_nat 16) with 16.
    change (Z.of_nat 20) with 20.
    set (byte0 := be_uint (PacketParser.sub data offset (offset + 1))).
    assert (H0 : 0 <= byte0 < 256).
    { apply (WireFacts.be_uint_below _ 1).
      unfold PacketParser.sub. etransitivity; [ apply WireFacts.slice_below | ].
      lia. }
    assert (B1 : forall lo hi k,
               (Z.to_nat hi - Z.to_nat lo <= k)%nat ->
               0 <= be_uint (PacketParser.sub data lo hi) < 256 ^ Z.of_nat k).
    { intros lo hi k Hk. apply WireFacts.be_uint_below.
      unfold PacketParser.sub. etransitivity; [ apply WireFacts.slice_below | ].
      exact Hk. }
    rewrite Z.shiftr_div_pow2 by lia.
    change 15 with (Z.ones 4). rewrite Z.land_ones by lia.
    change (2 ^ 4) with 16.
    pose proof (Z.mod_pos_bound byte0 16 ltac:(lia)).
    pose proof (Z.div_pos byte0 16 ltac:(lia) ltac:(lia)).
    pose proof (Z.div_lt_upper_bound byte0 16 16 ltac:(lia) ltac:(lia)).
    pose proof (B1 (offset + 1) (offset + 2) 1%nat ltac:(lia)).
    pose proof (B1 (offset + 2) (offset + 4) 2%nat ltac:(lia)).
    pose proof (B1 (offset + 8) (offset + 9) 1%nat ltac:(lia)).
    pose proof (B1 (offset + 9) (offset + 10) 1%nat ltac:(lia)).
    change (256 ^ Z.of_nat 1) with 256 in *.
    change (256 ^ Z.of_nat 2) with 65536 in *.
    repeat split; try reflexivity; try lia.
Qed.

(** X8 on the sample SYN frame, whose IP header starts at byte 14. *)
Lemma ip_header_fields_by_position_witness :
  exists info,
    PacketParser.parse_ip_header Sample.syn_frame 14
    = Ok (Some (info, 14 + PacketParser.ip_info.header_length info)) /\
    PacketParser.ip_info.protocol info
    = be_uint (PacketParser.sub Sample.syn_frame 23 24).
Proof.
  destruct (ip_header_fields_by_position Sample.syn_frame 14)
    as (info & Hp & _ & _ & _ & _ & _ & Hproto & _).
  - lia.
  - vm_compute. discriminate.
  - exists info. split; [ exact Hp | exact Hproto ].
Defined.

(** X9: [parse_tcp_header] on a frame with 20 bytes at [offset] reads the
    ports from bytes 0-1 and 2-3, the sequence and acknowledgement
    numbers from bytes 4-7 and 8-11, the flag byte from byte 13 and the
    window from bytes 14-15, big-endian.  Ports and window are below
    2^16, the numbers below 2^32; each of the six flags is 0 or 1 and
    together they are the low six bits of the flag byte. *)
Theorem tcp_header_fields_by_position (data : bytes) (offset : Z) :
  0 <= offset ->
  offset + 20 <= PacketParser.len data ->
  exists info,
    PacketParser.parse_tcp_header data offset = Ok (Some info) /\
    PacketParser.tcp_info.src_port info
    = be_uint (PacketParser.sub data offset (offset + 2)) /\
    PacketParser.tcp_info.dst_port info
    = be_uint (PacketParser.sub data (offset + 2) (offset + 4)) /\
    PacketParser.tcp_info.seq_num info
    = be_uint (PacketParser.sub data (offset + 4) (offset + 8)) /\
    PacketParser.tcp_info.ack_num info
    = be_uint (PacketParser.sub data (offset + 8) (offset + 12)) /\
    PacketParser.tcp_info.flags info
    = be_uint (PacketParser.sub data (offset + 13) (offset + 14)) /\
    PacketParser.tcp_info.window info
    = be_uint (PacketParser.sub data (offset + 14) (offset + 16)) /\
    0 <= PacketParser.tcp_info.src_port info < 65536 /\
    0 <= PacketParser.tcp_info.dst_port info < 65536 /\
    0 <= PacketParser.tcp_info.seq_num info < 2 ^ 32 /\
    0 <= PacketParser.tcp_info.ack_num info < 2 ^ 32 /\
    0 <= PacketParser.tcp_info.window info < 65536 /\
    0 <= PacketParser.tcp_info.flags info < 256 /\
    (PacketParser.tcp_info.flag_fin info = 0
     \/ PacketParser.tcp_info.flag_fin info = 1) /\
    (PacketParser.tcp_info.flag_syn info = 0
     \/ PacketParser.tcp_info.flag_syn info = 1) /\
    (PacketParser.tcp_info.flag_rst info = 0
     \/ PacketParser.tcp_info.flag_rst info = 1) /\
    (PacketParser.tcp_info.flag_psh info = 0
     \/ PacketParser.tcp_info.flag_psh info = 1) /\
    (PacketParser.tcp_info.flag_ack info = 0
     \/ PacketParser.tcp_info.flag_ack info = 1) /\
    (PacketParser.tcp_info.flag_urg info = 0
     \/ PacketParser.tcp_info.flag_urg info = 1) /\
    PacketParser.tcp_info.flags info mod 64
    = PacketParser.tcp_info.flag_fin info
      + 2 * PacketParser.tcp_info.flag_syn info
      + 4 * PacketParser.tcp_info.flag_rst info
      + 8 * PacketParser.tcp_info.flag_psh info
      + 16 * PacketParser.tcp_info.flag_ack info
      + 32 * PacketParser.tcp_info.flag_urg info.
Proof.
  intros Ho Hlen. unfold PacketParser.parse_tcp_header.
  destruct (Z.ltb_spec (PacketParser.len data) (offset + 20)); [ lia | ].
  assert (Hl : length (PacketParser.sub data offset (offset + 20)) = 20%nat)
    by (apply (ParseFacts.sub_length data offset 20); lia).
  unfold unpack_HHLLBBHHH. rewrite ParseFacts.sized_ok by exact Hl.
  cbn [rbind tcp_0 tcp_1 tcp_2 tcp_3 tcp_5 tcp_6].
  eexists. split; [ reflexivity | ].
  cbn [PacketParser.tcp_info.src_port PacketParser.tcp_info.dst_port
       PacketParser.tcp_info.seq_num PacketParser.tcp_info.ack_num
       PacketParser.tcp_info.flags PacketParser.tcp_info.window
       PacketParser.tcp_info.flag_fin PacketParser.tcp_info.flag_syn
       PacketParser.tcp_info.flag_rst PacketParser.tcp_info.flag_psh
       PacketParser.tcp_info.flag_ack PacketParser.tcp_info.flag_urg].
  rewrite !(WireFacts.slice_sub data offset 20) by lia.
  change (Z.of_nat 0) with 0. rewrite Z.add_0_r.
  change (Z.of_nat 2) with 2. change (Z.of_nat 4) with 4.
  change (Z.of_nat 8) with 8. change (Z.of_nat 12) with 12.
  change (Z.of_nat 13) with 13. change (Z.of_nat 14) with 14.
  change (Z.of_nat 16) with 16.
  assert (B1 : forall lo hi k,
             (Z.to_nat hi - Z.to_nat lo <= k)%nat ->
             0 <= be_uint (PacketParser.sub data lo hi) < 256 ^ Z.of_nat k).
  { intros lo hi k Hk. apply WireFacts.be_uint_below.
    unfold PacketParser.sub. etransitivity; [ apply WireFacts.slice_below | ].
    exact Hk. }
  pose proof (B1 offset (offset + 2) 2%nat ltac:(lia)) as P1.
  pose proof (B1 (offset + 2) (offset + 4) 2%nat ltac:(lia)) as P2.
  pose proof (B1 (offset + 4) (offset + 8) 4%nat ltac:(lia)) as P3.
  pose proof (B1 (offset + 8) (offset + 12) 4%nat ltac:(lia)) as P4.
  pose proof (B1 (offset + 13) (offset + 14) 1%nat ltac:(lia)) as P5.
  pose proof (B1 (offset + 14) (offset + 16) 2%nat ltac:(lia)) as P6.
  change (256 ^ Z.of_nat 1) with 256 in *.
  change (256 ^ Z.of_nat 2) with 65536 in *.
  change (256 ^ Z.of_nat 4) with (2 ^ 32) in *.
  pose proof (FlagFacts.flag_bits _ P5) as Hbits. cbv beta zeta in Hbits.
  rewrite Z.shiftr_0_r in Hbits.
  destruct Hbits as (F1 & F2 & F3 & F4 & F5 & F6 & F7).
  repeat split; try reflexivity; try lia; assumption.
Qed.

(** X9 on the sample SYN frame, whose TCP header starts at byte 34. *)
Lemma tcp_header_fields_by_position_witness :
  exists info,
    PacketParser.parse_tcp_header Sample.syn_frame 34 = Ok (Some info) /\
    PacketParser.tcp_info.flag_syn info = 1 /\
    PacketParser.tcp_info.flags info mod 64 = 2.
Proof.
  destruct (tcp_header_fields_by_position Sample.syn_frame 34)
    as (info & Hp & H).
  - lia.
  - vm_compute. discriminate.
  - exists info. split; [ exact Hp | ].
    vm_compute in Hp. inversion Hp. split; reflexivity.
Defined.

(** X10: [parse_udp_header] yields the empty result when fewer than 8
    bytes follow [offset]; otherwise the source port, the destination
    port, the length and the checksum are bytes 0-1, 2-3, 4-5 and 6-7,
    big-endian, each below 2^16. *)
Theorem udp_header_fields_by_position (data : bytes) (offset : Z) :
  0 <= offset ->
  (PacketParser.len data < offset + 8 ->
   PacketParser.parse_udp_header data offset = Ok None) /\
  (offset + 8 <= PacketParser.len data ->
   exists info,
     PacketParser.parse_udp_header data offset = Ok (Some info) /\
     PacketParser.udp_info.src_port info
     = be_uint (PacketParser.sub data offset (offset + 2)) /\
     PacketParser.udp_info.dst_port info
     = be_uint (PacketParser.sub data (offset + 2) (offset + 4)) /\
     PacketParser.udp_info.length info
     = be_uint (PacketParser.sub data (offset + 4) (offset + 6)) /\
     PacketParser.udp_info.checksum info
     = be_uint (PacketParser.sub data (offset + 6) (offset + 8)) /\
     0 <= PacketParser.udp_info.src_port info < 65536 /\
     0 <= PacketParser.udp_info.dst_port info < 65536 /\
     0 <= PacketParser.udp_info.length info < 65536 /\
     0 <= PacketParser.udp_info.checksum info < 65536).
Proof.
  intros Ho. unfold PacketParser.parse_udp_header.
  destruct (Z.ltb_spec (PacketParser.len data) (offset + 8)) as [Hs|Hl];
    (split; [ intros; first [ reflexivity | lia ] | intros Hlen; try lia ]).
  assert (Hn : length (PacketParser.sub data offset (offset + 8)) = 8%nat)
    by (apply (ParseFacts.sub_length data offset 8); lia).
  unfold unpack_HHHH. rewrite ParseFacts.sized_ok by exact Hn.
  cbn [rbind]. eexists. split; [ reflexivity | ].
  cbn [PacketParser.udp_info.src_port PacketParser.udp_info.dst_port
       PacketParser.udp_info.length PacketParser.udp_info.checksum].
  rewrite !(WireFacts.slice_sub data offset 8) by lia.
  change (Z.of_nat 0) with 0. rewrite Z.add_0_r.
  change (Z.of_nat 2) with 2. change (Z.of_nat 4) with 4.
  change (Z.of_nat 6) with 6. change (Z.of_nat 8) with 8.
  assert (B : forall lo hi,
             (Z.to_nat hi - Z.to_nat lo <= 2)%nat ->
             0 <= be_uint (PacketParser.sub data lo hi) < 65536).
  { intros lo hi Hk. apply (WireFacts.be_uint_below _ 2).
    unfold PacketParser.sub. etransitivity; [ apply WireFacts.slice_below | ].
    exact Hk. }
  repeat split; try reflexivity; apply B; lia.
Qed.

(** X10 on the sample UDP frame, whose UDP header starts at byte 34. *)
Lemma udp_header_fields_by_position_witness :
  exists info,
    PacketParser.parse_udp_header Sample.udp_frame 34 = Ok (Some info) /\
    0 <= PacketParser.udp_info.dst_port info < 65536.
Proof.
  destruct (udp_header_fields_by_position Sample.udp_frame 34) as [_ H].
  - lia.
  - destruct H as (info & Hp & _ & _ & _ & _ & _ & Hd & _).
    + vm_compute. discriminate.
    + exists info. split; [ exact Hp | exact Hd ].
Defined.

(** X11: [parse_ethernet_header] yields three [None]s for a frame shorter
    than 14 bytes.  Otherwise the EtherType is the big-endian value of
    bytes 12-13, below 2^16, and the two addresses are the bytes 0-5 and
    6-11 printed as two lower-case hexadecimal digits each and joined by
    colons, 17 characters long. *)
Theorem ethernet_header_by_position (data : bytes) :
  (PacketParser.len data < 14 ->
   PacketParser.parse_ethernet_header data = Ok (None, None, None)) /\
  (14 <= PacketParser.len data ->
   exists dest_mac src_mac eth_type,
     PacketParser.parse_ethernet_header data
     = Ok (Some dest_mac, Some src_mac, Some eth_type) /\
     dest_mac = join ":" (map hex2 (PacketParser.sub data 0 6)) /\
     src_mac = join ":" (map hex2 (PacketParser.sub data 6 12)) /\
     eth_type = be_uint (PacketParser.sub data 12 14) /\
     String.length dest_mac = 17%nat /\
     String.length src_mac = 17%nat /\
     0 <= eth_type < 65536).
Proof.
  unfold PacketParser.parse_ethernet_header.
  destruct (Z.ltb_spec (PacketParser.len data) 14) as [Hs|Hl];
    (split; [ intros; first [ reflexivity | lia ] | intros Hlen; try lia ]).
  assert (Hn : length (PacketParser.sub data 0 14) = 14%nat)
    by (apply (ParseFacts.sub_length data 0 14); lia).
  unfold unpack_6s6sH. rewrite ParseFacts.sized_ok by exact Hn.
  cbn [rbind]. do 3 eexists. split; [ reflexivity | ].
  pose proof (WireFacts.slice_sub data 0 14 0 6) as E1.
  pose proof (WireFacts.slice_sub data 0 14 6 12) as E2.
  pose proof (WireFacts.slice_sub data 0 14 12 14) as E3.
  change (0 + 14) with 14 in *.
  rewrite E1, E2, E3 by lia.
  change (0 + Z.of_nat 0) with 0. change (0 + Z.of_nat 6) with 6.
  change (0 + Z.of_nat 12) with 12. change (0 + Z.of_nat 14) with 14.
  assert (L1 : length (PacketParser.sub data 0 6) = 6%nat)
    by (apply (ParseFacts.sub_length data 0 6); lia).
  assert (L2 : length (PacketParser.sub data 6 12) = 6%nat)
    by (apply (ParseFacts.sub_length data 6 6); lia).
  repeat split; try reflexivity.
  - now apply TextFacts.mac_length.
  - now apply TextFacts.mac_length.
  - apply (WireFacts.be_uint_below _ 2). unfold PacketParser.sub.
    etransitivity; [ apply WireFacts.slice_below | lia ].
  - apply (WireFacts.be_uint_below _ 2). unfold PacketParser.sub.
    etransitivity; [ apply WireFacts.slice_below | lia ].
Qed.

(** X12: [socket.inet_ntoa] raises unless it is given 4 bytes, and on 4
    bytes the dotted text determines the address: two different
    addresses never get the same text, so the flow keys built from the
    texts do not confuse hosts. *)
Theorem address_text_determines_address (p q : bytes) (s : string) :
  inet_ntoa p = Ok s -> inet_ntoa q = Ok s -> p = q.
Proof.
  unfold inet_ntoa.
  destruct (Nat.eqb_spec (length p) 4) as [Hp|]; [ | discriminate ].
  destruct (Nat.eqb_spec (length q) 4) as [Hq|]; [ | discriminate ].
  intros H1 H2. apply TextFacts.dotted_inj; congruence.
Qed.

(** X12 on the address 10.0.0.1. *)
Lemma address_text_determines_address_witness :
  inet_ntoa [x0a; x00; x00; x01] = Ok "10.0.0.1"%string /\
  [x0a; x00; x00; x01] = [x0a; x00; x00; x01].
Proof.
  split; [ reflexivity | ].
  apply (address_text_determines_address _ _ "10.0.0.1"%string);
    reflexivity.
Defined.

(** ** parse_packet, end to end *)

(** X13: on an IPv4 frame with a whole IP header [parse_packet] changes
    the flow table at one key only, the key built from the addresses,
    ports and protocol of the returned record: the state stored there is
    the previous one (a fresh one if there was none after the sweep)
    updated with the frame's length, the timestamp, the direction and the
    TCP flags and window of the record; every other flow and
    [last_cleanup] are as the sweep left them. *)
Theorem packet_updates_one_flow (sqrt : Q -> Q) (data : bytes)
    (ts now : Q) (st : PacketParser.state) :
  PacketParser.eth_type_of data = Some 0x0800 ->
  34 <= PacketParser.len data ->
  exists st' f,
    PacketParser.parse_packet sqrt data ts now st = (st', Ok f) /\
    let swept := PacketParser.cleanup_old_flows now st in
    let key := Fields.flow_key f in
    PacketParser.flow_states st' !! FlowKey.key key
    = Some (FlowState.update
              (default FlowState.init
                 (PacketParser.flow_states swept !! FlowKey.key key))
              (PacketParser.len data) ts (FlowKey.is_forward key)
              (NetworkFeatures.tcp_flags f) (NetworkFeatures.tcp_window f)) /\
    (forall k, k <> FlowKey.key key ->
       PacketParser.flow_states st' !! k
       = PacketParser.flow_states swept !! k) /\
    PacketParser.last_cleanup st' = PacketParser.last_cleanup swept.
Proof.
  intros Hty Hlen.
  destruct (PacketFacts.parse_packet_ipv4 sqrt data ts now st Hty Hlen)
    as (info & off & f1 & s & H). cbv zeta in H.
  destruct H as (_ & _ & Hp & _).
  do 2 eexists. split; [ exact Hp | ]. cbv zeta.
  change (Fields.flow_key (NetworkFeatures.set_flow_stats f1 s))
    with (Fields.flow_key f1).
  cbn [PacketParser.flow_states PacketParser.last_cleanup
       NetworkFeatures.tcp_flags NetworkFeatures.tcp_window
       NetworkFeatures.set_flow_stats].
  split; [ apply lookup_insert_eq | ].
  split; [ | reflexivity ].
  intros k Hk. now apply lookup_insert_ne.
Qed.

(** X13 on the sample SYN frame and the empty table. *)
Lemma packet_updates_one_flow_witness :
  exists st' f,
    PacketParser.parse_packet Sample.isqrt Sample.syn_frame 1000 1000
      Sample.empty_table = (st', Ok f) /\
    PacketParser.last_cleanup st'
    = PacketParser.last_cleanup
        (PacketParser.cleanup_old_flows 1000 Sample.empty_table).
Proof.
  destruct (packet_updates_one_flow Sample.isqrt Sample.syn_frame 1000 1000
              Sample.empty_table eq_refl)
    as (st' & f & Hp & _ & _ & Hc).
  - vm_compute. discriminate.
  - exists st', f. split; [ exact Hp | exact Hc ].
Defined.

(** X14: the flow statistics in the record returned for an IPv4 frame
    are those of the state the table holds for the record's flow after
    the call, computed at the packet's timestamp. *)
Theorem record_statistics_are_of_stored_flow (sqrt : Q -> Q) (data : bytes)
    (ts now : Q) (st : PacketParser.state) :
  PacketParser.eth_type_of data = Some 0x0800 ->
  34 <= PacketParser.len data ->
  exists st' f F s,
    PacketParser.parse_packet sqrt data ts now st = (st', Ok f) /\
    PacketParser.flow_states st' !! FlowKey.key (Fields.flow_key f) = Some F /\
    PacketParser.calculate_flow_statistics sqrt F ts = Ok s /\
    NetworkFeatures.set_flow_stats f s = f.
Proof.
  intros Hty Hlen.
  destruct (PacketFacts.parse_packet_ipv4 sqrt data ts now st Hty Hlen)
    as (info & off & f1 & s & H). cbv zeta in H.
  destruct H as (_ & _ & Hp & Hs & _).
  do 4 eexists. split; [ exact Hp | ].
  change (Fields.flow_key (NetworkFeatures.set_flow_stats f1 s))
    with (Fields.flow_key f1).
  cbn [PacketParser.flow_states].
  split; [ apply lookup_insert_eq | ].
  split; [ exact Hs | reflexivity ].
Qed.

(** X14 on the sample SYN frame and the empty table. *)
Lemma record_statistics_are_of_stored_flow_witness :
  exists st' f F,
    PacketParser.parse_packet Sample.isqrt Sample.syn_frame 1000 1000
      Sample.empty_table = (st', Ok f) /\
    PacketParser.flow_states st' !! FlowKey.key (Fields.flow_key f) = Some F.
Proof.
  destruct (record_statistics_are_of_stored_flow Sample.isqrt
              Sample.syn_frame 1000 1000 Sample.empty_table eq_refl)
    as (st' & f & F & s & Hp & HF & _).
  - vm_compute. discriminate.
  - exists st', f, F. split; [ exact Hp | exact HF ].
Defined.

(** X15: in the record returned for an IPv4 frame the ten TCP fields are
    0 unless the protocol is 6, and the ports are 0 unless the protocol
    is 6 or 17.  A TCP or UDP packet whose transport header is cut short
    is still counted in a flow, with ports 0 (and TCP fields 0). *)
Theorem transport_fields_default_to_zero (sqrt : Q -> Q) (data : bytes)
    (ts now : Q) (st : PacketParser.state) :
  PacketParser.eth_type_of data = Some 0x0800 ->
  34 <= PacketParser.len data ->
  exists info tcp_offset st' f,
    PacketParser.parse_ip_header data 14 = Ok (Some (info, tcp_offset)) /\
    PacketParser.parse_packet sqrt data ts now st = (st', Ok f) /\
    let protocol := PacketParser.ip_info.protocol info in
    NetworkFeatures.protocol f = protocol /\
    (protocol <> 6 -> Fields.tcp_part f = repeat 0 10) /\
    (protocol <> 6 -> protocol <> 17 -> Fields.ports f = (0, 0)) /\
    (protocol = 6 -> PacketParser.len data < tcp_offset + 20 ->
     Fields.ports f = (0, 0) /\ Fields.tcp_part f = repeat 0 10) /\
    (protocol = 17 -> PacketParser.len data < tcp_offset + 8 ->
     Fields.ports f = (0, 0)) /\
    exists F,
      PacketParser.flow_states st' !! FlowKey.key (Fields.flow_key f)
      = Some F /\
      FlowState.last_time F = Some ts.
Proof.
  intros Hty Hlen.
  destruct (PacketFacts.parse_packet_ipv4 sqrt data ts now st Hty Hlen)
    as (info & off & f1 & s & H). cbv zeta in H.
  destruct H as (Hip & _ & Hp & _ & _ & _ & _ & Hpr & H1 & H2 & H3 & H4).
  exists info, off. do 2 eexists.
  split; [ exact Hip | ]. split; [ exact Hp | ]. cbv zeta.
  change (Fields.flow_key (NetworkFeatures.set_flow_stats f1 s))
    with (Fields.flow_key f1).
  change (Fields.tcp_part (NetworkFeatures.set_flow_stats f1 s))
    with (Fields.tcp_part f1).
  change (Fields.ports (NetworkFeatures.set_flow_stats f1 s))
    with (Fields.ports f1).
  cbn [PacketParser.flow_states NetworkFeatures.protocol
       NetworkFeatures.set_flow_stats].
  repeat (split; [ assumption | ]).
  eexists. split; [ apply lookup_insert_eq | reflexivity ].
Qed.

(** X15 on the sample UDP frame: no TCP field is set. *)
Lemma transport_fields_default_to_zero_witness :
  exists st' f,
    PacketParser.parse_packet Sample.isqrt Sample.udp_frame 1000 1000
      Sample.empty_table = (st', Ok f) /\
    Fields.tcp_part f = repeat 0 10.
Proof.
  destruct (transport_fields_default_to_zero Sample.isqrt Sample.udp_frame
              1000 1000 Sample.empty_table eq_refl)
    as (info & off & st' & f & Hip & Hp & _ & Hz & _).
  - vm_compute. discriminate.
  - exists st', f. split; [ exact Hp | ].
    apply Hz. vm_compute in Hip. inversion Hip. discriminate.
Defined.

(** X16: a frame shorter than 34 bytes cannot hold an Ethernet and an IP
    header: whatever its EtherType, [parse_packet] returns the record in
    which only [packet_length] and [timestamp] are set, and leaves the
    flow table as the sweep left it. *)
Theorem truncated_frame_yields_default_record (sqrt : Q -> Q)
    (data : bytes) (ts now : Q) (st : PacketParser.state) :
  PacketParser.len data < 34 ->
  PacketParser.parse_packet sqrt data ts now st
  = (PacketParser.cleanup_old_flows now st,
     Ok (NetworkFeatures.set_packet_length
           (NetworkFeatures.set_timestamp NetworkFeatures.init
              (int_of_float (ts * 1000000)))
           (PacketParser.len data))).
Proof. apply PacketFacts.parse_packet_truncated. Qed.

(** X16 on the first 20 bytes of the sample SYN frame, an IPv4 frame cut
    inside its IP header. *)
Lemma truncated_frame_yields_default_record_witness :
  PacketParser.eth_type_of (firstn 20 Sample.syn_frame) = Some 0x0800 /\
  exists f,
    PacketParser.parse_packet Sample.isqrt (firstn 20 Sample.syn_frame)
      1000 1000 Sample.empty_table
    = (PacketParser.cleanup_old_flows 1000 Sample.empty_table, Ok f) /\
    NetworkFeatures.src_ip f = ""%string.
Proof.
  split; [ reflexivity | ].
  eexists. split.
  - apply (truncated_frame_yields_default_record Sample.isqrt
             (firstn 20 Sample.syn_frame) 1000 1000 Sample.empty_table).
    vm_compute. reflexivity.
  - reflexivity.
Defined.

(** X17: the four header parsers never raise, whatever the bytes and
    the offset (not negative): each [struct.unpack] and each
    [socket.inet_ntoa] gets exactly the bytes it needs, because the
    length test before it asks for that many.  A parser returns its
    empty result exactly when the frame is too short: fewer than 14
    bytes for Ethernet, fewer than 20 after the offset for IP and TCP,
    fewer than 8 for UDP. *)
Theorem header_parsers_never_raise (data : bytes) (offset : Z) :
  0 <= offset ->
  (exists dest_mac src_mac eth_type,
     PacketParser.parse_ethernet_header data
     = Ok (dest_mac, src_mac, eth_type) /\
     (eth_type = None <-> PacketParser.len data < 14)) /\
  (exists r,
     PacketParser.parse_ip_header data offset = Ok r /\
     (r = None <-> PacketParser.len data < offset + 20)) /\
  (exists r,
     PacketParser.parse_tcp_header data offset = Ok r /\
     (r = None <-> PacketParser.len data < offset + 20)) /\
  (exists r,
     PacketParser.parse_udp_header data offset = Ok r /\
     (r = None <-> PacketParser.len data < offset + 8)).
Proof.
  intros Ho. split; [ | split; [ | split ] ].
  - unfold PacketParser.parse_ethernet_header.
    destruct (Z.ltb_spec (PacketParser.len data) 14) as [Hs|Hl].
    + exists None, None, None. split; [ reflexivity | tauto ].
    + unfold unpack_6s6sH.
      rewrite ParseFacts.sized_ok
        by (apply (ParseFacts.sub_length data 0 14); lia).
      cbn [rbind]. do 3 eexists. split; [ reflexivity | ].
      split; [ discriminate | lia ].
  - destruct (ParseFacts.parse_ip_header_total data offset Ho)
      as (r & Hr & Hsome & Hnone).
    exists r. split; [ exact Hr | ]. split.
    + intros ->. destruct (Z.lt_ge_cases (PacketParser.len data) (offset + 20))
        as [H|H]; [ exact H | ].
      destruct Hsome as (info & off & Hi & _); [ lia | discriminate Hi ].
    + exact Hnone.
  - unfold PacketParser.parse_tcp_header.
    destruct (Z.ltb_spec (PacketParser.len data) (offset + 20)) as [Hs|Hl].
    + exists None. split; [ reflexivity | tauto ].
    + unfold unpack_HHLLBBHHH.
      rewrite ParseFacts.sized_ok
        by (apply (ParseFacts.sub_length data offset 20); lia).
      cbn [rbind]. eexists. split; [ reflexivity | ].
      split; [ discriminate | lia ].
  - unfold PacketParser.parse_udp_header.
    destruct (Z.ltb_spec (PacketParser.len data) (offset + 8)) as [Hs|Hl].
    + exists None. split; [ reflexivity | tauto ].
    + unfold unpack_HHHH.
      rewrite ParseFacts.sized_ok
        by (apply (ParseFacts.sub_length data offset 8); lia).
      cbn [rbind]. eexists. split; [ reflexivity | ].
      split; [ discriminate | lia ].
Qed.

(** X17 on the empty frame: every parser returns its empty result. *)
Lemma header_parsers_never_raise_witness :
  PacketParser.parse_ethernet_header [] = Ok (None, None, None) /\
  PacketParser.parse_ip_header [] 14 = Ok None.
Proof.
  destruct (header_parsers_never_raise [] 14) as (He & Hi & _).
  - lia.
  - split; [ reflexivity | ].
    destruct Hi as (r & Hr & Hn). rewrite Hr. f_equal. apply Hn.
    reflexivity.
Defined.

(** ** The sweep of the flow table *)





(** ** The capture loop *)

(** X20: a pass of the capture loop releases a prefix of the burst it
    received, one [free_packet] call per handle, in order.  If the pass
    ends normally the prefix is the whole burst.  If an exception leaves
    it, the exception is not an [Exception] (a [KeyboardInterrupt], say),
    the buffer being handled has been released by the [finally] clause,
    and the buffers after it in the burst are not released. *)
Theorem interrupted_pass_releases_a_prefix {W : Type}
    (E : DPDKPacketCapture.env W) (c : DPDKPacketCapture.t W) :
  let mbufs := fst (DPDKPacketCapture.iteration E c) in
  let c' := fst (snd (DPDKPacketCapture.iteration E c)) in
  exists done rest,
    mbufs = done ++ rest /\
    DPDKPacketCapture.freed (DPDKPacketCapture.trace c')
    = DPDKPacketCapture.freed (DPDKPacketCapture.trace c) ++ done /\
    match snd (snd (DPDKPacketCapture.iteration E c)) with
    | Ok _ => rest = []
    | Raise e => is_Exception e = false /\ done <> []
    end.
Proof.
  cbv zeta. unfold DPDKPacketCapture.iteration.
  destruct (DPDKPacketCapture.receive_packets E (DPDKPacketCapture.world c))
    as [w [|m l]].
  - exists [], []. simpl. repeat split.
    rewrite CaptureFacts.freed_app. reflexivity.
  - apply (LoopFacts.for_mbufs_prefix E (m :: l)
             (DPDKPacketCapture.set_world w c)).
Qed.

(** X21: in a whole run of [start_capture] the driver's
    [rte_pktmbuf_free] is called exactly for the non-null handles passed
    to [free_packet], once each and in the same order; a null handle
    never reaches the driver. *)
Theorem driver_frees_nonnull_handles_only {W : Type}
    (E : DPDKPacketCapture.env W) (fuel : nat)
    (c : DPDKPacketCapture.t W) :
  exists tr,
    DPDKPacketCapture.trace (DPDKPacketCapture.start_capture E fuel c)
    = DPDKPacketCapture.trace c ++ tr /\
    CaptureBook.released tr
    = CaptureBook.nonnull (DPDKPacketCapture.freed tr) /\
    Forall (fun p => p <> 0) (CaptureBook.released tr).
Proof.
  assert (H : CaptureBook.extends c (DPDKPacketCapture.start_capture E fuel c)).
  { unfold DPDKPacketCapture.start_capture.
    set (c0 := DPDKPacketCapture.emit _ _).
    assert (H0 : CaptureBook.extends c c0).
    { exists [DPDKPacketCapture.LogInfo]. split; reflexivity. }
    pose proof (LoopFacts.loop_extends E fuel c0) as Hl.
    destruct (DPDKPacketCapture.loop E fuel c0) as [c1 r]. simpl in Hl.
    eapply LoopFacts.extends_trans; [ exact H0 | ].
    eapply LoopFacts.extends_trans; [ exact Hl | ].
    unfold DPDKPacketCapture.stop_capture.
    assert (Hstop : forall c2 : DPDKPacketCapture.t W,
              CaptureBook.extends c2
                (DPDKPacketCapture.emit [DPDKPacketCapture.LogInfo]
                   {| DPDKPacketCapture.running := false;
                      DPDKPacketCapture.packet_count :=
                        DPDKPacketCapture.packet_count c2;
                      DPDKPacketCapture.trace := DPDKPacketCapture.trace c2;
                      DPDKPacketCapture.world := DPDKPacketCapture.world c2 |})).
    { intros c2. exists [DPDKPacketCapture.LogInfo]. split; reflexivity. }
    destruct r as [[]|e]; [ apply Hstop | ].
    destruct (is_Exception e);
      (eapply LoopFacts.extends_trans; [ | apply Hstop ]);
      [ apply (LoopFacts.extends_emit [DPDKPacketCapture.LogError])
      | apply (LoopFacts.extends_emit [DPDKPacketCapture.LogInfo]) ];
      reflexivity. }
  destruct H as (tr & Ht & Hr). exists tr.
  split; [ exact Ht | ]. split; [ exact Hr | ].
  rewrite Hr. unfold CaptureBook.nonnull.
  apply Forall_forall. intros p Hp.
  apply list_elem_of_In, in_flat_map in Hp as ([q|] & _ & Hq);
    [ | destruct Hq ].
  destruct (Z.eqb_spec q 0) as [|Hne]; [ destruct Hq | ].
  destruct Hq as [<-|[]]. exact Hne.
Qed.

(** X22: when reading a buffer and the callback raise nothing but
    [Exception]s, the loop never stops on an exception, and the
    [free_packet] calls of any number of passes are exactly the handles
    of the bursts received in those passes, one call per handle, in the
    order received. *)
Theorem loop_releases_every_burst {W : Type}
    (E : DPDKPacketCapture.env W) (fuel : nat)
    (c : DPDKPacketCapture.t W) :
  (forall mbuf w e,
     DPDKPacketCapture.get_packet_data E mbuf w = Raise e ->
     is_Exception e = true) ->
  (forall data ts w e,
     snd (DPDKPacketCapture.callback E data ts w) = Raise e ->
     is_Exception e = true) ->
  snd (DPDKPacketCapture.loop E fuel c) = Ok tt /\
  DPDKPacketCapture.freed
    (DPDKPacketCapture.trace (fst (DPDKPacketCapture.loop E fuel c)))
  = DPDKPacketCapture.freed (DPDKPacketCapture.trace c)
    ++ CaptureBook.received E fuel c.
Proof.
  intros Hread Hcb. revert c.
  induction fuel as [|fuel IH]; intros c; simpl.
  - now rewrite app_nil_r.
  - destruct (DPDKPacketCapture.running c); [ | now rewrite app_nil_r ].
    destruct (LoopFacts.iteration_all E c Hread Hcb) as [Hok Hfr].
    destruct (snd (DPDKPacketCapture.iteration E c)) as [c1 r].
    simpl in Hok, Hfr. subst r.
    destruct (IH c1) as [H1 H2]. split; [ exact H1 | ].
    rewrite H2, Hfr, <- app_assoc. reflexivity.
Qed.

(** X22 on two passes of the sample driver: six handles released. *)
Lemma loop_releases_every_burst_witness :
  DPDKPacketCapture.freed
    (DPDKPacketCapture.trace
       (fst (DPDKPacketCapture.loop Sample.driver 2 Sample.idle_capture)))
  = [Some 4096; None; Some 8192; Some 4096; None; Some 8192].
Proof.
  refine (proj2 (loop_releases_every_burst Sample.driver 2
                   Sample.idle_capture _ _)).
  - intros [p|] w e; simpl.
    + destruct (p =? 4096); discriminate.
    + intros H. inversion H. reflexivity.
  - intros data ts w e H. simpl in H. inversion H. reflexivity.
Defined.

(** X23: however the loop ends, [start_capture] leaves [running] false;
    [packet_count] never goes down and goes up by at most one per buffer
    released: a buffer whose callback raised, or that held no data, is
    released without being counted. *)
Theorem packet_count_bounded_by_releases {W : Type}
    (E : DPDKPacketCapture.env W) (fuel : nat)
    (c : DPDKPacketCapture.t W) :
  let c' := DPDKPacketCapture.start_capture E fuel c in
  DPDKPacketCapture.running c' = false /\
  DPDKPacketCapture.packet_count c <= DPDKPacketCapture.packet_count c' /\
  DPDKPacketCapture.packet_count c'
  <= DPDKPacketCapture.packet_count c
     + Z.of_nat (length (DPDKPacketCapture.freed
                           (DPDKPacketCapture.trace c')))
     - Z.of_nat (length (DPDKPacketCapture.freed
                           (DPDKPacketCapture.trace c))).
Proof.
  cbv zeta. unfold DPDKPacketCapture.start_capture.
  set (c0 := DPDKPacketCapture.emit _ _).
  pose proof (LoopFacts.loop_count E fuel c0) as Hl. cbv zeta in Hl.
  assert (H0 : DPDKPacketCapture.freed (DPDKPacketCapture.trace c0)
               = DPDKPacketCapture.freed (DPDKPacketCapture.trace c)).
  { unfold c0. simpl. rewrite CaptureFacts.freed_app. simpl.
    now rewrite app_nil_r. }
  rewrite H0 in Hl. change (DPDKPacketCapture.packet_count c0)
    with (DPDKPacketCapture.packet_count c) in Hl.
  destruct (DPDKPacketCapture.loop E fuel c0) as [c1 r]. simpl in Hl.
  destruct r as [[]|e]; [ | destruct (is_Exception e) ];
    simpl; rewrite !CaptureFacts.freed_app; simpl;
    rewrite ?app_nil_r; (split; [ reflexivity | lia ]).
Qed.

(** ** Initialisation of the capture *)

(** X24: [initialize] never raises.  It returns [True] exactly when the
    driver accepts every step (no negative return code, at least one
    port, a non-null pool).  The driver functions are called in the fixed
    order EAL, port count, pool, configure, RX queue, TX queue, start, up
    to and including the first step that is refused, and the RX queue is
    set up with the pool just created.  [mempool] is the new pool once
    the first three steps are accepted, and is left alone otherwise. *)
Theorem initialize_succeeds_iff_driver_accepts (d : DPDKWrapper.replies)
    (s : DPDKWrapper.t) :
  exists s' b,
    let n := DPDKWrapper.attempted (DPDKWrapper.verdicts d) in
    DPDKWrapper.initialize d s = (s', Ok b) /\
    (b = true <-> DPDKWrapper.accepts d) /\
    DPDKWrapper.calls s'
    = DPDKWrapper.calls s ++ firstn n (DPDKWrapper.sequence d) /\
    DPDKWrapper.mempool s'
    = (if (3 <? n)%nat then DPDKWrapper.rte_pktmbuf_pool_create d
       else DPDKWrapper.mempool s).
Proof.
  unfold DPDKWrapper.initialize, DPDKWrapper.initialize_body,
    DPDKWrapper.initialize_eal, DPDKWrapper.get_port_count,
    DPDKWrapper.create_mempool, DPDKWrapper.configure_port,
    DPDKWrapper.setup_rx_queue, DPDKWrapper.setup_tx_queue,
    DPDKWrapper.start_port, DPDKWrapper.get_mempool,
    DPDKWrapper.set_mempool, DPDKWrapper.accepts, DPDKWrapper.sequence,
    DPDKWrapper.verdicts,
    DPDKWrapper.bind, DPDKWrapper.driver, DPDKWrapper.raise,
    DPDKWrapper.ret.
  cbn beta iota. rewrite !Z.ltb_antisym.
  destruct (Z.leb_spec 0 (DPDKWrapper.rte_eal_init d)) as [H1|H1];
    cbn [negb]; cbn beta iota;
    [ | do 2 eexists; cbv zeta; split; [ reflexivity | ];
        cbn [DPDKWrapper.attempted DPDKWrapper.calls DPDKWrapper.mempool
             firstn Nat.ltb Nat.leb];
        repeat split; try discriminate; intuition lia ].
  destruct (Z.eqb_spec (DPDKWrapper.rte_eth_dev_count_avail d) 0) as [H2|H2];
    cbn [negb]; cbn beta iota;
    [ do 2 eexists; cbv zeta; split; [ reflexivity | ];
      cbn [DPDKWrapper.attempted DPDKWrapper.calls DPDKWrapper.mempool
           firstn Nat.ltb Nat.leb];
      rewrite <- ?app_assoc;
      repeat split; try discriminate; intuition lia | ].
  destruct (DPDKWrapper.is_set (DPDKWrapper.rte_pktmbuf_pool_create d))
    eqn:H3; cbn [negb]; cbn beta iota;
    [ | do 2 eexists; cbv zeta; split; [ reflexivity | ];
        cbn [DPDKWrapper.attempted DPDKWrapper.calls DPDKWrapper.mempool
             firstn Nat.ltb Nat.leb];
        rewrite <- ?app_assoc;
        repeat split; try discriminate; intuition discriminate ].
  cbn [DPDKWrapper.mempool DPDKWrapper.calls].
  destruct (Z.leb_spec 0 (DPDKWrapper.rte_eth_dev_configure d)) as [H4|H4];
    cbn [negb]; cbn beta iota;
    [ | do 2 eexists; cbv zeta; split; [ reflexivity | ];
        cbn [DPDKWrapper.attempted DPDKWrapper.calls DPDKWrapper.mempool
             firstn Nat.ltb Nat.leb];
        rewrite <- ?app_assoc;
        repeat split; try discriminate; intuition lia ].
  cbn [DPDKWrapper.mempool DPDKWrapper.calls].
  destruct (Z.leb_spec 0 (DPDKWrapper.rte_eth_rx_queue_setup d)) as [H5|H5];
    cbn [negb]; cbn beta iota;
    [ | do 2 eexists; cbv zeta; split; [ reflexivity | ];
        cbn [DPDKWrapper.attempted DPDKWrapper.calls DPDKWrapper.mempool
             firstn Nat.ltb Nat.leb];
        rewrite <- ?app_assoc;
        repeat split; try discriminate; intuition lia ].
  cbn [DPDKWrapper.mempool DPDKWrapper.calls].
  destruct (Z.leb_spec 0 (DPDKWrapper.rte_eth_tx_queue_setup d)) as [H6|H6];
    cbn [negb]; cbn beta iota;
    [ | do 2 eexists; cbv zeta; split; [ reflexivity | ];
        cbn [DPDKWrapper.attempted DPDKWrapper.calls DPDKWrapper.mempool
             firstn Nat.ltb Nat.leb];
        rewrite <- ?app_assoc;
        repeat split; try discriminate; intuition lia ].
  cbn [DPDKWrapper.mempool DPDKWrapper.calls].
  destruct (Z.leb_spec 0 (DPDKWrapper.rte_eth_dev_start d)) as [H7|H7];
    cbn [negb]; cbn beta iota;
    do 2 eexists; cbv zeta; (split; [ reflexivity | ]);
    cbn [DPDKWrapper.attempted DPDKWrapper.calls DPDKWrapper.mempool
         firstn Nat.ltb Nat.leb];
    rewrite <- ?app_assoc;
    repeat split; try discriminate; try assumption; intuition lia.
Qed.

(** X25: [initialize] stores the pool as soon as it is created.  When a
    later step fails (configure, a queue, or the start of the port) it
    returns [False] with [mempool] set, and a following [start_capture]
    finds [mempool] set, does not call [initialize] again and enters the
    capture loop without a further call to the driver's setup
    functions. *)
Theorem late_failure_leaves_mempool_set {W : Type}
    (E : DPDKPacketCapture.env W) (d d' : DPDKWrapper.replies)
    (s : DPDKWrapper.t) (fuel : nat) (c : DPDKPacketCapture.t W) :
  0 <= DPDKWrapper.rte_eal_init d ->
  DPDKWrapper.rte_eth_dev_count_avail d <> 0 ->
  DPDKWrapper.is_set (DPDKWrapper.rte_pktmbuf_pool_create d) = true ->
  DPDKWrapper.rte_eth_dev_configure d < 0
  \/ DPDKWrapper.rte_eth_rx_queue_setup d < 0
  \/ DPDKWrapper.rte_eth_tx_queue_setup d < 0
  \/ DPDKWrapper.rte_eth_dev_start d < 0 ->
  exists s',
    DPDKWrapper.initialize d s = (s', Ok false) /\
    DPDKWrapper.mempool s' = DPDKWrapper.rte_pktmbuf_pool_create d /\
    DPDKWrapper.start_capture E d' fuel s' c
    = (s', DPDKPacketCapture.start_capture E fuel c, Ok tt).
Proof.
  intros H1 H2 H3 Hlate.
  assert (Hstart : forall s' : DPDKWrapper.t,
            DPDKWrapper.mempool s' = DPDKWrapper.rte_pktmbuf_pool_create d ->
            DPDKWrapper.start_capture E d' fuel s' c
            = (s', DPDKPacketCapture.start_capture E fuel c, Ok tt)).
  { intros s' Hm. unfold DPDKWrapper.start_capture. now rewrite Hm, H3. }
  unfold DPDKWrapper.initialize, DPDKWrapper.initialize_body,
    DPDKWrapper.initialize_eal, DPDKWrapper.get_port_count,
    DPDKWrapper.create_mempool, DPDKWrapper.configure_port,
    DPDKWrapper.setup_rx_queue, DPDKWrapper.setup_tx_queue,
    DPDKWrapper.start_port, DPDKWrapper.get_mempool,
    DPDKWrapper.set_mempool,
    DPDKWrapper.bind, DPDKWrapper.driver, DPDKWrapper.raise,
    DPDKWrapper.ret.
  cbn beta iota.
  destruct (Z.ltb_spec (DPDKWrapper.rte_eal_init d) 0); [ lia | ].
  cbn beta iota.
  destruct (Z.eqb_spec (DPDKWrapper.rte_eth_dev_count_avail d) 0);
    [ contradiction | ].
  cbn beta iota. rewrite H3. cbn [negb]. cbn beta iota.
  cbn [DPDKWrapper.mempool DPDKWrapper.calls].
  destruct (Z.ltb_spec (DPDKWrapper.rte_eth_dev_configure d) 0);
    cbn beta iota; cbn [DPDKWrapper.mempool DPDKWrapper.calls];
    [ eexists; split; [ reflexivity | split; [ reflexivity | ] ];
      now apply Hstart | ].
  destruct (Z.ltb_spec (DPDKWrapper.rte_eth_rx_queue_setup d) 0);
    cbn beta iota; cbn [DPDKWrapper.mempool DPDKWrapper.calls];
    [ eexists; split; [ reflexivity | split; [ reflexivity | ] ];
      now apply Hstart | ].
  destruct (Z.ltb_spec (DPDKWrapper.rte_eth_tx_queue_setup d) 0);
    cbn beta iota; cbn [DPDKWrapper.mempool DPDKWrapper.calls];
    [ eexists; split; [ reflexivity | split; [ reflexivity | ] ];
      now apply Hstart | ].
  destruct (Z.ltb_spec (DPDKWrapper.rte_eth_dev_start d) 0);
    cbn beta iota; cbn [DPDKWrapper.mempool DPDKWrapper.calls];
    [ eexists; split; [ reflexivity | split; [ reflexivity | ] ];
      now apply Hstart | ].
  lia.
Qed.

(** X25 with a driver that creates the pool at address 4096 and then
    refuses to configure the port. *)
Lemma late_failure_leaves_mempool_set_witness :
  exists s',
    DPDKWrapper.initialize
      {| DPDKWrapper.rte_eal_init := 5;
         DPDKWrapper.rte_eth_dev_count_avail := 1;
         DPDKWrapper.rte_pktmbuf_pool_create := Some 4096;
         DPDKWrapper.rte_eth_dev_configure := -22;
         DPDKWrapper.rte_eth_rx_queue_setup := 0;
         DPDKWrapper.rte_eth_tx_queue_setup := 0;
         DPDKWrapper.rte_eth_dev_start := 0 |}
      {| DPDKWrapper.mempool := None; DPDKWrapper.calls := [] |}
    = (s', Ok false) /\
    DPDKWrapper.mempool s' = Some 4096.
Proof.
  destruct (late_failure_leaves_mempool_set Sample.driver
              {| DPDKWrapper.rte_eal_init := 5;
                 DPDKWrapper.rte_eth_dev_count_avail := 1;
                 DPDKWrapper.rte_pktmbuf_pool_create := Some 4096;
                 DPDKWrapper.rte_eth_dev_configure := -22;
                 DPDKWrapper.rte_eth_rx_queue_setup := 0;
                 DPDKWrapper.rte_eth_tx_queue_setup := 0;
                 DPDKWrapper.rte_eth_dev_start := 0 |}
              {| DPDKWrapper.rte_eal_init := 5;
                 DPDKWrapper.rte_eth_dev_count_avail := 1;
                 DPDKWrapper.rte_pktmbuf_pool_create := Some 4096;
                 DPDKWrapper.rte_eth_dev_configure := -22;
                 DPDKWrapper.rte_eth_rx_queue_setup := 0;
                 DPDKWrapper.rte_eth_tx_queue_setup := 0;
                 DPDKWrapper.rte_eth_dev_start := 0 |}
              {| DPDKWrapper.mempool := None; DPDKWrapper.calls := [] |}
              0%nat Sample.idle_capture)
    as (s' & Hi & Hm & _).
  - simpl. lia.
  - simpl. lia.
  - reflexivity.
  - left. simpl. lia.
  - exists s'. split; [ exact Hi | exact Hm ].
Defined.

(** ** The message sent for a record *)

(** X26: [get_protocol_name] loses nothing: two protocol numbers (not
    negative, as every protocol byte is) with the same name are equal.
    The names of the table are ICMP, TCP, UDP, GRE and ESP for 1, 6, 17,
    47 and 50; any other number [n] is named UNKNOWN_n. *)
Theorem protocol_name_determines_number (a b : Z) :
  0 <= a -> 0 <= b ->
  JSONConverter.get_protocol_name a = JSONConverter.get_protocol_name b ->
  a = b.
Proof.
  intros Ha Hb H.
  destruct (KeyFacts.protocol_map_cases a)
    as [[-> Ea]|[[-> Ea]|[[-> Ea]|[[-> Ea]|[[-> Ea]|Ea]]]]];
  destruct (KeyFacts.protocol_map_cases b)
    as [[-> Eb]|[[-> Eb]|[[-> Eb]|[[-> Eb]|[[-> Eb]|Eb]]]]];
  try reflexivity;
  rewrite Ea, Eb in H; try discriminate H.
  simpl in H. inversion H as [H'].
  rewrite !KeyFacts.str_of_int_nonneg in H' by assumption.
  now apply TextFacts.str_of_Z_inj.
Qed.

(** X26 on protocol 6. *)
Lemma protocol_name_determines_number_witness :
  JSONConverter.get_protocol_name 6 = "TCP"%string /\ 6 = 6.
Proof.
  split; [ reflexivity | ].
  apply (protocol_name_determines_number 6 6); [ lia | lia | reflexivity ].
Defined.

(** X27: [features_to_dict] exports every attribute of the record: the
    dictionary has 49 entries under 49 different keys (the 47 attributes,
    [capture_timestamp] and [protocol_name]), and two records with the
    same dictionary are the same record. *)
Theorem dictionary_keeps_every_field (f g : NetworkFeatures.t)
    (now now' : string) :
  length (JSONConverter.features_to_dict f now) = 49%nat /\
  NoDup (map fst (JSONConverter.features_to_dict f now)) /\
  (JSONConverter.features_to_dict f now
   = JSONConverter.features_to_dict g now' -> f = g).
Proof.
  split; [ reflexivity | ]. split.
  - unfold JSONConverter.features_to_dict. cbn [map fst].
    apply NoDup_ListNoDup.
    apply (NoDup_count_occ' string_dec).
    intros x Hx.
    repeat (destruct Hx as [<-|Hx]; [ vm_compute; reflexivity | ]).
    destruct Hx.
  - destruct f, g. unfold JSONConverter.features_to_dict.
    cbn [NetworkFeatures.src_ip NetworkFeatures.dst_ip
         NetworkFeatures.src_port NetworkFeatures.dst_port
         NetworkFeatures.protocol NetworkFeatures.packet_length
         NetworkFeatures.header_length NetworkFeatures.ttl
         NetworkFeatures.tos NetworkFeatures.tcp_flags
         NetworkFeatures.tcp_window NetworkFeatures.tcp_seq
         NetworkFeatures.tcp_ack NetworkFeatures.tcp_flag_fin
         NetworkFeatures.tcp_flag_syn NetworkFeatures.tcp_flag_rst
         NetworkFeatures.tcp_flag_psh NetworkFeatures.tcp_flag_ack
         NetworkFeatures.tcp_flag_urg NetworkFeatures.timestamp
         NetworkFeatures.flow_duration NetworkFeatures.total_fwd_packets
         NetworkFeatures.total_bwd_packets
         NetworkFeatures.total_length_fwd_packets
         NetworkFeatures.total_length_bwd_packets
         NetworkFeatures.packet_length_mean
         NetworkFeatures.packet_length_std
         NetworkFeatures.packet_length_min
         NetworkFeatures.packet_length_max
         NetworkFeatures.packet_length_variance
         NetworkFeatures.fwd_packet_length_mean
         NetworkFeatures.flow_bytes_per_second
         NetworkFeatures.flow_packets_per_second
         NetworkFeatures.fwd_packets_per_second
         NetworkFeatures.bwd_packets_per_second
         NetworkFeatures.flow_inter_arrival_time_mean
         NetworkFeatures.flow_inter_arrival_time_std
         NetworkFeatures.fwd_inter_arrival_time_mean
         NetworkFeatures.bwd_inter_arrival_time_mean
         NetworkFeatures.active_mean NetworkFeatures.active_std
         NetworkFeatures.idle_mean NetworkFeatures.idle_std
         NetworkFeatures.tcp_window_size_mean
         NetworkFeatures.tcp_flags_count NetworkFeatures.flow_bytes_total
         NetworkFeatures.label].
    intros H. injection H. intros. subst. reflexivity.
Qed.

(** X28: without a key argument [send_message] keys the message of a
    record by [src_ip:src_port]; the defaults "unknown" and 0 are never
    used.  For records whose [src_ip] is empty or a dotted address (all
    that [parse_packet] produces) and whose port is not negative, the key
    determines the source endpoint. *)
Theorem message_key_determines_source (float_str : Q -> string)
    (f g : NetworkFeatures.t) (now now' : string) :
  (NetworkFeatures.src_ip f = ""%string
   \/ exists p, NetworkFeatures.src_ip f = dotted p) ->
  (NetworkFeatures.src_ip g = ""%string
   \/ exists p, NetworkFeatures.src_ip g = dotted p) ->
  0 <= NetworkFeatures.src_port f ->
  0 <= NetworkFeatures.src_port g ->
  let key r t :=
    KafkaProducerClient.message_key float_str
      (JSONConverter.features_to_dict r t) None in
  key f now
  = String.append (NetworkFeatures.src_ip f)
      (String.append ":" (str_of_Z (NetworkFeatures.src_port f))) /\
  (key f now = key g now' ->
   NetworkFeatures.src_ip f = NetworkFeatures.src_ip g /\
   NetworkFeatures.src_port f = NetworkFeatures.src_port g).
Proof.
  intros Hf Hg Pf Pg. cbv beta zeta.
  assert (Hkey : forall r t,
            0 <= NetworkFeatures.src_port r ->
            KafkaProducerClient.message_key float_str
              (JSONConverter.features_to_dict r t) None
            = String.append (NetworkFeatures.src_ip r)
                (String.append ":" (str_of_Z (NetworkFeatures.src_port r)))).
  { intros r t Hr. unfold KafkaProducerClient.message_key.
    unfold JSONConverter.features_to_dict.
    cbn [KafkaProducerClient.get String.eqb Ascii.eqb Bool.eqb
         KafkaProducerClient.format].
    now rewrite KeyFacts.str_of_int_nonneg. }
  assert (Hcolon : forall r,
            (NetworkFeatures.src_ip r = ""%string
             \/ exists p, NetworkFeatures.src_ip r = dotted p) ->
            ~ In ":"%char (list_ascii_of_string (NetworkFeatures.src_ip r))).
  { intros r [->|[p ->]]; [ simpl; tauto | apply KeyFacts.dotted_no_colon ]. }
  rewrite !Hkey by assumption. split; [ reflexivity | ].
  intros H.
  change (String.append ":" ?x) with (String ":"%char x) in H.
  apply KeyFacts.split_at_colon in H as [E1 E2]; try now apply Hcolon.
  split; [ exact E1 | ]. now apply TextFacts.str_of_Z_inj.
Qed.

(** X28 on the default record, whose key is ":0". *)
Lemma message_key_determines_source_witness :
  KafkaProducerClient.message_key (fun _ => ""%string)
    (JSONConverter.features_to_dict NetworkFeatures.init ""%string) None
  = ":0"%string.
Proof.
  refine (proj1 (message_key_determines_source (fun _ => ""%string)
                   NetworkFeatures.init NetworkFeatures.init
                   ""%string ""%string _ _ _ _)).
  - left. reflexivity.
  - left. reflexivity.
  - simpl. lia.
  - simpl. lia.
Defined.
